(** * Retrieval engine of the Python detection-rule validator

    A shallow embedding of the retrieval and re-ranking engine
    ([RAGEngine], both revisions found in the repository), of the text
    normaliser of the embedding client ([TitanEmbeddingClient]) and of the
    part of the [validate-rag] route that drives them, followed by the
    properties the specification attaches to them.

    Conventions of the embedding:
    - a JavaScript string is a [text], the list of its code units; a code
      unit is an [ascii], so the model covers the Latin-1 range (the fixed
      Korean prose of the prompts is carried as opaque literals);
    - a JavaScript or SQL floating-point number is an exact rational [Q];
    - a rejected promise or a thrown exception is the [Err] branch of
      [Result];
    - the vector store is a pair of tables listed in scan order, a distance
      operator and, per query site, the failure that query raises, if any;
      [ORDER BY] is a stable sort of the scanned rows. *)

From Stdlib Require Import Ascii String QArith Qround Lqa DecimalString.
From stdpp Require Import gmap strings list sorting.

Set Warnings "-abstract-large-number".

Local Open Scope list_scope.

(** ** Text *)

Definition text := list ascii.

Definition txt (s : string) : text := list_ascii_of_string s.

Definition codeUnit (c : ascii) : N := N_of_ascii c.

(** [String.prototype.toLowerCase] on the Latin-1 range. *)
Definition lowerUnit (c : ascii) : ascii :=
  let n := codeUnit c in
  if ((65 <=? n) && (n <=? 90))%N then ascii_of_N (n + 32)
  else if ((192 <=? n) && (n <=? 222) && negb (n =? 215))%N then ascii_of_N (n + 32)
  else c.

Definition toLowerCase (s : text) : text := map lowerUnit s.

Definition ascii_eqb (a b : ascii) : bool := bool_decide (a = b).

Fixpoint startsWith (needle s : text) : bool :=
  match needle, s with
  | [], _ => true
  | _ :: _, [] => false
  | a :: needle', b :: s' => ascii_eqb a b && startsWith needle' s'
  end.

(** [String.prototype.includes]. *)
Fixpoint includes (needle s : text) : bool :=
  startsWith needle s ||
  match s with
  | [] => false
  | _ :: s' => includes needle s'
  end.

(** White space of the regular-expression class [\s] and of [trim]
    (the two classes coincide), on the Latin-1 range. *)
Definition isSpace (c : ascii) : bool :=
  let n := codeUnit c in
  ((9 <=? n) && (n <=? 13) || (n =? 32) || (n =? 160))%N.

Definition isNewline (c : ascii) : bool := (codeUnit c =? 10)%N.

Definition space : ascii := " "%char.
Definition newline : ascii := ascii_of_N 10.

(** [s.replace(/c+/g, r)] for a character class [c] and a one-unit
    replacement [r]: every maximal run of [c] becomes one [r].  The flag
    tells whether the previous unit belonged to a run. *)
Fixpoint replaceRuns (c : ascii -> bool) (r : ascii) (inRun : bool) (s : text) : text :=
  match s with
  | [] => []
  | x :: s' =>
      if c x then
        if inRun then replaceRuns c r true s' else r :: replaceRuns c r true s'
      else x :: replaceRuns c r false s'
  end.

Fixpoint trimStart (s : text) : text :=
  match s with
  | [] => []
  | x :: s' => if isSpace x then trimStart s' else s
  end.

Definition trimEnd (s : text) : text := reverse (trimStart (reverse s)).

Definition trim (s : text) : text := trimEnd (trimStart s).

(** [s.slice(0, n)]. *)
Definition slice0 (n : nat) (s : text) : text := take n s.

(** Decimal rendering of a non-negative integer. *)
Definition showN (n : N) : text := txt (NilZero.string_of_uint (N.to_uint n)).

Definition showZ (z : Z) : text :=
  if (z <? 0)%Z then txt "-" ++ showN (Z.to_N (- z)) else showN (Z.to_N z).

(** [Number.prototype.toFixed(1)]: the nearest multiple of one tenth, the
    larger one on a tie, after the sign has been set aside. *)
Definition toFixed1 (x : Q) : text :=
  let neg := if Qlt_le_dec x 0%Q then true else false in
  let a := if neg then Qopp x else x in
  let n := Z.to_N (Qfloor (a * 10 + (1 # 2))%Q) in
  (if neg then txt "-" else []) ++ showN (n / 10) ++ txt "." ++ showN (n mod 10).

(** ** Exceptions and results *)

Inductive Exn :=
| JsError (message : text)
| JsValue (v : text).

Inductive Result (A : Type) :=
| Ok (a : A)
| Err (e : Exn).
Arguments Ok {A} a.
Arguments Err {A} e.

#[global] Instance Result_ret : MRet Result := fun _ a => Ok a.

#[global] Instance Result_bind : MBind Result := fun _ _ k m =>
  match m with
  | Ok a => k a
  | Err e => Err e
  end.

(** [try { body } catch (error) { handler }]. *)
Definition tryCatch {A} (body : Result A) (handler : Exn -> Result A) : Result A :=
  match body with
  | Ok a => Ok a
  | Err e => handler e
  end.

(** [error instanceof Error ? error.message : fallback]. *)
Definition messageOr (fallback : text) (e : Exn) : text :=
  match e with
  | JsError m => m
  | JsValue _ => fallback
  end.

(** ** The embedding client *)

Definition vector := list Q.

Module TitanEmbeddingClient.

Definition maxInputLength : nat := 8000.

Definition preprocessText (t : text) : text :=
  slice0 maxInputLength
    (trim (replaceRuns isNewline newline false
             (replaceRuns isSpace space false t))).

(** The catch block of [generateEmbedding]: the failure of the model
    invocation is re-thrown under a message that tells its kind. *)
Definition rethrow (error : Exn) : Exn :=
  match error with
  | JsError m =>
      if includes (txt "ENOTFOUND") m then
        JsError (txt "Invalid AWS region or network error: " ++ m)
      else if includes (txt "UnrecognizedClientException") m
              || includes (txt "security token") m then
        JsError (txt "AWS authentication failed. Please check your credentials: " ++ m)
      else if includes (txt "throttling") m || includes (txt "ThrottlingException") m then
        JsError (txt "Rate limit exceeded. Please try again later: " ++ m)
      else JsError (txt "Failed to generate embedding: " ++ m)
  | JsValue _ => JsError (txt "Failed to generate embedding: Unknown error")
  end.

(** [invoke] is the hosted model behind the client: the embedding found
    in the response body, [None] when the body holds no embedding array,
    or the exception of the call. *)
Definition generateEmbedding (invoke : text -> Result (option vector)) (t : text)
  : Result vector :=
  tryCatch
    (body ← invoke t;
     match body with
     | Some embedding => Ok embedding
     | None => Err (JsError (txt "Invalid embedding response format"))
     end)
    (fun error => Err (rethrow error)).

(** The loop of [generateBulkEmbeddings] over the texts still to embed,
    [embeddings] being the array filled so far.  The pause between two
    calls does not bear on the result. *)
Fixpoint bulkLoop (invoke : text -> Result (option vector)) (texts : list text)
    (embeddings : list vector) : list vector :=
  match texts with
  | [] => embeddings
  | t :: rest =>
      match generateEmbedding invoke t with
      | Ok embedding => bulkLoop invoke rest (embeddings ++ [embedding])
      | Err _ => bulkLoop invoke rest (embeddings ++ [[]])
      end
  end.

Definition generateBulkEmbeddings (invoke : text -> Result (option vector))
    (texts : list text) : list vector :=
  bulkLoop invoke texts [].

End TitanEmbeddingClient.

(** ** The stored collections ([schema.ts]) *)

Module KnowledgeDocument.
Record t := mk {
  id : text;
  title : text;
  content : text;
  section : option text;
  documentType : text;
  embedding : option vector;
  metadata : option text
}.
End KnowledgeDocument.

Module CodeExample.
Record t := mk {
  id : text;
  title : text;
  codeContent : text;
  qualityScore : Z;
  category : option text;
  description : option text;
  embedding : option vector;
  tags : option (list text)
}.
End CodeExample.

(** The queries the engine sends, one constructor per call site. *)
Inductive Query :=
| QPantherRules
| QRelevantRules
| QSimilarExamples
| QPantherFunctions
| QDocCount
| QExampleCount
| QDocTypes
| QExampleCategories.

#[global] Instance Query_eq_dec : EqDecision Query.
Proof. solve_decision. Defined.

(** What lies outside the engine: the embedding model, the two tables in
    scan order, the distance operator [<=>] of the store, the exception a
    query raises (if it does) and the two readings of the clock. *)
Record World := {
  invokeModel : text -> Result (option vector);
  knowledgeDocuments : list KnowledgeDocument.t;
  codeExamples : list CodeExample.t;
  cosineDistance : vector -> vector -> Q;
  queryFault : Query -> option Exn;
  startTime : Z;
  endTime : Z
}.

(** [await db.select()...]: the rows, unless the query fails. *)
Definition runQuery {A} (w : World) (q : Query) (rows : A) : Result A :=
  match queryFault w q with
  | Some e => Err e
  | None => Ok rows
  end.

(** ** SQL fragments *)

(** One unit of a [LIKE] pattern against one unit of text under [ILIKE];
    the underscore matches any unit. *)
Definition likeUnit (p c : ascii) : bool :=
  ascii_eqb p "_"%char || ascii_eqb (lowerUnit p) (lowerUnit c).

Fixpoint likePrefix (pat s : text) : bool :=
  match pat, s with
  | [], _ => true
  | _ :: _, [] => false
  | p :: pat', c :: s' => likeUnit p c && likePrefix pat' s'
  end.

Fixpoint likeAnywhere (pat s : text) : bool :=
  likePrefix pat s ||
  match s with
  | [] => false
  | _ :: s' => likeAnywhere pat s'
  end.

(** [column ILIKE '%pat%']; a [NULL] column does not satisfy it. *)
Definition ilike (column : option text) (pat : text) : bool :=
  match column with
  | Some s => likeAnywhere pat s
  | None => false
  end.

(** [ORDER BY]: SQL fixes the order of rows of different keys and leaves
    the order of rows of equal keys to the database.  [orderBy] is one
    arrangement it allows, by insertion into a list sorted by [le] before
    the first row that does not precede the new one; [arrangedBy] below
    holds of every arrangement it allows. *)
Fixpoint insertBy {A} (le : A -> A -> bool) (x : A) (l : list A) : list A :=
  match l with
  | [] => [x]
  | y :: l' => if le x y then x :: l else y :: insertBy le x l'
  end.

Fixpoint orderBy {A} (le : A -> A -> bool) (l : list A) : list A :=
  match l with
  | [] => []
  | x :: l' => insertBy le x (orderBy le l')
  end.

Definition ascending {A} (key : A -> Q) (a b : A) : bool := Qle_bool (key a) (key b).
Definition descending {A} (key : A -> Q) (a b : A) : bool := Qle_bool (key b) (key a).

(** [sorted] holds the rows of [rows], each as often, in an order in which
    every row precedes those after it. *)
Definition arrangedBy {A} (le : A -> A -> bool) (rows sorted : list A) : Prop :=
  rows ≡ₚ sorted /\ StronglySorted (fun a b => le a b = true) sorted.

(** [value || undefined] on a nullable text column. *)
Definition orUndefined (o : option text) : option text :=
  match o with
  | Some [] => None
  | _ => o
  end.


Definition Qlt_bool (a b : Q) : bool := negb (Qle_bool b a).

(** The rows a similarity query ranges over, each with its distance to the
    query vector.  A row without embedding has a [NULL] distance and
    satisfies no comparison, so that no query below selects it. *)
Definition scan {R} (embedding : R -> option vector) (w : World)
    (queryEmbedding : vector) (table : list R) : list (R * Q) :=
  omap (fun r => e ← embedding r; Some (r, cosineDistance w e queryEmbedding)) table.

(** ** Transient results *)

Module SearchResult.
Record t := mk {
  id : text;
  title : text;
  content : text;
  section : option text;
  documentType : text;
  similarity : Q;
  metadata : option text
}.
End SearchResult.

Module ExampleSearchResult.
Record t := mk {
  id : text;
  title : text;
  codeContent : text;
  qualityScore : Z;
  category : option text;
  description : option text;
  similarity : Q;
  tags : option (list text)
}.
End ExampleSearchResult.

Module ComplianceContext.
Record t := mk {
  missingRequirements : list text;
  complianceScore : Z;
  suggestions : list text
}.
End ComplianceContext.

Module SearchMetadata.
Record t := mk {
  documentsFound : nat;
  examplesFound : nat;
  queryProcessingTime : Z
}.
End SearchMetadata.

Module RAGContext.
Record t := mk {
  relevantDocuments : list SearchResult.t;
  similarExamples : list ExampleSearchResult.t;
  enhancedPrompt : text;
  searchMetadata : SearchMetadata.t;
  complianceContext : option ComplianceContext.t
}.
End RAGContext.

Module SearchStats.
Record t := mk {
  totalDocuments : N;
  totalExamples : N;
  documentTypes : gmap text N;
  exampleCategories : gmap text N
}.
End SearchStats.

Definition nl : text := [newline].

(** The row of a document query as the engine hands it on. *)
Definition toSearchResult (d : KnowledgeDocument.t) (similarity : Q) : SearchResult.t :=
  SearchResult.mk (KnowledgeDocument.id d) (KnowledgeDocument.title d)
    (KnowledgeDocument.content d) (orUndefined (KnowledgeDocument.section d))
    (KnowledgeDocument.documentType d) similarity (KnowledgeDocument.metadata d).

Definition toExampleSearchResult (c : CodeExample.t) (similarity : Q)
  : ExampleSearchResult.t :=
  ExampleSearchResult.mk (CodeExample.id c) (CodeExample.title c)
    (CodeExample.codeContent c) (CodeExample.qualityScore c)
    (orUndefined (CodeExample.category c)) (orUndefined (CodeExample.description c))
    similarity (CodeExample.tags c).

Definition rethrowAs (prefix : text) (error : Exn) : Exn :=
  JsError (prefix ++ messageOr (txt "Unknown error") error).

Definition embedQuery (w : World) (query : text) : Result vector :=
  TitanEmbeddingClient.generateEmbedding (invokeModel w)
    (TitanEmbeddingClient.preprocessText query).

(** [%.1f] of a similarity as a percentage, and a one-based index. *)
Definition percent (similarity : Q) : text := toFixed1 (similarity * 100)%Q.
Definition ordinal (index : nat) : text := showN (N.of_nat (index + 1)).

(** [content.slice(0, budget)] followed by the marker when content is
    longer than the budget. *)
Definition clip (budget : nat) (marker content : text) : text :=
  slice0 budget content ++ (if budget <? length content then marker else []).

Definition hasText (o : option text) : bool :=
  match o with
  | Some (_ :: _) => true
  | _ => false
  end.

Definition renderExample (index : nat) (example : ExampleSearchResult.t) : text :=
  txt "### 예제 " ++ ordinal index ++ txt ": " ++ ExampleSearchResult.title example
  ++ txt " (품질점수: " ++ showZ (ExampleSearchResult.qualityScore example)
  ++ txt "/100, 유사도: " ++ percent (ExampleSearchResult.similarity example)
  ++ txt "%)" ++ nl
  ++ (if hasText (ExampleSearchResult.description example)
      then txt "**설명**: " ++ default [] (ExampleSearchResult.description example) ++ nl
      else [])
  ++ (if hasText (ExampleSearchResult.category example)
      then txt "**카테고리**: " ++ default [] (ExampleSearchResult.category example) ++ nl
      else [])
  ++ txt "**코드**:" ++ nl ++ txt "```python" ++ nl
  ++ clip 600 (nl ++ txt "# ... (truncated)") (ExampleSearchResult.codeContent example)
  ++ nl ++ txt "```" ++ nl ++ nl.

Definition renderExamples (examples : list ExampleSearchResult.t) : text :=
  if bool_decide (0 < length examples) then
    txt "## 유사한 코드 예제 참고:" ++ nl ++ nl ++ concat (imap renderExample examples)
  else [].

Definition renderHeading (label : text) (index : nat) (doc : SearchResult.t) : text :=
  txt "### " ++ ordinal index ++ txt ". " ++ SearchResult.title doc
  ++ (if hasText (SearchResult.section doc)
      then txt " - " ++ default [] (SearchResult.section doc) else [])
  ++ txt " (" ++ label ++ txt ": " ++ percent (SearchResult.similarity doc)
  ++ txt "%)" ++ nl.

Definition roleStatement : text :=
  txt "당신은 Panther 탐지 규칙을 전문으로 하는 Python 코드 검증자입니다." ++ nl ++ nl.

(** ** The engine (revision with authority weighting) *)

Module RAGEngine.

(** The [CASE] expression of [searchPantherRules], on a row of raw
    similarity [similarity]. *)
Definition weightedScore (d : KnowledgeDocument.t) (similarity : Q) : Q :=
  if ilike (KnowledgeDocument.section d) (txt "Panther Rule")
     && bool_decide (KnowledgeDocument.documentType d = txt "rule")
  then (similarity * (13 # 10))%Q
  else if ilike (KnowledgeDocument.section d) (txt "Writing Python Detections")
  then (similarity * (12 # 10))%Q
  else if bool_decide (KnowledgeDocument.documentType d = txt "rule")
  then (similarity * (11 # 10))%Q
  else similarity.

Definition rawSimilarity (row : KnowledgeDocument.t * Q) : Q := (1 - row.2)%Q.

Definition rowWeightedScore (row : KnowledgeDocument.t * Q) : Q :=
  weightedScore row.1 (rawSimilarity row).

(** The rows within the distance [1 - minSimilarity], in scan order. *)
Definition eligible {R} (embedding : R -> option vector) (w : World)
    (queryEmbedding : vector) (minSimilarity : Q) (table : list R) : list (R * Q) :=
  filter (fun row => Qlt_bool row.2 (1 - minSimilarity)%Q = true)
    (scan embedding w queryEmbedding table).

(** The statement [searchPantherRules] sends. *)
Definition pantherRulesRows (w : World) (queryEmbedding : vector) (topK : nat)
    (minSimilarity : Q) : list (KnowledgeDocument.t * Q) :=
  take topK
    (orderBy (descending rowWeightedScore)
       (eligible KnowledgeDocument.embedding w queryEmbedding minSimilarity
          (knowledgeDocuments w))).

(** The answers the statement of [searchPantherRules] admits: the first
    [topK] rows of an arrangement of the eligible rows by descending
    weighted score, the only key of its [ORDER BY]. *)
Definition pantherRulesAnswer (w : World) (queryEmbedding : vector) (topK : nat)
    (minSimilarity : Q) (rows : list (KnowledgeDocument.t * Q)) : Prop :=
  exists sorted,
    arrangedBy (descending rowWeightedScore)
      (eligible KnowledgeDocument.embedding w queryEmbedding minSimilarity
         (knowledgeDocuments w)) sorted
    /\ rows = take topK sorted.

Definition searchPantherRules (w : World) (query : text) (topK : nat)
    (minSimilarity : Q) : Result (list SearchResult.t) :=
  tryCatch
    (queryEmbedding ← embedQuery w query;
     results ← runQuery w QPantherRules
       (pantherRulesRows w queryEmbedding topK minSimilarity);
     Ok (map (fun result => toSearchResult result.1 (rowWeightedScore result)) results))
    (fun error => Err (rethrowAs (txt "Panther rule search failed: ") error)).

(** The statement [searchRelevantRules] sends, answered over all the
    eligible rows.  The tables carry indexes for approximate
    nearest-neighbour search, by which the store may pass over eligible
    rows: what is proved of the similarity statements is that their rows
    are eligible, ordered and at most [topK], not that they are the
    nearest. *)
Definition relevantRulesRows (w : World) (queryEmbedding : vector) (topK : nat)
    (minSimilarity : Q) : list (KnowledgeDocument.t * Q) :=
  take topK
    (orderBy (ascending snd)
       (eligible KnowledgeDocument.embedding w queryEmbedding minSimilarity
          (knowledgeDocuments w))).

Definition searchRelevantRules (w : World) (query : text) (topK : nat)
    (minSimilarity : Q) : Result (list SearchResult.t) :=
  tryCatch
    (queryEmbedding ← embedQuery w query;
     results ← runQuery w QRelevantRules
       (relevantRulesRows w queryEmbedding topK minSimilarity);
     Ok (map (fun result => toSearchResult result.1 (rawSimilarity result)) results))
    (fun error => Err (rethrowAs (txt "RAG search failed: ") error)).

Definition searchSimilarExamples (w : World) (code : text) (topK : nat)
    (minSimilarity : Q) : Result (list ExampleSearchResult.t) :=
  tryCatch
    (codeEmbedding ← embedQuery w code;
     results ← runQuery w QSimilarExamples
       (take topK
          (orderBy (ascending snd)
             (eligible CodeExample.embedding w codeEmbedding minSimilarity
                (codeExamples w))));
     Ok (map (fun result => toExampleSearchResult result.1 (1 - result.2)%Q) results))
    (fun error => Err (rethrowAs (txt "Example search failed: ") error)).

Definition pantherKeywords : list text :=
  [txt "rule("; txt "severity("; txt "title("; txt "dedup("; txt "runbook(";
   txt "deep_get"; txt "deep_walk"; txt "event.get"; txt "event.udm"].

Definition mentionsPantherFunction (d : KnowledgeDocument.t) : bool :=
  existsb (fun keyword => likeAnywhere keyword (KnowledgeDocument.content d))
    pantherKeywords.

Definition searchByPantherFunctions (w : World) (query : text) (topK : nat)
  : Result (list SearchResult.t) :=
  tryCatch
    (queryEmbedding ← embedQuery w query;
     results ← runQuery w QPantherFunctions
       (take topK
          (orderBy (descending rawSimilarity)
             (filter (fun row => mentionsPantherFunction row.1
                                 && Qlt_bool row.2 (1 # 2) = true)
                (scan KnowledgeDocument.embedding w queryEmbedding
                   (knowledgeDocuments w)))));
     Ok (map (fun result => toSearchResult result.1 (rawSimilarity result)) results))
    (fun _ => Ok []).

(** The filter of [buildEnhancedContext] over the set [seenIds]. *)
Fixpoint filterUnseen (seenIds : gset text) (docs : list SearchResult.t)
  : list SearchResult.t :=
  match docs with
  | [] => []
  | doc :: rest =>
      if decide (SearchResult.id doc ∈ seenIds) then filterUnseen seenIds rest
      else doc :: filterUnseen ({[SearchResult.id doc]} ∪ seenIds) rest
  end.

Definition isOfficial (doc : SearchResult.t) : bool :=
  match SearchResult.section doc with
  | Some s => includes (txt "Panther Rule") s
              || includes (txt "Writing Python Detections") s
  | None => false
  end
  || bool_decide (SearchResult.documentType doc = txt "rule").

Definition renderOfficial (index : nat) (doc : SearchResult.t) : text :=
  renderHeading (txt "권위도") index doc
  ++ txt "**핵심 요구사항**: " ++ clip 1000 (txt "...") (SearchResult.content doc)
  ++ nl ++ nl.

Definition renderOther (index : nat) (doc : SearchResult.t) : text :=
  renderHeading (txt "관련도") index doc
  ++ clip 600 (txt "...") (SearchResult.content doc) ++ nl ++ nl.

Definition officialChecklist : text :=
  txt "### 📋 공식 규칙 기반 체크리스트:" ++ nl
  ++ txt "위의 공식 Panther 문서를 바탕으로 다음을 **필수적으로** 검증하세요:" ++ nl ++ nl
  ++ txt "1. **필수 함수 구조 (90점 만점)**:" ++ nl
  ++ txt "   - `rule(event)` 함수 존재 및 올바른 반환값 (Boolean)" ++ nl
  ++ txt "   - 필요시 `severity()`, `title()`, `dedup()`, `runbook()` 함수 구현" ++ nl
  ++ txt "   - 함수 시그니처와 반환 타입의 정확성" ++ nl ++ nl
  ++ txt "2. **Panther 내장 함수 활용 (80점 만점)**:" ++ nl
  ++ txt "   - `event.get()`, `deep_get()`, `deep_walk()` 적절한 사용" ++ nl
  ++ txt "   - UDM(Unified Data Model) 필드 활용도" ++ nl
  ++ txt "   - 안전한 데이터 접근 패턴" ++ nl ++ nl
  ++ txt "3. **보안 및 성능 (70점 만점)**:" ++ nl
  ++ txt "   - 15초 내 실행 보장 (타임아웃 방지)" ++ nl
  ++ txt "   - 외부 API 호출 금지 준수" ++ nl
  ++ txt "   - 예외 처리 및 안전한 데이터 핸들링" ++ nl ++ nl.

Definition closingInstructions : text :=
  txt "### 🔍 추가 품질 평가:" ++ nl
  ++ txt "- **코드 품질**: 유사 예제와 비교한 구현 수준" ++ nl
  ++ txt "- **탐지 정확성**: False positive/negative 최소화" ++ nl
  ++ txt "- **가독성**: 코드 명확성과 주석의 적절성" ++ nl
  ++ txt "- **유지보수성**: 확장성과 수정 용이성" ++ nl ++ nl
  ++ txt "### ⚠️ 중요 지침:" ++ nl
  ++ txt "- 공식 Panther 문서의 요구사항을 **최우선**으로 적용" ++ nl
  ++ txt "- 규칙 준수성 점수는 공식 가이드라인 준수 정도에 따라 엄격하게 채점" ++ nl
  ++ txt "- 참고 문서의 구체적인 예시와 패턴을 인용하여 개선 제안 제공" ++ nl
  ++ txt "- 검증 불가능한 부분은 명시적으로 언급" ++ nl ++ nl
  ++ txt "**모든 응답은 한국어로 작성하고 JSON 형식만 반환하세요.**".

Definition buildPromptWithRAG (documents : list SearchResult.t)
    (examples : list ExampleSearchResult.t) : text :=
  let officialRules := filter (fun doc => isOfficial doc = true) documents in
  let otherDocs := filter (fun doc => isOfficial doc = false) documents in
  roleStatement
  ++ (if bool_decide (0 < length officialRules) then
        txt "## 🔴 공식 Panther 규칙 가이드라인:" ++ nl ++ nl
        ++ concat (imap renderOfficial officialRules)
      else [])
  ++ (if bool_decide (0 < length otherDocs) then
        txt "## 📘 추가 참고 문서:" ++ nl ++ nl ++ concat (imap renderOther otherDocs)
      else [])
  ++ renderExamples examples
  ++ txt "## 🎯 Panther 규칙 준수성 평가 기준:" ++ nl ++ nl
  ++ (if bool_decide (0 < length officialRules) then officialChecklist else [])
  ++ closingInstructions.

(** *** Rule patterns *)

(** A JavaScript [Set] of strings read back with [Array.from]: the
    members in the order of their first insertion. *)
Definition setAdd (x : text) (members : list text) : list text :=
  if bool_decide (x ∈ members) then members else members ++ [x].

Definition functionNames : list text :=
  [txt "rule"; txt "severity"; txt "title"; txt "dedup"; txt "runbook"].

(** A match of [def\s+(rule|severity|title|dedup|runbook)\s*\(] at the
    head of [s]; the value is the name [def\s+(\w+)] then captures. *)
Definition matchDef (s : text) : option text :=
  if startsWith (txt "def") s then
    let afterDef := drop 3 s in
    let afterGap := trimStart afterDef in
    if bool_decide (length afterGap < length afterDef) then
      List.find (fun name =>
                   startsWith name afterGap
                   && startsWith (txt "(") (trimStart (drop (length name) afterGap)))
                functionNames
    else None
  else None.

(** [content.match(/.../g)]: two matches never overlap, so the matches
    are those found at the successive positions. *)
Fixpoint functionMatches (s : text) : list text :=
  match s with
  | [] => []
  | _ :: s' => from_option (fun name => [name]) [] (matchDef s) ++ functionMatches s'
  end.

(** [s.split(/c+/)] for a character class [c]; [cur] is the piece being
    read and [inRun] tells whether the previous unit was a separator. *)
Fixpoint splitRuns (c : ascii -> bool) (inRun : bool) (cur s : text) : list text :=
  match s with
  | [] => [cur]
  | x :: s' =>
      if c x then
        if inRun then splitRuns c true [] s' else cur :: splitRuns c true [] s'
      else splitRuns c false (cur ++ [x]) s'
  end.

Definition isSentenceEnd (c : ascii) : bool :=
  ascii_eqb c "."%char || ascii_eqb c "!"%char || ascii_eqb c "?"%char.

Record RulePatterns := {
  requiredFunctions : list text;
  commonPatterns : list text;
  validationRules : list text;
  bestPractices : list text
}.

Definition addIf (b : bool) (x : text) (members : list text) : list text :=
  if b then setAdd x members else members.

(** The body of the [forEach] of [extractRulePatterns]. *)
Definition extractFrom (acc : RulePatterns) (doc : SearchResult.t) : RulePatterns :=
  let content := toLowerCase (SearchResult.content doc) in
  let sectioned :=
    match SearchResult.section doc with
    | Some s => includes (txt "best practice") s
    | None => false
    end in
  {| requiredFunctions :=
       fold_left (fun members name => setAdd name members)
         (List.filter (fun name => bool_decide (0 < length name)) (functionMatches content))
         (requiredFunctions acc);
     commonPatterns :=
       addIf (includes (txt "try:") content && includes (txt "except:") content)
         (txt "예외 처리 구현")
         (addIf (includes (txt "event.udm") content) (txt "UDM 필드 활용")
            (addIf (includes (txt "deep_walk(") content) (txt "deep_walk() 중첩 탐색")
               (addIf (includes (txt "deep_get(") content) (txt "deep_get() 안전한 접근")
                  (addIf (includes (txt "event.get(") content) (txt "event.get() 사용")
                     (commonPatterns acc)))));
     validationRules :=
       addIf (includes (txt "api") content && includes (txt "request") content)
         (txt "외부 API 호출 금지")
         (addIf (includes (txt "timeout") content || includes (txt "15 second") content)
            (txt "15초 실행 시간 제한")
            (addIf (includes (txt "return true") content
                    || includes (txt "return false") content)
               (txt "Boolean 반환값 필수")
               (validationRules acc)));
     bestPractices :=
       if sectioned || includes (txt "best practice") content then
         fold_left
           (fun members sentence =>
              addIf (includes (txt "should") sentence || includes (txt "must") sentence
                     || includes (txt "recommended") sentence)
                (slice0 100 (trim sentence)) members)
           (splitRuns isSentenceEnd false [] content)
           (bestPractices acc)
       else bestPractices acc |}.

Definition extractRulePatterns (documents : list SearchResult.t) : RulePatterns :=
  let sets := fold_left extractFrom documents
                {| requiredFunctions := []; commonPatterns := [];
                   validationRules := []; bestPractices := [] |} in
  {| requiredFunctions := requiredFunctions sets;
     commonPatterns := commonPatterns sets;
     validationRules := validationRules sets;
     bestPractices := take 5 (bestPractices sets) |}.

(** The three conditions [buildRuleComplianceContext] tests on the
    lower-cased code. *)
Definition missingRule (codeLines : text) : bool :=
  negb (includes (txt "def rule(") codeLines).

Definition missingAccessor (codeLines : text) : bool :=
  negb (includes (txt "event.get(") codeLines)
  && negb (includes (txt "deep_get(") codeLines).

Definition missingBoolean (codeLines : text) : bool :=
  negb (includes (txt "return true") codeLines)
  && negb (includes (txt "return false") codeLines).

Definition buildRuleComplianceContext (code : text) (documents : list SearchResult.t)
  : ComplianceContext.t :=
  let patterns := extractRulePatterns documents in
  let codeLines := toLowerCase code in
  let missingRequirements := [] in
  let complianceScore := 100%Z in
  let '(missingRequirements, complianceScore) :=
    if missingRule codeLines
    then (missingRequirements ++ [txt "rule(event) 함수가 누락되었습니다"],
          (complianceScore - 30)%Z)
    else (missingRequirements, complianceScore) in
  let '(missingRequirements, complianceScore) :=
    if missingAccessor codeLines
    then (missingRequirements ++ [txt "안전한 이벤트 데이터 접근 방법이 필요합니다"],
          (complianceScore - 15)%Z)
    else (missingRequirements, complianceScore) in
  let '(missingRequirements, complianceScore) :=
    if missingBoolean codeLines
    then (missingRequirements ++ [txt "명시적인 Boolean 반환값이 필요합니다"],
          (complianceScore - 20)%Z)
    else (missingRequirements, complianceScore) in
  let suggestions := map (fun practice => txt "모범 사례: " ++ practice)
                       (bestPractices patterns) in
  ComplianceContext.mk missingRequirements (Z.max 0 complianceScore) suggestions.

(** [Promise.all] over the three searches, read in the order of the
    array; the catch block re-throws what it caught.  When more than one
    search fails, [Promise.all] rejects with the failure that comes first
    in time, which is here the one that comes first in the array: what is
    proved of a failed context holds for either. *)
Definition buildEnhancedContext (w : World) (code : text) : Result RAGContext.t :=
  tryCatch
    (pantherRules ← searchPantherRules w code 3 (75 # 100);
     functionDocs ← searchByPantherFunctions w code 2;
     similarExamples ← searchSimilarExamples w code 3 (65 # 100);
     let relevantDocuments := take 5 (filterUnseen ∅ (pantherRules ++ functionDocs)) in
     let enhancedPrompt := buildPromptWithRAG relevantDocuments similarExamples in
     Ok (RAGContext.mk relevantDocuments similarExamples enhancedPrompt
           (SearchMetadata.mk (length relevantDocuments) (length similarExamples)
              (endTime w - startTime w))
           None))
    (fun error => Err error).

(** *** Statistics *)

(** [SELECT key, count( * ) ... GROUP BY key]: one row per key, here in
    the order in which the keys are first met. *)
Fixpoint bump (key : text) (groups : list (text * N)) : list (text * N) :=
  match groups with
  | [] => [(key, 1%N)]
  | (k, n) :: groups' =>
      if decide (k = key) then (k, (n + 1)%N) :: groups'
      else (k, n) :: bump key groups'
  end.

Definition groupCount (keys : list text) : list (text * N) :=
  fold_left (fun groups key => bump key groups) keys [].

(** [Object.fromEntries]: a later entry overwrites an earlier one. *)
Definition fromEntries (entries : list (text * N)) : gmap text N :=
  fold_left (fun m entry => <[entry.1 := entry.2]> m) entries ∅.

Definition orUncategorized (category : text) : text :=
  match category with
  | [] => txt "uncategorized"
  | _ => category
  end.

Definition emptyStats : SearchStats.t := SearchStats.mk 0 0 ∅ ∅.

Definition getSearchStats (w : World) : Result SearchStats.t :=
  tryCatch
    (docCount ← runQuery w QDocCount [N.of_nat (length (knowledgeDocuments w))];
     exampleCount ← runQuery w QExampleCount [N.of_nat (length (codeExamples w))];
     docTypes ← runQuery w QDocTypes
       (groupCount (map KnowledgeDocument.documentType (knowledgeDocuments w)));
     exampleCategories ← runQuery w QExampleCategories
       (groupCount (omap CodeExample.category (codeExamples w)));
     Ok (SearchStats.mk
           (default 0%N (head docCount))
           (default 0%N (head exampleCount))
           (fromEntries docTypes)
           (fromEntries (map (fun ec => (orUncategorized ec.1, ec.2)) exampleCategories))))
    (fun _ => Ok emptyStats).

End RAGEngine.

(** ** The engine (base revision) *)

Module RAGEngineBase.

(** The two searches and the statistics read the same in both
    revisions. *)
Definition searchRelevantRules := RAGEngine.searchRelevantRules.
Definition searchSimilarExamples := RAGEngine.searchSimilarExamples.
Definition getSearchStats := RAGEngine.getSearchStats.

Definition renderDocument (index : nat) (doc : SearchResult.t) : text :=
  renderHeading (txt "관련도") index doc
  ++ clip 800 (txt "...") (SearchResult.content doc) ++ nl ++ nl.

Definition evaluationCriteria : text :=
  txt "## 평가 기준:" ++ nl
  ++ txt "위의 참고 문서와 예제를 바탕으로 다음 기준으로 코드를 평가하세요:" ++ nl ++ nl
  ++ txt "- **규칙 준수성**: 참고 문서의 Panther 가이드라인 준수 여부" ++ nl
  ++ txt "- **코드 품질**: 유사 예제와 비교한 코드 품질 수준" ++ nl
  ++ txt "- **보안 모범 사례**: 탐지 규칙의 보안 관점 평가" ++ nl
  ++ txt "- **성능 및 효율성**: 실행 시간과 리소스 사용 최적화" ++ nl
  ++ txt "- **가독성 및 유지보수성**: 코드의 명확성과 문서화 수준" ++ nl ++ nl
  ++ txt "**중요**: 참고 문서와 예제의 내용을 기반으로 구체적이고 실용적인 개선 제안을 제공하세요."
  ++ nl
  ++ txt "모든 응답은 한국어로 작성하고 JSON 형식만 반환하세요.".

Definition buildPromptWithRAG (documents : list SearchResult.t)
    (examples : list ExampleSearchResult.t) : text :=
  roleStatement
  ++ (if bool_decide (0 < length documents) then
        txt "## 관련 Panther 규칙 참고 문서:" ++ nl ++ nl
        ++ concat (imap renderDocument documents)
      else [])
  ++ renderExamples examples
  ++ evaluationCriteria.

Definition buildEnhancedContext (w : World) (code : text) : Result RAGContext.t :=
  tryCatch
    (relevantDocuments ← searchRelevantRules w code 5 (7 # 10);
     similarExamples ← searchSimilarExamples w code 3 (65 # 100);
     let enhancedPrompt := buildPromptWithRAG relevantDocuments similarExamples in
     Ok (RAGContext.mk relevantDocuments similarExamples enhancedPrompt
           (SearchMetadata.mk (length relevantDocuments) (length similarExamples)
              (endTime w - startTime w))
           None))
    (fun error => Err error).

End RAGEngineBase.

(** ** The document processor ([document-processor.ts]) *)

Module DocumentChunk.
Record t := mk {
  title : text;
  content : text;
  section : option text;
  documentType : text;
  metadata : option text
}.
End DocumentChunk.

Module DocumentProcessor.

(** [s.split(sep)] for a separator of at least one unit: [cur] is the
    piece being read, [skip] the number of units of a separator just met
    that are still to pass over. *)
Fixpoint splitOn (sep : text) (skip : nat) (cur s : text) : list text :=
  match s with
  | [] => [cur]
  | x :: s' =>
      match skip with
      | S skip' => splitOn sep skip' cur s'
      | 0 =>
          if startsWith sep s then cur :: splitOn sep (length sep - 1) [] s'
          else splitOn sep 0 (cur ++ [x]) s'
      end
  end.

Definition split (sep s : text) : list text := splitOn sep 0 [] s.

(** [String.prototype.endsWith]. *)
Definition endsWith (suffix s : text) : bool := startsWith (reverse suffix) (reverse s).

Definition paragraphBreak : text := [newline; newline].

(** [if (currentChunk) { chunks.push(currentChunk.trim()); currentChunk = '' }]
    on the pair of the chunks pushed so far and the current chunk. *)
Definition flush (state : list text * text) : list text * text :=
  match state.2 with
  | [] => state
  | _ :: _ => (state.1 ++ [trim state.2], [])
  end.

(** The body of the loop over the sentences of an over-long paragraph. *)
Definition sentenceStep (maxLength : nat) (state : list text * text) (sentence : text)
  : list text * text :=
  let state :=
    if maxLength <? length state.2 + length sentence then flush state else state in
  (state.1,
   state.2 ++ sentence ++ (if endsWith (txt ".") sentence then txt " " else txt ". ")).

(** The body of the loop over the paragraphs. *)
Definition paragraphStep (maxLength : nat) (state : list text * text) (paragraph : text)
  : list text * text :=
  if maxLength <? length state.2 + length paragraph then
    let state := flush state in
    if maxLength <? length paragraph then
      fold_left (sentenceStep maxLength) (split (txt ". ") paragraph) state
    else (state.1, paragraph)
  else
    (state.1,
     state.2 ++ (match state.2 with [] => [] | _ :: _ => paragraphBreak end) ++ paragraph).

Definition chunkLongContent (content : text) (maxLength : nat) : list text :=
  if length content <=? maxLength then [content]
  else
    let state := fold_left (paragraphStep maxLength) (split paragraphBreak content) ([], []) in
    match trim state.2 with
    | [] => state.1
    | _ :: _ => state.1 ++ [trim state.2]
    end.

(** The temporary fix of [storeDocuments]: 512 zeros after the embedding. *)
Definition padEmbedding (embedding : vector) : vector := embedding ++ replicate 512 0%Q.

(** The try block of [storeDocuments] for one chunk: the row inserted, or
    the exception of the embedding call or of the insertion.  [newId]
    is the identity the store gives the row and [insertFault] the
    exception its insertion raises, if any. *)
Definition storeChunk (invoke : text -> Result (option vector)) (newId : text)
    (insertFault : option Exn) (chunk : DocumentChunk.t) : Result KnowledgeDocument.t :=
  let processedContent := TitanEmbeddingClient.preprocessText (DocumentChunk.content chunk) in
  embedding ← TitanEmbeddingClient.generateEmbedding invoke processedContent;
  let paddedEmbedding := padEmbedding embedding in
  match insertFault with
  | Some e => Err e
  | None =>
      Ok (KnowledgeDocument.mk newId (DocumentChunk.title chunk) processedContent
            (DocumentChunk.section chunk) (DocumentChunk.documentType chunk)
            (Some paddedEmbedding) (DocumentChunk.metadata chunk))
  end.

(** The loop of [storeDocuments] from the chunk of position [index] on:
    the identities stored and the rows the table has gained.  A chunk
    whose try block fails is passed over. *)
Fixpoint storeLoop (invoke : text -> Result (option vector)) (newId : nat -> text)
    (insertFault : nat -> option Exn) (index : nat) (chunks : list DocumentChunk.t)
    (storedIds : list text) (table : list KnowledgeDocument.t)
  : list text * list KnowledgeDocument.t :=
  match chunks with
  | [] => (storedIds, table)
  | chunk :: rest =>
      match storeChunk invoke (newId index) (insertFault index) chunk with
      | Ok row =>
          storeLoop invoke newId insertFault (S index) rest
            (storedIds ++ [KnowledgeDocument.id row]) (table ++ [row])
      | Err _ => storeLoop invoke newId insertFault (S index) rest storedIds table
      end
  end.

Definition storeDocuments (invoke : text -> Result (option vector)) (newId : nat -> text)
    (insertFault : nat -> option Exn) (table : list KnowledgeDocument.t)
    (chunks : list DocumentChunk.t) : list text * list KnowledgeDocument.t :=
  storeLoop invoke newId insertFault 0 chunks [] table.

End DocumentProcessor.

(** ** The result schemas ([validation.ts]) *)

Module DocumentReference.
Record t := mk {
  id : text;
  title : text;
  section : option text;
  relevanceScore : Q;
  content : text;
  documentType : text
}.
End DocumentReference.

Module ExampleReference.
Record t := mk {
  id : text;
  title : text;
  similarity : Q;
  qualityScore : Z;
  category : option text;
  improvements : list text;
  codeSnippet : text
}.
End ExampleReference.

Module Schemas.

(** [z.number().min(lo).max(hi)]. *)
Definition between (lo hi x : Q) : bool := Qle_bool lo x && Qle_bool x hi.

(** What [DocumentReferenceSchema] checks beyond the types of the fields. *)
Definition DocumentReferenceSchema (ref : DocumentReference.t) : bool :=
  between 0 1 (DocumentReference.relevanceScore ref).

(** What [ExampleReferenceSchema] checks beyond the types of the fields. *)
Definition ExampleReferenceSchema (ref : ExampleReference.t) : bool :=
  between 0 1 (ExampleReference.similarity ref)
  && between 0 100 (inject_Z (ExampleReference.qualityScore ref)).

(** The part of [EnhancedValidationResultSchema] that bears on the two
    reference lists: [z.array] of the two schemas above. *)
Definition referencesAccepted (documents : list DocumentReference.t)
    (examples : list ExampleReference.t) : bool :=
  forallb DocumentReferenceSchema documents && forallb ExampleReferenceSchema examples.

End Schemas.

(** ** The [validate-rag] route *)

Module ValidateRag.

(** The first step of [POST]: with retrieval enabled the context is
    built, the compliance context is computed from the code and the
    documents of that context, and stored in it. *)
Definition ragContext (w : World) (ragEnabled : bool) (code : text)
  : Result (option RAGContext.t) :=
  if ragEnabled then
    ragContext ← RAGEngine.buildEnhancedContext w code;
    let complianceContext :=
      RAGEngine.buildRuleComplianceContext code (RAGContext.relevantDocuments ragContext) in
    Ok (Some (RAGContext.mk
                (RAGContext.relevantDocuments ragContext)
                (RAGContext.similarExamples ragContext)
                (RAGContext.enhancedPrompt ragContext)
                (RAGContext.searchMetadata ragContext)
                (Some complianceContext)))
  else Ok None.

(** The suffix of [s] that starts at the first [c]. *)
Fixpoint fromFirst (c : ascii) (s : text) : option text :=
  match s with
  | [] => None
  | x :: s' => if ascii_eqb x c then Some s else fromFirst c s'
  end.

(** The prefix of [s] that ends at the last [c]. *)
Definition uptoLast (c : ascii) (s : text) : option text :=
  reverse <$> fromFirst c (reverse s).

(** [response.match(/\{[\s\S]*\}/)]: from the first opening brace to the
    last closing brace after it. *)
Definition matchBraces (response : text) : option text :=
  opened ← fromFirst "{"%char response; uptoLast "}"%char opened.

(** The text handed to [JSON.parse]. *)
Definition extractJson (response : text) : text :=
  match matchBraces response with
  | Some jsonMatch => jsonMatch
  | None => trim response
  end.

(** [score < example.qualityScore], false for a score that is missing. *)
Definition scoreBelow (score : option Q) (qualityScore : Z) : bool :=
  match score with
  | Some x => Qlt_bool x (inject_Z qualityScore)
  | None => false
  end.

(** [ruleScore] and [qualityScore] are [result.ruleCompliance?.score] and
    [result.codeQuality?.score] of the parsed answer. *)
Definition generateImprovements (ruleScore qualityScore : option Q)
    (example : ExampleSearchResult.t) : list text :=
  let improvements := [] in
  let improvements :=
    if scoreBelow ruleScore (ExampleSearchResult.qualityScore example)
    then improvements ++ [txt "규칙 준수성 개선 필요"] else improvements in
  let improvements :=
    if scoreBelow qualityScore (ExampleSearchResult.qualityScore example)
    then improvements ++ [txt "코드 품질 개선 필요"] else improvements in
  let improvements :=
    if hasText (ExampleSearchResult.category example)
    then improvements
         ++ [default [] (ExampleSearchResult.category example)
             ++ txt " 카테고리 모범 사례 참고"]
    else improvements in
  if bool_decide (0 < length improvements) then improvements
  else [txt "전반적인 구조 개선 참고"].

(** [documentReferences] of the enhanced result. *)
Definition documentReferences (ragContext : option RAGContext.t)
  : list DocumentReference.t :=
  match ragContext with
  | Some context =>
      map (fun doc =>
             DocumentReference.mk (SearchResult.id doc) (SearchResult.title doc)
               (SearchResult.section doc) (SearchResult.similarity doc)
               (slice0 500 (SearchResult.content doc)) (SearchResult.documentType doc))
          (RAGContext.relevantDocuments context)
  | None => []
  end.

(** [similarExamples] of the enhanced result. *)
Definition exampleReferences (ruleScore qualityScore : option Q)
    (ragContext : option RAGContext.t) : list ExampleReference.t :=
  match ragContext with
  | Some context =>
      map (fun example =>
             ExampleReference.mk (ExampleSearchResult.id example)
               (ExampleSearchResult.title example)
               (ExampleSearchResult.similarity example)
               (ExampleSearchResult.qualityScore example)
               (ExampleSearchResult.category example)
               (generateImprovements ruleScore qualityScore example)
               (slice0 300 (ExampleSearchResult.codeContent example)))
          (RAGContext.similarExamples context)
  | None => []
  end.

(** [EnhancedValidationResultSchema.parse(enhancedResult)], as far as the
    two reference lists go: the lists when the schema accepts them, nothing
    when it throws.  The other fields of the result are those of the answer
    of the model and are checked besides. *)
Definition validatedReferences (ruleScore qualityScore : option Q)
    (ragContext : option RAGContext.t)
  : option (list DocumentReference.t * list ExampleReference.t) :=
  let documents := documentReferences ragContext in
  let examples := exampleReferences ruleScore qualityScore ragContext in
  if Schemas.referencesAccepted documents examples then Some (documents, examples)
  else None.

End ValidateRag.

(** ** The specification's vocabulary

    Definitions that follow the words of the specification, against which
    the code above is compared. *)

#[global] Instance Qeq_decision : RelDecision Qeq := Qeq_dec.

(** The authority multiplier: 1.3 for a rule-typed document of the
    authoritative rule section, 1.2 for the authoritative guide section,
    1.1 for a rule-typed document without section match, 1.0 otherwise. *)
Definition authorityMultiplier (ruleSection guideSection ruleTyped : bool) : Q :=
  if ruleSection && ruleTyped then 13 # 10
  else if guideSection then 12 # 10
  else if ruleTyped then 11 # 10
  else 1.

(** Tie-break by raw similarity: of two rows of one weighted score, the
    one listed first has the higher raw similarity ([towardsHigher]), or
    the lower one. *)
Definition tieBreakByRaw (towardsHigher : bool) (rows : list (KnowledgeDocument.t * Q))
  : Prop :=
  forall i j a b,
    i < j -> rows !! i = Some a -> rows !! j = Some b ->
    (RAGEngine.rowWeightedScore a == RAGEngine.rowWeightedScore b)%Q ->
    if towardsHigher
    then (RAGEngine.rawSimilarity b <= RAGEngine.rawSimilarity a)%Q
    else (RAGEngine.rawSimilarity a <= RAGEngine.rawSimilarity b)%Q.

(** Merge by identity: the documents in their order, without those whose
    identity an earlier document of the merged list already bears. *)
Definition mergeByIdentity (docs : list SearchResult.t) : list SearchResult.t :=
  foldl (fun merged doc =>
           if bool_decide (SearchResult.id doc ∈ SearchResult.id <$> merged)
           then merged else merged ++ [doc])
        [] docs.

(** [fragment] occurs in [s] as a run of consecutive units. *)
Definition occursIn (fragment s : text) : Prop :=
  exists before after, s = before ++ fragment ++ after.

(** The truncation law: the first [budget] units and the marker for a
    content over the budget, the whole content otherwise. *)
Definition truncated (budget : nat) (marker content : text) : text :=
  if bool_decide (budget < length content) then take budget content ++ marker
  else content.

Definition endsWithSpace (s : text) : bool :=
  match last s with
  | Some c => isSpace c
  | None => false
  end.

Definition startsWithSpace (s : text) : bool :=
  match s with
  | c :: _ => isSpace c
  | [] => false
  end.

(** White space normalised: the only white space is the plain space, and
    no two spaces are adjacent; [afterSpace] tells whether a space stands
    right before the text. *)
Fixpoint normalized (afterSpace : bool) (s : text) : bool :=
  match s with
  | [] => true
  | c :: s' =>
      if isSpace c then ascii_eqb c space && negb afterSpace && normalized true s'
      else normalized false s'
  end.

(** ** Sample stores

    Small worlds on which the statements below are exercised.  Their
    vectors have one component and the distance operator is one minus the
    dot product, so that a document embedded as [[s]] lies at similarity
    [s] from the query vector [[1]]. *)

Module Sample.

Definition dot (a b : vector) : Q := foldr Qplus 0%Q (zip_with Qmult a b).

Definition document (id : string) (section : option string) (documentType : string)
    (content : string) (similarity : Q) : KnowledgeDocument.t :=
  KnowledgeDocument.mk (txt id) (txt id) (txt content) (txt <$> section)
    (txt documentType) (Some [similarity]) None.

Definition example (id : string) (code : string) (similarity : Q) : CodeExample.t :=
  CodeExample.mk (txt id) (txt id) (txt code) 80 (Some (txt "auth")) None
    (Some [similarity]) None.

Definition world (documents : list KnowledgeDocument.t) (examples : list CodeExample.t)
    (fault : Query -> option Exn) : World :=
  {| invokeModel := fun _ => Ok (Some [1%Q]);
     knowledgeDocuments := documents;
     codeExamples := examples;
     cosineDistance := fun e q => (1 - dot e q)%Q;
     queryFault := fault;
     startTime := 0;
     endTime := 12 |}.

Definition noFault : Query -> option Exn := fun _ => None.

(** The scenario of the specification: an unlabeled note at 0.75 and a
    document of the authoritative rule section at 0.72. *)
Definition bruteForce : list KnowledgeDocument.t :=
  [document "note" None "best-practice" "Community note on login failures." (75 # 100);
   document "spec" (Some "Panther Rule reference") "rule"
     "def rule(event): return event.get('failed') > 5" (72 # 100)].

(** Three documents of one weighted score, 0.6875: two rule-typed ones at
    raw similarity 0.625 (times 1.1) around an untyped one at 0.6875.
    The three numbers are binary fractions, so that the scores are equal
    in floating-point arithmetic as well. *)
Definition tied : list KnowledgeDocument.t :=
  [document "r1" None "rule" "first rule" (10 # 16);
   document "n" None "example" "a note" (11 # 16);
   document "r2" None "rule" "second rule" (10 # 16)].

(** A document both searches of [buildEnhancedContext] find. *)
Definition shared : list KnowledgeDocument.t :=
  [document "d1" (Some "Panther Rule") "rule" "def rule(event): return True" (90 # 100);
   document "d2" None "example" "use deep_get(event, 'a')" (60 # 100)].

Definition connectionLost : Exn := JsError (txt "connection refused").

Definition failing (q : Query) : Query -> option Exn :=
  fun q' => if decide (q' = q) then Some connectionLost else None.

(** A text that the length limit cuts right after a space. *)
Definition cutAfterSpace : text := repeat "a"%char 7999 ++ txt " b".

End Sample.

(** ** Invariants and measures

    Predicates in which the further properties of the code are stated. *)

(** What every step of [extractRulePatterns] keeps. *)
Definition patternsInvariant (p : RAGEngine.RulePatterns) : Prop :=
  NoDup (RAGEngine.requiredFunctions p)
  /\ Forall (fun name => name ∈ RAGEngine.functionNames) (RAGEngine.requiredFunctions p)
  /\ NoDup (RAGEngine.commonPatterns p)
  /\ NoDup (RAGEngine.validationRules p)
  /\ NoDup (RAGEngine.bestPractices p)
  /\ Forall (fun practice => length practice <= 100) (RAGEngine.bestPractices p).

(** The number of occurrences of [key] among [keys]. *)
Definition tally (key : text) (keys : list text) : N :=
  N.of_nat (length (filter (fun k => k = key) keys)).

(** The count a list of groups gives [key] first. *)
Fixpoint assoc (key : text) (groups : list (text * N)) : option N :=
  match groups with
  | [] => None
  | (k, n) :: groups' => if decide (k = key) then Some n else assoc key groups'
  end.

(** The entry of a statistics map for a key met [n] times. *)
Definition counted (n : N) : option N := if decide (n = 0%N) then None else Some n.

(** ** Further sample data *)

Module Scenario.

Definition examples : list CodeExample.t :=
  [Sample.example "e1" "def rule(event): return event.get('failed') > 5" (90 # 100);
   Sample.example "e2" "def rule(event): return True" (70 # 100);
   Sample.example "e3" "def title(event): return 'x'" (50 # 100)].


Definition library : World := Sample.world Sample.shared examples Sample.noFault.

Definition chunks : list DocumentChunk.t :=
  [DocumentChunk.mk (txt "Rules") (txt "  def rule(event):
      return True  ") (Some (txt "Rules")) (txt "rule") None;
   DocumentChunk.mk (txt "Notes") (txt "keep   it short") None (txt "example") None].

Definition model : text -> Result (option vector) := fun _ => Ok (Some [1%Q]).

Definition numbered (index : nat) : text := txt "id-" ++ showN (N.of_nat index).

End Scenario.

(** * Properties *)

(** ** The model at work *)

Example preprocessText_collapses :
  TitanEmbeddingClient.preprocessText (txt "  def  rule(event):
      return True  ")
  = txt "def rule(event): return True".
Proof. by vm_compute. Qed.

Example toFixed1_rounds :
  toFixed1 (936 # 10) = txt "93.6"
  /\ toFixed1 ((2 # 3) * 100)%Q = txt "66.7"
  /\ toFixed1 (- (4 # 100))%Q = txt "-0.0"
  /\ toFixed1 100%Q = txt "100.0".
Proof. by vm_compute. Qed.

Example ilike_wildcard :
  ilike (Some (txt "About PANTHER rules")) (txt "Panther Rule") = true
  /\ likeAnywhere (txt "deep_get") (txt "call Deep-Get here") = true
  /\ ilike None (txt "Panther Rule") = false.
Proof. by vm_compute. Qed.

Example splitRuns_sentences :
  RAGEngine.splitRuns RAGEngine.isSentenceEnd false [] (txt ".a..b!")
  = [[]; txt "a"; txt "b"; []].
Proof. by vm_compute. Qed.

Example extractRulePatterns_sample :
  let patterns :=
    RAGEngine.extractRulePatterns
      [SearchResult.mk (txt "d") (txt "Guide")
         (txt "Best practice. You SHOULD write def  rule (event)! It must return True.")
         None (txt "rule") 1 None] in
  RAGEngine.requiredFunctions patterns = [txt "rule"]
  /\ RAGEngine.validationRules patterns = [txt "Boolean 반환값 필수"]
  /\ RAGEngine.bestPractices patterns
     = [txt "you should write def  rule (event)"; txt "it must return true"].
Proof. by vm_compute. Qed.

(** ** The result monad *)

Lemma tryCatch_ok {A} (body : Result A) handler (a : A) :
  body = Ok a -> tryCatch body handler = Ok a.
Proof. by intros ->. Qed.

Lemma bind_ok {A B} (m : Result A) (k : A -> Result B) (b : B) :
  m ≫= k = Ok b -> exists a, m = Ok a /\ k a = Ok b.
Proof. destruct m as [a|e]; [by exists a | discriminate]. Qed.

Lemma runQuery_ok {A} w q (rows : A) :
  queryFault w q = None -> runQuery w q rows = Ok rows.
Proof. unfold runQuery. by intros ->. Qed.

Lemma runQuery_fault {A} w q (rows : A) e :
  queryFault w q = Some e -> runQuery w q rows = Err e.
Proof. unfold runQuery. by intros ->. Qed.

(** ** [ORDER BY] *)

Section OrderBy.

Context {A : Type} (le : A -> A -> bool).

Let precedes (a b : A) : Prop := le a b = true.

Lemma insertBy_Permutation x l : insertBy le x l ≡ₚ x :: l.
Proof.
  induction l as [|y l IH]; simpl; [done|].
  destruct (le x y); [done|].
  rewrite IH. apply Permutation_swap.
Qed.

Lemma orderBy_Permutation l : orderBy le l ≡ₚ l.
Proof.
  induction l as [|x l IH]; simpl; [done|].
  by rewrite insertBy_Permutation, IH.
Qed.

Lemma orderBy_length l : length (orderBy le l) = length l.
Proof. by rewrite orderBy_Permutation. Qed.

Hypothesis le_total : forall a b, precedes a b \/ precedes b a.
Hypothesis le_trans : forall a b c, precedes a b -> precedes b c -> precedes a c.

Lemma insertBy_sorted x l :
  StronglySorted precedes l -> StronglySorted precedes (insertBy le x l).
Proof.
  induction 1 as [|y l Hl IH Hy]; simpl.
  - repeat constructor.
  - destruct (le x y) eqn:Hxy.
    + constructor; [by constructor|].
      constructor; [done|].
      eapply Forall_impl; [exact Hy|]. intros z Hz. by eapply le_trans.
    + constructor; [done|].
      rewrite insertBy_Permutation. constructor; [|done].
      destruct (le_total x y) as [H|H]; [unfold precedes in H; congruence|done].
Qed.

Lemma orderBy_sorted l : StronglySorted precedes (orderBy le l).
Proof.
  induction l as [|x l IH]; simpl; [constructor|]. by apply insertBy_sorted.
Qed.

End OrderBy.

Lemma StronglySorted_take {A} (R : A -> A -> Prop) n l :
  StronglySorted R l -> StronglySorted R (take n l).
Proof.
  intros Hl. revert n. induction Hl as [|x l Hl IH Hx]; intros [|n]; simpl;
    try constructor; [apply IH|].
  by apply Forall_take.
Qed.

Lemma StronglySorted_fmap {A B} (R : A -> A -> Prop) (S : B -> B -> Prop) (f : A -> B) l :
  (forall a b, R a b -> S (f a) (f b)) ->
  StronglySorted R l -> StronglySorted S (f <$> l).
Proof.
  intros HRS. induction 1 as [|x l Hl IH Hx]; simpl; constructor; [done|].
  apply Forall_fmap. eapply Forall_impl; [exact Hx|]. intros y. apply HRS.
Qed.

Lemma Qlt_bool_lt a b : Qlt_bool a b = true <-> (a < b)%Q.
Proof.
  unfold Qlt_bool. rewrite negb_true_iff, <- not_true_iff_false, Qle_bool_iff.
  split; [apply Qnot_le_lt | apply Qlt_not_le].
Qed.

Lemma StronglySorted_weaken {A} (R S : A -> A -> Prop) l :
  (forall a b, R a b -> S a b) -> StronglySorted R l -> StronglySorted S l.
Proof.
  intros HRS. induction 1 as [|x l Hl IH Hx]; constructor; [done|].
  eapply Forall_impl; [exact Hx|]. intros y. apply HRS.
Qed.

Lemma descending_sorted {A} (key : A -> Q) l :
  StronglySorted (fun a b => (key b <= key a)%Q) (orderBy (descending key) l).
Proof.
  apply StronglySorted_weaken with (R := fun a b => descending key a b = true).
  { intros a b. unfold descending. apply Qle_bool_iff. }
  apply orderBy_sorted; unfold descending.
  - intros a b. rewrite !Qle_bool_iff.
    destruct (Qlt_le_dec (key a) (key b)); [right; by apply Qlt_le_weak | by left].
  - intros a b c. rewrite !Qle_bool_iff. intros ? ?. by eapply Qle_trans.
Qed.

Lemma ascending_sorted {A} (key : A -> Q) l :
  StronglySorted (fun a b => (key a <= key b)%Q) (orderBy (ascending key) l).
Proof.
  apply StronglySorted_weaken with (R := fun a b => ascending key a b = true).
  { intros a b. unfold ascending. apply Qle_bool_iff. }
  apply orderBy_sorted; unfold ascending.
  - intros a b. rewrite !Qle_bool_iff.
    destruct (Qlt_le_dec (key b) (key a)); [right; by apply Qlt_le_weak | by left].
  - intros a b c. rewrite !Qle_bool_iff. intros ? ?. by eapply Qle_trans.
Qed.

(** ** The similarity searches *)

Lemma elem_of_scan {R} (embedding : R -> option vector) w queryEmbedding table row :
  row ∈ scan embedding w queryEmbedding table <->
  exists e, row.1 ∈ table /\ embedding row.1 = Some e
            /\ row.2 = cosineDistance w e queryEmbedding.
Proof.
  unfold scan. rewrite list_elem_of_omap. split.
  - intros (r & Hr & Hrow). destruct (embedding r) as [e|] eqn:He; simplify_eq/=.
    by exists e.
  - intros (e & Hr & He & Hd). exists row.1. split; [done|].
    rewrite He. simpl. destruct row; simpl in *. by subst.
Qed.

Lemma elem_of_eligible {R} (embedding : R -> option vector) w queryEmbedding m table row :
  row ∈ RAGEngine.eligible embedding w queryEmbedding m table <->
  (row.2 < 1 - m)%Q /\ row ∈ scan embedding w queryEmbedding table.
Proof. unfold RAGEngine.eligible. by rewrite list_elem_of_filter, Qlt_bool_lt. Qed.

Lemma searchRelevantRules_run w query topK m queryEmbedding :
  embedQuery w query = Ok queryEmbedding ->
  queryFault w QRelevantRules = None ->
  RAGEngine.searchRelevantRules w query topK m =
  Ok ((fun result => toSearchResult result.1 (RAGEngine.rawSimilarity result))
        <$> RAGEngine.relevantRulesRows w queryEmbedding topK m).
Proof.
  intros He Hq. unfold RAGEngine.searchRelevantRules.
  rewrite He. simpl. by rewrite (runQuery_ok _ _ _ Hq).
Qed.

Lemma searchPantherRules_run w query topK m queryEmbedding :
  embedQuery w query = Ok queryEmbedding ->
  queryFault w QPantherRules = None ->
  RAGEngine.searchPantherRules w query topK m =
  Ok ((fun result => toSearchResult result.1 (RAGEngine.rowWeightedScore result))
        <$> RAGEngine.pantherRulesRows w queryEmbedding topK m).
Proof.
  intros He Hq. unfold RAGEngine.searchPantherRules.
  rewrite He. simpl. by rewrite (runQuery_ok _ _ _ Hq).
Qed.

(** C1.  When the embedding call and the query succeed,
    [searchRelevantRules] returns a list of at most [topK] results, in
    descending order of similarity, each of similarity at least
    [minSimilarity]; the list is empty when no stored document passes the
    threshold. *)
Theorem searchRelevantRules_bounded w query topK minSimilarity queryEmbedding :
  embedQuery w query = Ok queryEmbedding ->
  queryFault w QRelevantRules = None ->
  exists results,
    RAGEngine.searchRelevantRules w query topK minSimilarity = Ok results
    /\ length results <= topK
    /\ Forall (fun r => (minSimilarity <= SearchResult.similarity r)%Q) results
    /\ StronglySorted
         (fun a b => (SearchResult.similarity b <= SearchResult.similarity a)%Q) results
    /\ ((forall d e, d ∈ knowledgeDocuments w ->
                     KnowledgeDocument.embedding d = Some e ->
                     ~ (minSimilarity < 1 - cosineDistance w e queryEmbedding)%Q) ->
        results = []).
Proof.
  intros He Hq. eexists. split; [by apply searchRelevantRules_run|].
  unfold RAGEngine.relevantRulesRows.
  set (rows := RAGEngine.eligible _ _ _ _ _).
  repeat split.
  - rewrite length_fmap, length_take. lia.
  - apply Forall_fmap, Forall_take, Forall_forall. intros row Hrow.
    rewrite orderBy_Permutation in Hrow. apply elem_of_eligible in Hrow as [Hlt _].
    simpl. unfold RAGEngine.rawSimilarity. lra.
  - eapply StronglySorted_fmap; [|apply StronglySorted_take, (ascending_sorted snd)].
    intros a b Hab. simpl in *. unfold RAGEngine.rawSimilarity. lra.
  - intros Hnone. assert (rows = []) as ->; [|simpl; by rewrite take_nil].
    apply elem_of_nil_inv. intros row Hrow.
    apply elem_of_eligible in Hrow as [Hlt Hrow].
    apply elem_of_scan in Hrow as (e & Hd & Hemb & Hdist).
    apply (Hnone _ _ Hd Hemb). rewrite <- Hdist. lra.
Qed.

Lemma searchRelevantRules_bounded_witness :
  exists results,
    RAGEngine.searchRelevantRules (Sample.world Sample.bruteForce [] Sample.noFault)
      (txt "brute force login detection") 1 (7 # 10) = Ok results
    /\ length results <= 1.
Proof.
  destruct (searchRelevantRules_bounded
              (Sample.world Sample.bruteForce [] Sample.noFault)
              (txt "brute force login detection") 1 (7 # 10) [1%Q]
              eq_refl eq_refl) as (results & Hrun & Hlen & _).
  exists results. split; [exact Hrun | exact Hlen].
Defined.

(** C9.  A failure of the embedding call or of the vector-store query
    inside [searchRelevantRules] reaches the caller as an error: the
    search never answers with a list in its place. *)
Theorem searchRelevantRules_propagates w query topK minSimilarity error :
  embedQuery w query = Err error
  \/ ((exists queryEmbedding, embedQuery w query = Ok queryEmbedding)
      /\ queryFault w QRelevantRules = Some error) ->
  RAGEngine.searchRelevantRules w query topK minSimilarity =
    Err (JsError (txt "RAG search failed: " ++ messageOr (txt "Unknown error") error))
  /\ forall results,
       RAGEngine.searchRelevantRules w query topK minSimilarity <> Ok results.
Proof.
  intros Hfail.
  assert (RAGEngine.searchRelevantRules w query topK minSimilarity =
          Err (rethrowAs (txt "RAG search failed: ") error)) as Hrun.
  { unfold RAGEngine.searchRelevantRules.
    destruct Hfail as [He|[[queryEmbedding He] Hq]]; rewrite He; simpl; [done|].
    by rewrite (runQuery_fault _ _ _ _ Hq). }
  split; [exact Hrun|]. intros results. by rewrite Hrun.
Qed.

Lemma searchRelevantRules_propagates_witness :
  RAGEngine.searchRelevantRules
    (Sample.world Sample.bruteForce [] (Sample.failing QRelevantRules))
    (txt "brute force login detection") 5 (7 # 10) =
  Err (JsError (txt "RAG search failed: connection refused")).
Proof.
  apply (searchRelevantRules_propagates
           (Sample.world Sample.bruteForce [] (Sample.failing QRelevantRules))
           (txt "brute force login detection") 5 (7 # 10) Sample.connectionLost).
  right. split; [by exists [1%Q] | reflexivity].
Defined.

(** ** Authority weighting *)

Lemma weightedScore_multiplier d similarity :
  (RAGEngine.weightedScore d similarity ==
   similarity
   * authorityMultiplier
       (ilike (KnowledgeDocument.section d) (txt "Panther Rule"))
       (ilike (KnowledgeDocument.section d) (txt "Writing Python Detections"))
       (bool_decide (KnowledgeDocument.documentType d = txt "rule")))%Q.
Proof.
  unfold RAGEngine.weightedScore, authorityMultiplier.
  repeat case_match; try reflexivity. lra.
Qed.

Lemma StronglySorted_lookup_lt {A} (R : A -> A -> Prop) l i j x y :
  StronglySorted R l -> i < j -> l !! i = Some x -> l !! j = Some y -> R x y.
Proof.
  intros Hl. revert i j. induction Hl as [|z l Hl IH Hz]; intros i j Hij Hi Hj.
  - by rewrite lookup_nil in Hi.
  - destruct j as [|j]; [lia|]. destruct i as [|i]; simpl in *.
    + simplify_eq. eapply Forall_forall in Hz; [exact Hz|]. by eapply list_elem_of_lookup_2.
    + apply (IH i j); [lia|done..].
Qed.

Lemma pantherRulesRows_sorted w queryEmbedding topK m :
  StronglySorted
    (fun a b => (RAGEngine.rowWeightedScore b <= RAGEngine.rowWeightedScore a)%Q)
    (RAGEngine.pantherRulesRows w queryEmbedding topK m).
Proof. apply StronglySorted_take, descending_sorted. Qed.

(** C2.  [searchPantherRules] returns the rows of its query in descending
    order of the authority-weighted similarity, and the similarity field
    of each result holds that weighted score, the raw similarity times the
    multiplier of its document; a rule-typed document of the authoritative
    rule section at raw similarity 0.72 (weighted 0.936) is listed before
    an unlabeled one at 0.75. *)
Theorem searchPantherRules_weighted w query topK minSimilarity queryEmbedding :
  embedQuery w query = Ok queryEmbedding ->
  queryFault w QPantherRules = None ->
  exists results,
    RAGEngine.searchPantherRules w query topK minSimilarity = Ok results
    /\ StronglySorted
         (fun a b => (SearchResult.similarity b <= SearchResult.similarity a)%Q) results
    /\ Forall2
         (fun row result =>
            SearchResult.id result = KnowledgeDocument.id row.1
            /\ (SearchResult.similarity result ==
                (1 - row.2)
                * authorityMultiplier
                    (ilike (KnowledgeDocument.section row.1) (txt "Panther Rule"))
                    (ilike (KnowledgeDocument.section row.1)
                       (txt "Writing Python Detections"))
                    (bool_decide (KnowledgeDocument.documentType row.1 = txt "rule")))%Q)
         (RAGEngine.pantherRulesRows w queryEmbedding topK minSimilarity) results
    /\ forall i j a u authoritative unlabeled,
         RAGEngine.pantherRulesRows w queryEmbedding topK minSimilarity !! i = Some a ->
         RAGEngine.pantherRulesRows w queryEmbedding topK minSimilarity !! j = Some u ->
         results !! i = Some authoritative ->
         results !! j = Some unlabeled ->
         (1 - a.2 == 72 # 100)%Q ->
         ilike (KnowledgeDocument.section a.1) (txt "Panther Rule") = true ->
         KnowledgeDocument.documentType a.1 = txt "rule" ->
         (1 - u.2 == 75 # 100)%Q ->
         KnowledgeDocument.section u.1 = None ->
         KnowledgeDocument.documentType u.1 <> txt "rule" ->
         (SearchResult.similarity authoritative == 936 # 1000)%Q
         /\ (SearchResult.similarity unlabeled == 75 # 100)%Q
         /\ i < j.
Proof.
  intros He Hq. eexists. split; [by apply searchPantherRules_run|].
  set (rows := RAGEngine.pantherRulesRows _ _ _ _).
  assert (forall row, (RAGEngine.rowWeightedScore row ==
            (1 - row.2)
            * authorityMultiplier
                (ilike (KnowledgeDocument.section row.1) (txt "Panther Rule"))
                (ilike (KnowledgeDocument.section row.1) (txt "Writing Python Detections"))
                (bool_decide (KnowledgeDocument.documentType row.1 = txt "rule")))%Q)
    as Hweight by (intros row; apply weightedScore_multiplier).
  split; [|split].
  - eapply StronglySorted_fmap; [|apply pantherRulesRows_sorted]. by intros a b.
  - apply Forall2_fmap_r, Forall_Forall2_diag, Forall_forall.
    intros row _. split; [done|]. apply Hweight.
  - intros i j a u authoritative unlabeled Hi Hj Hri Hrj Ha Hsec Hty Hu Hnone Hnot.
    rewrite list_lookup_fmap, Hi in Hri. rewrite list_lookup_fmap, Hj in Hrj.
    simplify_eq/=.
    assert (RAGEngine.rowWeightedScore a == 936 # 1000)%Q as Hwa.
    { rewrite Hweight, Hsec, Ha. rewrite bool_decide_eq_true_2 by done. reflexivity. }
    assert (RAGEngine.rowWeightedScore u == 75 # 100)%Q as Hwu.
    { rewrite Hweight, Hnone, Hu. rewrite bool_decide_eq_false_2 by done. reflexivity. }
    split; [done|]. split; [done|].
    destruct (decide (i < j)) as [|Hge]; [done|]. exfalso.
    destruct (decide (i = j)) as [->|Hne]; [congruence|].
    pose proof (StronglySorted_lookup_lt _ _ j i u a
                  (pantherRulesRows_sorted w queryEmbedding topK minSimilarity)
                  ltac:(lia) Hj Hi) as Hle.
    simpl in Hle. rewrite Hwa, Hwu in Hle. revert Hle. apply Qlt_not_le. reflexivity.
Qed.

Lemma searchPantherRules_weighted_witness :
  exists results,
    RAGEngine.searchPantherRules (Sample.world Sample.bruteForce [] Sample.noFault)
      (txt "brute force login detection") 5 (7 # 10) = Ok results
    /\ StronglySorted
         (fun a b => (SearchResult.similarity b <= SearchResult.similarity a)%Q) results.
Proof.
  destruct (searchPantherRules_weighted
              (Sample.world Sample.bruteForce [] Sample.noFault)
              (txt "brute force login detection") 5 (7 # 10) [1%Q]
              eq_refl eq_refl) as (results & Hrun & Hsorted & _).
  exists results. split; [exact Hrun | exact Hsorted].
Defined.

(** The scenario, run: the store lists the unlabeled note first, the
    search returns the authoritative document first. *)
Example bruteForce_ranking :
  fmap (M := list) SearchResult.id <$>
    match RAGEngine.searchPantherRules
            (Sample.world Sample.bruteForce [] Sample.noFault)
            (txt "brute force login detection") 5 (7 # 10) with
    | Ok results => Some results
    | Err _ => None
    end
  = Some [txt "spec"; txt "note"].
Proof. vm_compute. reflexivity. Qed.

(** ** Ties of the weighted score *)

Lemma pantherRulesRows_answer w queryEmbedding topK minSimilarity :
  RAGEngine.pantherRulesAnswer w queryEmbedding topK minSimilarity
    (RAGEngine.pantherRulesRows w queryEmbedding topK minSimilarity).
Proof.
  eexists. split; [|reflexivity]. split.
  - symmetry. apply orderBy_Permutation.
  - apply orderBy_sorted; unfold descending.
    + intros a b. rewrite !Qle_bool_iff.
      destruct (Qlt_le_dec (RAGEngine.rowWeightedScore a) (RAGEngine.rowWeightedScore b));
        [right; by apply Qlt_le_weak | by left].
    + intros a b c. rewrite !Qle_bool_iff. intros ? ?. by eapply Qle_trans.
Qed.

Lemma arranged_same_keys {A} (key : A -> Q) (l l' : list A) :
  StronglySorted (fun a b => descending key a b = true) l ->
  Forall2 (fun a b => (key a == key b)%Q) l l' ->
  StronglySorted (fun a b => descending key a b = true) l'.
Proof.
  intros Hsorted Hkeys. induction Hkeys as [|a a' l l' Ha Hkeys IH]; [constructor|].
  apply StronglySorted_inv in Hsorted as [Hsorted Hhead].
  constructor; [by apply IH|].
  eapply Forall2_Forall_r; [exact Hkeys|].
  eapply Forall_impl; [exact Hhead|]. intros b Hb b' Hb'. revert Hb.
  unfold descending. rewrite !Qle_bool_iff. by rewrite Ha, Hb'.
Qed.

Lemma pantherRulesAnswer_rearranged w queryEmbedding topK minSimilarity rows rows' :
  RAGEngine.pantherRulesAnswer w queryEmbedding topK minSimilarity rows ->
  rows' ≡ₚ rows ->
  Forall2 (fun a b => (RAGEngine.rowWeightedScore a == RAGEngine.rowWeightedScore b)%Q)
    rows rows' ->
  RAGEngine.pantherRulesAnswer w queryEmbedding topK minSimilarity rows'.
Proof.
  intros (sorted & [Hperm Hsorted] & ->) Hrows' Hkeys.
  exists (rows' ++ drop topK sorted). split; [split|].
  - rewrite Hperm, Hrows'. by rewrite take_drop.
  - apply (arranged_same_keys _ (take topK sorted ++ drop topK sorted));
      [by rewrite take_drop|].
    apply Forall2_app; [done|]. apply Forall_Forall2_diag, Forall_forall.
    intros row _. apply Qeq_refl.
  - apply Forall2_length in Hkeys. rewrite length_take in Hkeys.
    destruct (decide (topK <= length sorted)) as [Hcut|Hwhole].
    + rewrite take_app_le by lia. rewrite take_ge by lia. done.
    + rewrite drop_ge by lia. rewrite app_nil_r, take_ge by lia. done.
Qed.

Lemma tied_keys :
  let rows := RAGEngine.pantherRulesRows (Sample.world Sample.tied [] Sample.noFault)
                [1%Q] 5 (1 # 2) in
  Forall2 (fun a b => (RAGEngine.rowWeightedScore a == RAGEngine.rowWeightedScore b)%Q)
    rows (reverse rows).
Proof.
  intros rows.
  apply (Forall2_fmap RAGEngine.rowWeightedScore RAGEngine.rowWeightedScore Qeq).
  vm_compute. repeat constructor.
Qed.

(** C6, as the code has it.  The query of [searchPantherRules] has the
    weighted score as its only sort key.  Every answer to it lists its rows
    by descending weighted score, and nothing more is fixed: an answer
    rearranged so that every position keeps its weighted score, the rows of
    one score in any other order, is an answer to the same query as well,
    whatever the raw similarities of these rows and the order of their
    insertion.  The rows by which the results of this development are
    computed are one such answer. *)
Theorem searchPantherRules_ties_unordered w queryEmbedding topK minSimilarity :
  RAGEngine.pantherRulesAnswer w queryEmbedding topK minSimilarity
    (RAGEngine.pantherRulesRows w queryEmbedding topK minSimilarity)
  /\ forall rows,
       RAGEngine.pantherRulesAnswer w queryEmbedding topK minSimilarity rows ->
       StronglySorted
         (fun a b => (RAGEngine.rowWeightedScore b <= RAGEngine.rowWeightedScore a)%Q) rows
       /\ forall rows',
            rows' ≡ₚ rows ->
            Forall2 (fun a b =>
                       (RAGEngine.rowWeightedScore a == RAGEngine.rowWeightedScore b)%Q)
              rows rows' ->
            RAGEngine.pantherRulesAnswer w queryEmbedding topK minSimilarity rows'.
Proof.
  split; [apply pantherRulesRows_answer|].
  intros rows Hrows. split.
  - destruct Hrows as (sorted & [Hperm Hsorted] & ->).
    apply StronglySorted_take.
    eapply StronglySorted_weaken; [|exact Hsorted].
    intros a b. unfold descending. apply Qle_bool_iff.
  - intros rows'. by apply pantherRulesAnswer_rearranged.
Qed.

Lemma searchPantherRules_ties_unordered_witness :
  let w := Sample.world Sample.tied [] Sample.noFault in
  RAGEngine.pantherRulesAnswer w [1%Q] 5 (1 # 2)
    (reverse (RAGEngine.pantherRulesRows w [1%Q] 5 (1 # 2))).
Proof.
  intros w.
  destruct (searchPantherRules_ties_unordered w [1%Q] 5 (1 # 2)) as [Hanswer Hties].
  destruct (Hties _ Hanswer) as [_ Hrearranged].
  apply Hrearranged; [apply reverse_Permutation|apply tied_keys].
Defined.

(** C6, as stated, fails.  At the threshold 0.5 the three documents of
    [Sample.tied] all weigh 0.6875.  The query is answered by these rows in
    the order of their insertion, raw similarities 0.625, 0.6875, 0.625,
    and as well by the same rows in the reverse order: neither answer is
    ordered by raw similarity, in either direction, and the second lists
    the two documents of one raw similarity against the order of their
    insertion. *)
Lemma searchPantherRules_tie_break_counterexample :
  let w := Sample.world Sample.tied [] Sample.noFault in
  exists rows rows',
    embedQuery w (txt "brute force login detection") = Ok [1%Q]
    /\ RAGEngine.pantherRulesAnswer w [1%Q] 5 (1 # 2) rows
    /\ RAGEngine.pantherRulesAnswer w [1%Q] 5 (1 # 2) rows'
    /\ (KnowledgeDocument.id <$> rows.*1) = [txt "r1"; txt "n"; txt "r2"]
    /\ (KnowledgeDocument.id <$> rows'.*1) = [txt "r2"; txt "n"; txt "r1"]
    /\ ~ tieBreakByRaw true rows /\ ~ tieBreakByRaw false rows
    /\ ~ tieBreakByRaw true rows' /\ ~ tieBreakByRaw false rows'.
Proof.
  intros w.
  exists (RAGEngine.pantherRulesRows w [1%Q] 5 (1 # 2)),
         (reverse (RAGEngine.pantherRulesRows w [1%Q] 5 (1 # 2))).
  split; [reflexivity|]. split; [apply pantherRulesRows_answer|]. split.
  { eapply pantherRulesAnswer_rearranged;
      [apply pantherRulesRows_answer|apply reverse_Permutation|apply tied_keys]. }
  split; [by vm_compute|]. split; [by vm_compute|].
  repeat split.
  - intros H. specialize (H 0 1 _ _ ltac:(lia) eq_refl eq_refl). simpl in H.
    revert H. vm_compute. intros H. by apply H.
  - intros H. specialize (H 1 2 _ _ ltac:(lia) eq_refl eq_refl). simpl in H.
    revert H. vm_compute. intros H. by apply H.
  - intros H. specialize (H 0 1 _ _ ltac:(lia) eq_refl eq_refl). simpl in H.
    revert H. vm_compute. intros H. by apply H.
  - intros H. specialize (H 1 2 _ _ ltac:(lia) eq_refl eq_refl). simpl in H.
    revert H. vm_compute. intros H. by apply H.
Qed.

(** ** The enhanced context *)

Lemma buildEnhancedContext_inv w code context :
  RAGEngine.buildEnhancedContext w code = Ok context ->
  exists pantherRules functionDocs similarExamples,
    RAGEngine.searchPantherRules w code 3 (75 # 100) = Ok pantherRules
    /\ RAGEngine.searchByPantherFunctions w code 2 = Ok functionDocs
    /\ RAGEngine.searchSimilarExamples w code 3 (65 # 100) = Ok similarExamples
    /\ context =
       let relevantDocuments :=
         take 5 (RAGEngine.filterUnseen ∅ (pantherRules ++ functionDocs)) in
       RAGContext.mk relevantDocuments similarExamples
         (RAGEngine.buildPromptWithRAG relevantDocuments similarExamples)
         (SearchMetadata.mk (length relevantDocuments) (length similarExamples)
            (endTime w - startTime w))
         None.
Proof.
  unfold RAGEngine.buildEnhancedContext, tryCatch. intros Hrun.
  destruct (RAGEngine.searchPantherRules w code 3 (75 # 100)) as [pantherRules|];
    simpl in Hrun; [|discriminate].
  destruct (RAGEngine.searchByPantherFunctions w code 2) as [functionDocs|];
    simpl in Hrun; [|discriminate].
  destruct (RAGEngine.searchSimilarExamples w code 3 (65 # 100)) as [similarExamples|];
    simpl in Hrun; [|discriminate].
  exists pantherRules, functionDocs, similarExamples. by simplify_eq.
Qed.

Lemma filterUnseen_merge docs : forall (seenIds : gset text) merged,
  (forall i, i ∈ seenIds <-> i ∈ SearchResult.id <$> merged) ->
  foldl (fun merged doc =>
           if bool_decide (SearchResult.id doc ∈ SearchResult.id <$> merged)
           then merged else merged ++ [doc])
        merged docs
  = merged ++ RAGEngine.filterUnseen seenIds docs.
Proof.
  induction docs as [|doc docs IH]; intros seenIds merged Hseen; simpl.
  { by rewrite app_nil_r. }
  destruct (decide (SearchResult.id doc ∈ seenIds)) as [Hin|Hout].
  - rewrite bool_decide_eq_true_2 by by apply Hseen. by apply IH.
  - rewrite bool_decide_eq_false_2 by by rewrite <- Hseen.
    rewrite (IH ({[SearchResult.id doc]} ∪ seenIds)), <- app_assoc; [done|].
    intros i. rewrite fmap_app, elem_of_app, elem_of_union, Hseen, elem_of_singleton.
    simpl. rewrite list_elem_of_singleton. tauto.
Qed.

Lemma filterUnseen_fresh docs : forall (seenIds : gset text),
  NoDup (SearchResult.id <$> RAGEngine.filterUnseen seenIds docs)
  /\ forall doc, doc ∈ RAGEngine.filterUnseen seenIds docs ->
                 SearchResult.id doc ∉ seenIds.
Proof.
  induction docs as [|doc docs IH]; intros seenIds; simpl.
  { split; [constructor | by intros ? ?%elem_of_nil]. }
  destruct (decide (SearchResult.id doc ∈ seenIds)) as [Hin|Hout]; [apply IH|].
  destruct (IH ({[SearchResult.id doc]} ∪ seenIds)) as [Hnodup Hfresh]. split.
  - rewrite fmap_cons. constructor; [|done].
    intros (doc' & Hid & Hdoc')%list_elem_of_fmap. apply Hfresh in Hdoc'.
    apply Hdoc', elem_of_union_l, elem_of_singleton. congruence.
  - intros doc' [->|Hdoc']%elem_of_cons; [done|]. apply Hfresh in Hdoc'.
    intros Hin. by apply Hdoc', elem_of_union_r.
Qed.

(** C5.  The documents of the context [buildEnhancedContext] returns are
    the results of the weighted search followed by those of the keyword
    search, merged by identity and cut to five; no identity occurs twice
    among them. *)
Theorem buildEnhancedContext_merged w code context :
  RAGEngine.buildEnhancedContext w code = Ok context ->
  exists weighted keyword,
    RAGEngine.searchPantherRules w code 3 (75 # 100) = Ok weighted
    /\ RAGEngine.searchByPantherFunctions w code 2 = Ok keyword
    /\ RAGContext.relevantDocuments context
       = take 5 (mergeByIdentity (weighted ++ keyword))
    /\ NoDup (SearchResult.id <$> RAGContext.relevantDocuments context).
Proof.
  intros (weighted & keyword & examples & Hw & Hk & _ & ->)%buildEnhancedContext_inv.
  exists weighted, keyword. split; [done|]. split; [done|]. simpl. split.
  - unfold mergeByIdentity. rewrite (filterUnseen_merge _ ∅ []); [done|].
    intros i. rewrite fmap_nil, elem_of_nil. split; [apply not_elem_of_empty | done].
  - rewrite fmap_take.
    apply (sublist_NoDup _ (SearchResult.id <$> RAGEngine.filterUnseen ∅ (weighted ++ keyword)));
      [apply filterUnseen_fresh | apply sublist_take].
Qed.

Lemma buildEnhancedContext_merged_witness :
  exists context,
    RAGEngine.buildEnhancedContext (Sample.world Sample.shared [] Sample.noFault)
      (txt "def rule(event): return True") = Ok context
    /\ (SearchResult.id <$> RAGContext.relevantDocuments context) = [txt "d1"; txt "d2"]
    /\ NoDup (SearchResult.id <$> RAGContext.relevantDocuments context).
Proof.
  eexists. split; [reflexivity|]. split; [by vm_compute|].
  destruct (buildEnhancedContext_merged
              (Sample.world Sample.shared [] Sample.noFault)
              (txt "def rule(event): return True") _ eq_refl)
    as (weighted & keyword & _ & _ & _ & Hnodup).
  exact Hnodup.
Defined.

(** C3, as the code has it.  The context [buildEnhancedContext] returns
    carries no compliance context; the [validate-rag] route computes it
    afterwards, from the code and the documents of that context, and
    stores it in the context it goes on with. *)
Theorem compliance_attached_by_route w code context :
  RAGEngine.buildEnhancedContext w code = Ok context ->
  RAGContext.complianceContext context = None
  /\ exists enriched,
       ValidateRag.ragContext w true code = Ok (Some enriched)
       /\ RAGContext.complianceContext enriched
          = Some (RAGEngine.buildRuleComplianceContext code
                    (RAGContext.relevantDocuments context))
       /\ RAGContext.relevantDocuments enriched = RAGContext.relevantDocuments context
       /\ RAGContext.similarExamples enriched = RAGContext.similarExamples context
       /\ RAGContext.enhancedPrompt enriched = RAGContext.enhancedPrompt context
       /\ RAGContext.searchMetadata enriched = RAGContext.searchMetadata context.
Proof.
  intros Hrun. split.
  - by apply buildEnhancedContext_inv in Hrun as (? & ? & ? & _ & _ & _ & ->).
  - unfold ValidateRag.ragContext. rewrite Hrun. simpl. eexists. by repeat split.
Qed.

Lemma compliance_attached_by_route_witness :
  exists context,
    RAGEngine.buildEnhancedContext (Sample.world Sample.shared [] Sample.noFault)
      (txt "x = 1") = Ok context
    /\ RAGContext.complianceContext context = None.
Proof.
  eexists. split; [reflexivity|].
  destruct (compliance_attached_by_route
              (Sample.world Sample.shared [] Sample.noFault) (txt "x = 1") _ eq_refl)
    as [Hnone _].
  exact Hnone.
Defined.

(** C3, as stated, fails: on [Sample.shared] the context returned for the
    code [x = 1] holds no compliance context, while the pre-score of that
    code over the returned documents exists (35, three requirements
    missing). *)
Lemma buildEnhancedContext_compliance_counterexample :
  exists context,
    RAGEngine.buildEnhancedContext (Sample.world Sample.shared [] Sample.noFault)
      (txt "x = 1") = Ok context
    /\ RAGContext.complianceContext context
       <> Some (RAGEngine.buildRuleComplianceContext (txt "x = 1")
                  (RAGContext.relevantDocuments context))
    /\ ComplianceContext.complianceScore
         (RAGEngine.buildRuleComplianceContext (txt "x = 1")
            (RAGContext.relevantDocuments context)) = 35%Z.
Proof.
  eexists. split; [reflexivity|]. split; [discriminate | by vm_compute].
Qed.

(** ** The compliance heuristic *)

(** C4.  The score of [buildRuleComplianceContext] is 100 less 30 when the
    lower-cased code holds no [def rule(], less 15 when it holds neither
    [event.get(] nor [deep_get(], less 20 when it holds neither
    [return true] nor [return false], not below 0; it lies between 0 and
    100, one requirement is recorded per penalty, and code that misses all
    three patterns, the empty code among them, scores 35 with three
    requirements. *)
Theorem buildRuleComplianceContext_score code documents :
  let context := RAGEngine.buildRuleComplianceContext code documents in
  let lower := toLowerCase code in
  let noRule := negb (includes (txt "def rule(") lower) in
  let noAccessor :=
    negb (includes (txt "event.get(") lower || includes (txt "deep_get(") lower) in
  let noBoolean :=
    negb (includes (txt "return true") lower || includes (txt "return false") lower) in
  let penalty (missing : bool) (points : Z) : Z := if missing then points else 0%Z in
  ComplianceContext.complianceScore context
    = (Z.max 0 (100 - penalty noRule 30 - penalty noAccessor 15 - penalty noBoolean 20))%Z
  /\ (0 <= ComplianceContext.complianceScore context <= 100)%Z
  /\ length (ComplianceContext.missingRequirements context)
     = Nat.b2n noRule + Nat.b2n noAccessor + Nat.b2n noBoolean
  /\ (noRule = true -> noAccessor = true -> noBoolean = true ->
      ComplianceContext.complianceScore context = 35%Z
      /\ length (ComplianceContext.missingRequirements context) = 3)
  /\ ComplianceContext.complianceScore (RAGEngine.buildRuleComplianceContext [] documents)
     = 35%Z.
Proof.
  cbv zeta. unfold RAGEngine.buildRuleComplianceContext.
  unfold RAGEngine.missingRule, RAGEngine.missingAccessor, RAGEngine.missingBoolean.
  rewrite <- !negb_orb.
  split; [|split; [|split; [|split]]].
  - by repeat case_match; simplify_eq/=.
  - repeat case_match; simplify_eq/=; lia.
  - repeat case_match; simplify_eq/=; reflexivity.
  - intros -> -> ->. done.
  - reflexivity.
Qed.

Lemma buildRuleComplianceContext_score_witness :
  ComplianceContext.complianceScore
    (RAGEngine.buildRuleComplianceContext (txt "import json") []) = 35%Z
  /\ length (ComplianceContext.missingRequirements
               (RAGEngine.buildRuleComplianceContext (txt "import json") [])) = 3.
Proof.
  destruct (buildRuleComplianceContext_score (txt "import json") [])
    as (_ & _ & _ & Hall & _).
  apply Hall; reflexivity.
Defined.

(** ** Statistics *)

(** C10.  [getSearchStats] always returns statistics, never an error; when
    one of its four queries fails they are the empty statistics: no
    documents, no examples, empty maps of types and categories. *)
Theorem getSearchStats_never_fails w :
  (exists stats, RAGEngine.getSearchStats w = Ok stats)
  /\ ((exists q, q ∈ [QDocCount; QExampleCount; QDocTypes; QExampleCategories]
                 /\ queryFault w q <> None) ->
      RAGEngine.getSearchStats w = Ok (SearchStats.mk 0 0 ∅ ∅))
  /\ RAGEngineBase.getSearchStats w = RAGEngine.getSearchStats w.
Proof.
  unfold RAGEngineBase.getSearchStats, RAGEngine.getSearchStats, runQuery. split; [|split].
  - repeat case_match; simpl; eauto.
  - intros (q & Hq & Hfault). set_unfold.
    destruct Hq as [->|[->|[->|[->|[]]]]];
      repeat (case_match; simpl; try done).
  - done.
Qed.

Lemma getSearchStats_never_fails_witness :
  RAGEngine.getSearchStats
    (Sample.world Sample.bruteForce [] (Sample.failing QDocTypes))
  = Ok (SearchStats.mk 0 0 ∅ ∅).
Proof.
  destruct (getSearchStats_never_fails
              (Sample.world Sample.bruteForce [] (Sample.failing QDocTypes)))
    as (_ & Hfault & _).
  apply Hfault. exists QDocTypes. split; [|discriminate].
  repeat constructor.
Defined.

Example getSearchStats_counts :
  match RAGEngine.getSearchStats (Sample.world Sample.tied [] Sample.noFault) with
  | Ok stats =>
      SearchStats.totalDocuments stats = 3%N
      /\ SearchStats.documentTypes stats !! txt "rule" = Some 2%N
      /\ SearchStats.documentTypes stats !! txt "example" = Some 1%N
  | Err _ => False
  end.
Proof. by vm_compute. Qed.

(** ** Prompt assembly *)

Lemma clip_truncated budget marker content :
  clip budget marker content = truncated budget marker content.
Proof.
  unfold clip, truncated, slice0.
  destruct (Nat.ltb_spec budget (length content)) as [Hlt|Hge].
  - by rewrite bool_decide_eq_true_2.
  - rewrite bool_decide_eq_false_2 by lia. by rewrite app_nil_r, take_ge.
Qed.

Lemma truncated_law budget marker content :
  length (truncated budget marker content) <= budget + length marker
  /\ (budget < length content ->
      truncated budget marker content = take budget content ++ marker)
  /\ (length content <= budget -> truncated budget marker content = content).
Proof.
  unfold truncated. case_bool_decide as Hlt; repeat split; try done; try lia.
  rewrite length_app, length_take. lia.
Qed.

Lemma occursIn_here fragment : occursIn fragment fragment.
Proof. exists [], []. by rewrite app_nil_r. Qed.

Lemma occursIn_app_l fragment s1 s2 : occursIn fragment s1 -> occursIn fragment (s1 ++ s2).
Proof.
  intros (before & after & ->). exists before, (after ++ s2). by rewrite <- !app_assoc.
Qed.

Lemma occursIn_app_r fragment s1 s2 : occursIn fragment s2 -> occursIn fragment (s1 ++ s2).
Proof.
  intros (before & after & ->). exists (s1 ++ before), after. by rewrite <- !app_assoc.
Qed.

Lemma occursIn_concat fragment piece (pieces : list text) :
  piece ∈ pieces -> occursIn fragment piece -> occursIn fragment (concat pieces).
Proof.
  intros (l1 & l2 & ->)%list_elem_of_split Hpiece.
  rewrite concat_app, concat_cons. by apply occursIn_app_r, occursIn_app_l.
Qed.

Create HintDb occurs.
#[local] Hint Resolve occursIn_here occursIn_app_l occursIn_app_r : occurs.

Lemma occursIn_entry {A} (render : nat -> A -> text) (items : list A) index item :
  items !! index = Some item -> occursIn (render index item) (concat (imap render items)).
Proof.
  intros Hitem. eapply occursIn_concat; [|apply occursIn_here].
  by eapply elem_of_lookup_imap_2.
Qed.

Lemma nonempty_length {A} (items : list A) index item :
  items !! index = Some item -> bool_decide (0 < length items) = true.
Proof. intros Hitem. apply bool_decide_eq_true_2. destruct items; [done|simpl; lia]. Qed.

Lemma occursIn_trans fragment piece s :
  occursIn fragment piece -> occursIn piece s -> occursIn fragment s.
Proof.
  intros (b1 & a1 & ->) (b2 & a2 & ->). exists (b2 ++ b1), (a1 ++ a2).
  by rewrite <- !app_assoc.
Qed.

Lemma renderExamples_entry examples index example :
  examples !! index = Some example ->
  occursIn (txt "**코드**:" ++ nl ++ txt "```python" ++ nl
            ++ truncated 600 (nl ++ txt "# ... (truncated)")
                 (ExampleSearchResult.codeContent example)
            ++ nl ++ txt "```" ++ nl ++ nl)
    (renderExamples examples).
Proof.
  intros Hexample. unfold renderExamples. rewrite (nonempty_length _ _ _ Hexample).
  do 3 apply occursIn_app_r.
  eapply occursIn_trans; [|by apply occursIn_entry].
  unfold renderExample. rewrite clip_truncated.
  do 12 apply occursIn_app_r. apply occursIn_here.
Qed.

(** C7.  What each prompt holds of a content.  The entry of a document is
    its heading, the truncation of its content and an empty line, with
    nothing else in between: the truncation to 800 units with [...] in the
    base engine; to 1000 units with [...], after the label of the key
    requirements, for an authoritative document of the weighting engine and
    to 600 units with [...] for any other.  The code of an example stands
    between the opening and the closing fence, truncated to 600 units with
    the comment marker, in both engines.  The expression the code emits
    is this truncation: the first units of a content over the budget, as
    many as the budget, followed by the marker, never longer than budget
    and marker together; a content within the budget whole, without
    marker. *)
Theorem prompt_truncation :
  (forall documents examples index doc,
     documents !! index = Some doc ->
     occursIn (renderHeading (txt "관련도") index doc
               ++ truncated 800 (txt "...") (SearchResult.content doc) ++ nl ++ nl)
       (RAGEngineBase.buildPromptWithRAG documents examples))
  /\ (forall documents examples index doc,
        filter (fun doc => RAGEngine.isOfficial doc = true) documents !! index = Some doc ->
        occursIn (renderHeading (txt "권위도") index doc
                  ++ txt "**핵심 요구사항**: "
                  ++ truncated 1000 (txt "...") (SearchResult.content doc) ++ nl ++ nl)
          (RAGEngine.buildPromptWithRAG documents examples))
  /\ (forall documents examples index doc,
        filter (fun doc => RAGEngine.isOfficial doc = false) documents !! index = Some doc ->
        occursIn (renderHeading (txt "관련도") index doc
                  ++ truncated 600 (txt "...") (SearchResult.content doc) ++ nl ++ nl)
          (RAGEngine.buildPromptWithRAG documents examples))
  /\ (forall documents examples index example,
        examples !! index = Some example ->
        let fragment :=
          txt "**코드**:" ++ nl ++ txt "```python" ++ nl
          ++ truncated 600 (nl ++ txt "# ... (truncated)")
               (ExampleSearchResult.codeContent example)
          ++ nl ++ txt "```" ++ nl ++ nl in
        occursIn fragment (RAGEngineBase.buildPromptWithRAG documents examples)
        /\ occursIn fragment (RAGEngine.buildPromptWithRAG documents examples))
  /\ (forall budget marker content,
        clip budget marker content = truncated budget marker content
        /\ length (clip budget marker content) <= budget + length marker
        /\ (budget < length content ->
            clip budget marker content = take budget content ++ marker)
        /\ (length content <= budget -> clip budget marker content = content)).
Proof.
  split; [|split; [|split; [|split]]].
  - intros documents examples index doc Hdoc. unfold RAGEngineBase.buildPromptWithRAG.
    rewrite (nonempty_length _ _ _ Hdoc).
    apply occursIn_app_r, occursIn_app_l. do 3 apply occursIn_app_r.
    eapply occursIn_trans; [|by apply occursIn_entry].
    unfold RAGEngineBase.renderDocument. rewrite clip_truncated. apply occursIn_here.
  - intros documents examples index doc Hdoc. unfold RAGEngine.buildPromptWithRAG.
    rewrite (nonempty_length _ _ _ Hdoc).
    apply occursIn_app_r, occursIn_app_l. do 3 apply occursIn_app_r.
    eapply occursIn_trans; [|by apply occursIn_entry].
    unfold RAGEngine.renderOfficial. rewrite clip_truncated. apply occursIn_here.
  - intros documents examples index doc Hdoc. unfold RAGEngine.buildPromptWithRAG.
    rewrite (nonempty_length _ _ _ Hdoc).
    do 2 apply occursIn_app_r. apply occursIn_app_l. do 3 apply occursIn_app_r.
    eapply occursIn_trans; [|by apply occursIn_entry].
    unfold RAGEngine.renderOther. rewrite clip_truncated. apply occursIn_here.
  - intros documents examples index example Hexample fragment. split.
    + unfold RAGEngineBase.buildPromptWithRAG.
      do 2 apply occursIn_app_r. by eapply occursIn_app_l, renderExamples_entry.
    + unfold RAGEngine.buildPromptWithRAG.
      do 3 apply occursIn_app_r. by eapply occursIn_app_l, renderExamples_entry.
  - intros budget marker content. rewrite clip_truncated.
    split; [done|]. apply truncated_law.
Qed.

Lemma prompt_truncation_witness :
  let doc := SearchResult.mk (txt "d") (txt "Rule basics") (repeat "x"%char 801) None
               (txt "rule") (9 # 10) None in
  occursIn (renderHeading (txt "관련도") 0 doc ++ repeat "x"%char 800 ++ txt "..." ++ nl ++ nl)
    (RAGEngineBase.buildPromptWithRAG [doc] [])
  /\ occursIn (renderHeading (txt "권위도") 0 doc ++ txt "**핵심 요구사항**: "
               ++ repeat "x"%char 801 ++ nl ++ nl)
       (RAGEngine.buildPromptWithRAG [doc] []).
Proof.
  intros doc.
  destruct prompt_truncation as (Hbase & Hofficial & _ & _ & _).
  split.
  - apply (Hbase [doc] [] 0 doc). reflexivity.
  - apply (Hofficial [doc] [] 0 doc). reflexivity.
Defined.

(** ** Text normalisation *)

Lemma replaceRuns_normalized inRun t :
  normalized inRun (replaceRuns isSpace space inRun t) = true.
Proof.
  revert inRun. induction t as [|c t IH]; intros inRun; simpl; [done|].
  destruct (isSpace c) eqn:Hc.
  - destruct inRun; simpl; [apply IH|]. by rewrite IH.
  - simpl. rewrite Hc. apply IH.
Qed.

Lemma normalized_replaceRuns inRun s :
  normalized inRun s = true -> replaceRuns isSpace space inRun s = s.
Proof.
  revert inRun. induction s as [|c s IH]; intros inRun; simpl; [done|].
  destruct (isSpace c) eqn:Hc.
  - intros [[Hspace Hrun%negb_true_iff]%andb_prop Hs]%andb_prop. subst inRun.
    apply bool_decide_eq_true in Hspace. subst c. by rewrite IH.
  - intros Hs. by rewrite IH.
Qed.

Lemma isNewline_isSpace c : isNewline c = true -> isSpace c = true.
Proof.
  unfold isNewline, isSpace. intros ->%N.eqb_eq. reflexivity.
Qed.

Lemma normalized_replaceNewlines afterSpace inRun s :
  normalized afterSpace s = true -> replaceRuns isNewline newline inRun s = s.
Proof.
  revert afterSpace inRun. induction s as [|c s IH]; intros afterSpace inRun; simpl; [done|].
  destruct (isNewline c) eqn:Hn.
  - rewrite (isNewline_isSpace _ Hn).
    intros [[Hspace _]%andb_prop _]%andb_prop.
    apply bool_decide_eq_true in Hspace. subst c. discriminate.
  - destruct (isSpace c).
    + intros [_ Hs]%andb_prop. by rewrite (IH true).
    + intros Hs. by rewrite (IH false).
Qed.

Lemma normalized_false afterSpace s :
  normalized afterSpace s = true -> normalized false s = true.
Proof.
  destruct s as [|c s]; simpl; [done|]. destruct (isSpace c); [|done].
  intros [[-> _]%andb_prop ->]%andb_prop. done.
Qed.

Lemma normalized_app_r afterSpace s1 s2 :
  normalized afterSpace (s1 ++ s2) = true -> normalized false s2 = true.
Proof.
  revert afterSpace. induction s1 as [|c s1 IH]; intros afterSpace; simpl.
  { apply normalized_false. }
  destruct (isSpace c); [intros [_ Hs]%andb_prop|intros Hs]; by eapply IH.
Qed.

Lemma normalized_app_l afterSpace s1 s2 :
  normalized afterSpace (s1 ++ s2) = true -> normalized afterSpace s1 = true.
Proof.
  revert afterSpace. induction s1 as [|c s1 IH]; intros afterSpace; simpl; [done|].
  destruct (isSpace c).
  - intros [-> Hs]%andb_prop. simpl. by eapply IH.
  - apply IH.
Qed.

Lemma trimStart_suffix s : exists dropped, s = dropped ++ trimStart s.
Proof.
  induction s as [|c s [dropped IH]]; simpl; [by exists []|].
  destruct (isSpace c); [|by exists []].
  exists (c :: dropped). simpl. by rewrite <- IH.
Qed.

Lemma trimStart_head s : startsWithSpace (trimStart s) = false.
Proof.
  induction s as [|c s IH]; simpl; [done|]. by destruct (isSpace c) eqn:Hc; simpl.
Qed.

Lemma trimStart_id s : startsWithSpace s = false -> trimStart s = s.
Proof. destruct s as [|c s]; simpl; [done|]. by intros ->. Qed.

Lemma trimEnd_prefix s : exists dropped, s = trimEnd s ++ dropped.
Proof.
  unfold trimEnd. destruct (trimStart_suffix (reverse s)) as [dropped Hs].
  exists (reverse dropped). rewrite <- reverse_app, <- Hs. by rewrite reverse_involutive.
Qed.

Lemma endsWithSpace_reverse s : endsWithSpace s = startsWithSpace (reverse s).
Proof.
  unfold endsWithSpace. destruct s as [|c s _] using rev_ind; [done|].
  by rewrite last_snoc, reverse_snoc.
Qed.

Lemma trimEnd_last s : endsWithSpace (trimEnd s) = false.
Proof.
  unfold trimEnd. by rewrite endsWithSpace_reverse, reverse_involutive, trimStart_head.
Qed.

Lemma trimEnd_id s : endsWithSpace s = false -> trimEnd s = s.
Proof.
  unfold trimEnd. rewrite endsWithSpace_reverse. intros Hs.
  by rewrite trimStart_id, reverse_involutive.
Qed.

Lemma startsWithSpace_prefix s1 s2 :
  startsWithSpace (s1 ++ s2) = false -> startsWithSpace s1 = false.
Proof. by destruct s1. Qed.

(** What one application of [preprocessText] establishes. *)
Lemma preprocessText_shape t :
  let r := TitanEmbeddingClient.preprocessText t in
  normalized false r = true
  /\ startsWithSpace r = false
  /\ length r <= TitanEmbeddingClient.maxInputLength.
Proof.
  unfold TitanEmbeddingClient.preprocessText, slice0.
  generalize TitanEmbeddingClient.maxInputLength as n. intros n.
  set (u := replaceRuns isSpace space false t).
  assert (normalized false u = true) as Hu by apply replaceRuns_normalized.
  rewrite (normalized_replaceNewlines false false u Hu).
  unfold trim.
  destruct (trimStart_suffix u) as [d1 H1].
  destruct (trimEnd_prefix (trimStart u)) as [d2 H2].
  set (v := trimEnd (trimStart u)) in *.
  assert (normalized false v = true) as Hv.
  { rewrite H1 in Hu. apply normalized_app_r in Hu. rewrite H2 in Hu.
    by apply normalized_app_l in Hu. }
  assert (startsWithSpace v = false) as Hhead.
  { pose proof (trimStart_head u) as Hs. rewrite H2 in Hs.
    by apply startsWithSpace_prefix in Hs. }
  rewrite <- (take_drop n v) in Hv, Hhead.
  repeat split.
  - by apply normalized_app_l in Hv.
  - by apply startsWithSpace_prefix in Hhead.
  - rewrite length_take. lia.
Qed.

Lemma preprocessText_fixed r :
  normalized false r = true ->
  startsWithSpace r = false ->
  endsWithSpace r = false ->
  length r <= TitanEmbeddingClient.maxInputLength ->
  TitanEmbeddingClient.preprocessText r = r.
Proof.
  intros Hr Hhead Hlast Hlen. unfold TitanEmbeddingClient.preprocessText, slice0, trim.
  rewrite (normalized_replaceRuns _ _ Hr), (normalized_replaceNewlines _ _ _ Hr).
  rewrite (trimStart_id _ Hhead), (trimEnd_id _ Hlast). by apply take_ge.
Qed.

(** C8, as the code has it.  A second application of [preprocessText]
    changes nothing when the result of the first does not end in white
    space, which is the case whenever the normalised and trimmed text is
    within the length limit. *)
Theorem preprocessText_idempotent_when_not_cut_after_space t :
  (endsWithSpace (TitanEmbeddingClient.preprocessText t) = false ->
   TitanEmbeddingClient.preprocessText (TitanEmbeddingClient.preprocessText t)
   = TitanEmbeddingClient.preprocessText t)
  /\ (length (trim (replaceRuns isSpace space false t))
        <= TitanEmbeddingClient.maxInputLength ->
      TitanEmbeddingClient.preprocessText (TitanEmbeddingClient.preprocessText t)
      = TitanEmbeddingClient.preprocessText t).
Proof.
  destruct (preprocessText_shape t) as (Hnorm & Hhead & Hlen).
  assert (endsWithSpace (TitanEmbeddingClient.preprocessText t) = false ->
          TitanEmbeddingClient.preprocessText (TitanEmbeddingClient.preprocessText t)
          = TitanEmbeddingClient.preprocessText t) as Hidem
    by (intros Hlast; by apply preprocessText_fixed).
  split; [exact Hidem|].
  intros Hfit. apply Hidem. unfold TitanEmbeddingClient.preprocessText, slice0.
  rewrite (normalized_replaceNewlines false false) by apply replaceRuns_normalized.
  rewrite take_ge by done. apply trimEnd_last.
Qed.

Lemma preprocessText_idempotent_when_not_cut_after_space_witness :
  TitanEmbeddingClient.preprocessText
    (TitanEmbeddingClient.preprocessText (txt "  def  rule(event):  "))
  = TitanEmbeddingClient.preprocessText (txt "  def  rule(event):  ").
Proof.
  destruct (preprocessText_idempotent_when_not_cut_after_space
              (txt "  def  rule(event):  ")) as [_ Hfit].
  apply Hfit. apply Nat.leb_le. vm_compute. reflexivity.
Defined.

(** C8, as stated, fails: the limit cuts [Sample.cutAfterSpace], 7999
    letters, a space and a letter, right after the space; the result has
    8000 units and ends in that space, which a second application trims
    off. *)
Lemma preprocessText_idempotence_counterexample :
  N.of_nat (length (TitanEmbeddingClient.preprocessText Sample.cutAfterSpace)) = 8000%N
  /\ N.of_nat (length (TitanEmbeddingClient.preprocessText
                         (TitanEmbeddingClient.preprocessText Sample.cutAfterSpace)))
     = 7999%N
  /\ TitanEmbeddingClient.preprocessText
       (TitanEmbeddingClient.preprocessText Sample.cutAfterSpace)
     <> TitanEmbeddingClient.preprocessText Sample.cutAfterSpace.
Proof.
  assert (N.of_nat (length (TitanEmbeddingClient.preprocessText Sample.cutAfterSpace))
          = 8000%N) as H1 by (vm_compute; reflexivity).
  assert (N.of_nat (length (TitanEmbeddingClient.preprocessText
                              (TitanEmbeddingClient.preprocessText Sample.cutAfterSpace)))
          = 7999%N) as H2 by (vm_compute; reflexivity).
  split; [exact H1|]. split; [exact H2|].
  intros Heq. rewrite Heq, H1 in H2. discriminate H2.
Qed.

(** * Further properties of the code *)

(** ** Searches *)

Lemma elem_of_take_inv {A} (x : A) n (l : list A) : x ∈ take n l -> x ∈ l.
Proof. intros Hx. rewrite <- (take_drop n l). apply elem_of_app. by left. Qed.

Lemma relevantRulesRows_elem w queryEmbedding topK m row :
  row ∈ RAGEngine.relevantRulesRows w queryEmbedding topK m ->
  (row.2 < 1 - m)%Q
  /\ exists e, row.1 ∈ knowledgeDocuments w
               /\ KnowledgeDocument.embedding row.1 = Some e
               /\ row.2 = cosineDistance w e queryEmbedding.
Proof.
  unfold RAGEngine.relevantRulesRows. intros Hrow%elem_of_take_inv.
  rewrite orderBy_Permutation in Hrow.
  apply elem_of_eligible in Hrow as [Hlt Hrow]. by apply elem_of_scan in Hrow.
Qed.

(** X1.  Every result of [searchRelevantRules] is the row of a stored
    document that has an embedding, carries one minus its distance to the
    query vector as similarity, and lies strictly above [minSimilarity]:
    a document exactly at the threshold, or without embedding, is never
    returned. *)
Theorem searchRelevantRules_sound w query topK minSimilarity queryEmbedding results :
  embedQuery w query = Ok queryEmbedding ->
  RAGEngine.searchRelevantRules w query topK minSimilarity = Ok results ->
  Forall (fun result =>
            (minSimilarity < SearchResult.similarity result)%Q
            /\ exists d e,
                 d ∈ knowledgeDocuments w
                 /\ KnowledgeDocument.embedding d = Some e
                 /\ result = toSearchResult d (1 - cosineDistance w e queryEmbedding)%Q)
         results.
Proof.
  intros He Hrun. unfold RAGEngine.searchRelevantRules in Hrun.
  rewrite He in Hrun. simpl in Hrun. unfold runQuery in Hrun.
  destruct (queryFault w QRelevantRules); simplify_eq/=.
  apply Forall_fmap, Forall_forall. intros row Hrow.
  apply relevantRulesRows_elem in Hrow as (Hlt & e & Hd & Hemb & Hdist).
  simpl. unfold RAGEngine.rawSimilarity. split; [lra|].
  exists row.1, e. by rewrite <- Hdist.
Qed.

Lemma searchRelevantRules_sound_witness :
  exists results,
    RAGEngine.searchRelevantRules (Sample.world Sample.bruteForce [] Sample.noFault)
      (txt "brute force login detection") 5 (72 # 100) = Ok results
    /\ Forall (fun result => (72 # 100 < SearchResult.similarity result)%Q) results
    /\ length results = 1.
Proof.
  eexists. split; [reflexivity|]. split; [|reflexivity].
  eapply Forall_impl.
  - apply (searchRelevantRules_sound
             (Sample.world Sample.bruteForce [] Sample.noFault)
             (txt "brute force login detection") 5 (72 # 100) [1%Q]); reflexivity.
  - intros result [Hlt _]. exact Hlt.
Defined.

(** X3.  When the embedding call and the query succeed,
    [searchSimilarExamples] returns at most [topK] stored examples that
    have an embedding, in descending order of similarity, each strictly
    above [minSimilarity]. *)
Theorem searchSimilarExamples_bounded w code topK minSimilarity codeEmbedding :
  embedQuery w code = Ok codeEmbedding ->
  queryFault w QSimilarExamples = None ->
  exists results,
    RAGEngine.searchSimilarExamples w code topK minSimilarity = Ok results
    /\ length results <= topK
    /\ StronglySorted
         (fun a b => (ExampleSearchResult.similarity b
                      <= ExampleSearchResult.similarity a)%Q) results
    /\ Forall (fun result =>
                 (minSimilarity < ExampleSearchResult.similarity result)%Q
                 /\ exists c e,
                      c ∈ codeExamples w
                      /\ CodeExample.embedding c = Some e
                      /\ result = toExampleSearchResult c
                                    (1 - cosineDistance w e codeEmbedding)%Q)
              results.
Proof.
  intros He Hq. unfold RAGEngine.searchSimilarExamples.
  rewrite He. simpl. rewrite (runQuery_ok _ _ _ Hq). simpl.
  eexists. split; [reflexivity|].
  set (rows := RAGEngine.eligible _ _ _ _ _). repeat split.
  - rewrite length_fmap, length_take. lia.
  - eapply StronglySorted_fmap; [|apply StronglySorted_take, (ascending_sorted snd)].
    intros a b Hab. simpl in *. lra.
  - apply Forall_fmap, Forall_forall. intros row Hrow%elem_of_take_inv.
    rewrite orderBy_Permutation in Hrow. apply elem_of_eligible in Hrow as [Hlt Hrow].
    apply elem_of_scan in Hrow as (e & Hc & Hemb & Hdist). simpl. split; [lra|].
    exists row.1, e. by rewrite <- Hdist.
Qed.

Lemma searchSimilarExamples_bounded_witness :
  exists results,
    RAGEngine.searchSimilarExamples Scenario.library (txt "def rule(event): pass") 3
      (65 # 100) = Ok results
    /\ length results <= 3
    /\ (ExampleSearchResult.id <$> results) = [txt "e1"; txt "e2"].
Proof.
  destruct (searchSimilarExamples_bounded Scenario.library (txt "def rule(event): pass") 3
              (65 # 100) [1%Q] eq_refl eq_refl) as (results & Hrun & Hlen & _).
  exists results. split; [exact Hrun|]. split; [exact Hlen|].
  vm_compute in Hrun. injection Hrun as <-. reflexivity.
Defined.

(** X4.  A failure of the embedding call or of the query inside
    [searchSimilarExamples] reaches the caller as an error whose message
    is [Example search failed: ] followed by the message of the failure. *)
Theorem searchSimilarExamples_propagates w code topK minSimilarity error :
  embedQuery w code = Err error
  \/ ((exists codeEmbedding, embedQuery w code = Ok codeEmbedding)
      /\ queryFault w QSimilarExamples = Some error) ->
  RAGEngine.searchSimilarExamples w code topK minSimilarity =
    Err (JsError (txt "Example search failed: "
                  ++ messageOr (txt "Unknown error") error)).
Proof.
  intros Hfail. unfold RAGEngine.searchSimilarExamples.
  destruct Hfail as [He|[[codeEmbedding He] Hq]]; rewrite He; simpl; [done|].
  by rewrite (runQuery_fault _ _ _ _ Hq).
Qed.

Lemma searchSimilarExamples_propagates_witness :
  RAGEngine.searchSimilarExamples
    (Sample.world [] Scenario.examples (Sample.failing QSimilarExamples))
    (txt "def rule(event): pass") 3 (65 # 100) =
  Err (JsError (txt "Example search failed: connection refused")).
Proof.
  apply (searchSimilarExamples_propagates
           (Sample.world [] Scenario.examples (Sample.failing QSimilarExamples))
           (txt "def rule(event): pass") 3 (65 # 100) Sample.connectionLost).
  right. split; [by exists [1%Q] | reflexivity].
Defined.

(** X5.  [searchByPantherFunctions] never fails: whatever the embedding
    call and the query do, it returns a list, and the empty list when
    either of them fails. *)
Theorem searchByPantherFunctions_never_fails w query topK :
  (exists results, RAGEngine.searchByPantherFunctions w query topK = Ok results)
  /\ ((exists error, embedQuery w query = Err error) ->
      RAGEngine.searchByPantherFunctions w query topK = Ok [])
  /\ (queryFault w QPantherFunctions <> None ->
      RAGEngine.searchByPantherFunctions w query topK = Ok []).
Proof.
  unfold RAGEngine.searchByPantherFunctions, runQuery. repeat split.
  - destruct (embedQuery w query); simpl; [|eauto].
    destruct (queryFault w QPantherFunctions); simpl; eauto.
  - intros [error ->]. done.
  - intros Hfault. destruct (embedQuery w query); simpl; [|done].
    by destruct (queryFault w QPantherFunctions).
Qed.

Lemma searchByPantherFunctions_never_fails_witness :
  RAGEngine.searchByPantherFunctions
    (Sample.world Sample.shared [] (Sample.failing QPantherFunctions))
    (txt "def rule(event): pass") 2 = Ok [].
Proof.
  destruct (searchByPantherFunctions_never_fails
              (Sample.world Sample.shared [] (Sample.failing QPantherFunctions))
              (txt "def rule(event): pass") 2) as (_ & _ & Hfault).
  apply Hfault. discriminate.
Defined.

(** X6.  Every document [searchByPantherFunctions] returns holds one of
    the nine keywords, letter case aside and any single character in
    place of an underscore, and lies strictly above the similarity 0.5;
    at most [topK] documents come back, the most similar first. *)
Theorem searchByPantherFunctions_keyword_gated w query topK results :
  RAGEngine.searchByPantherFunctions w query topK = Ok results ->
  length results <= topK
  /\ StronglySorted
       (fun a b => (SearchResult.similarity b <= SearchResult.similarity a)%Q) results
  /\ Forall (fun result =>
               (1 # 2 < SearchResult.similarity result)%Q
               /\ exists keyword,
                    keyword ∈ [txt "rule("; txt "severity("; txt "title("; txt "dedup(";
                               txt "runbook("; txt "deep_get"; txt "deep_walk";
                               txt "event.get"; txt "event.udm"]
                    /\ likeAnywhere keyword (SearchResult.content result) = true)
            results.
Proof.
  unfold RAGEngine.searchByPantherFunctions, runQuery, tryCatch. intros Hrun.
  destruct (embedQuery w query) as [queryEmbedding|]; simpl in Hrun;
    [|simplify_eq; repeat split; [simpl; lia | constructor | constructor]].
  destruct (queryFault w QPantherFunctions); simpl in Hrun;
    [simplify_eq; repeat split; [simpl; lia | constructor | constructor]|].
  simplify_eq. repeat split.
  - rewrite length_fmap, length_take. lia.
  - eapply StronglySorted_fmap;
      [|apply StronglySorted_take, (descending_sorted RAGEngine.rawSimilarity)].
    by intros a b.
  - apply Forall_fmap, Forall_forall. intros row Hrow%elem_of_take_inv.
    rewrite orderBy_Permutation in Hrow.
    apply list_elem_of_filter in Hrow as [Hkeep _].
    apply andb_prop in Hkeep as [Hkey Hlt]. apply Qlt_bool_lt in Hlt.
    simpl. unfold RAGEngine.rawSimilarity. split; [lra|].
    unfold RAGEngine.mentionsPantherFunction in Hkey.
    apply existsb_exists in Hkey as (keyword & Hin & Hlike).
    exists keyword. split; [by apply list_elem_of_In|done].
Qed.

Lemma searchByPantherFunctions_keyword_gated_witness :
  exists results,
    RAGEngine.searchByPantherFunctions (Sample.world Sample.shared [] Sample.noFault)
      (txt "def rule(event): pass") 2 = Ok results
    /\ (SearchResult.id <$> results) = [txt "d1"; txt "d2"]
    /\ length results <= 2.
Proof.
  eexists. split; [reflexivity|]. split; [by vm_compute|].
  destruct (searchByPantherFunctions_keyword_gated
              (Sample.world Sample.shared [] Sample.noFault)
              (txt "def rule(event): pass") 2 _ eq_refl) as [Hlen _].
  exact Hlen.
Defined.

(** ** Authority weighting and the result schema *)

Lemma pantherRulesRows_elem w queryEmbedding topK m row :
  row ∈ RAGEngine.pantherRulesRows w queryEmbedding topK m ->
  (row.2 < 1 - m)%Q
  /\ exists e, row.1 ∈ knowledgeDocuments w
               /\ KnowledgeDocument.embedding row.1 = Some e
               /\ row.2 = cosineDistance w e queryEmbedding.
Proof.
  unfold RAGEngine.pantherRulesRows. intros Hrow%elem_of_take_inv.
  rewrite orderBy_Permutation in Hrow.
  apply elem_of_eligible in Hrow as [Hlt Hrow]. by apply elem_of_scan in Hrow.
Qed.

Lemma weightedScore_bounds d similarity :
  (0 <= similarity)%Q ->
  (similarity <= RAGEngine.weightedScore d similarity)%Q
  /\ (RAGEngine.weightedScore d similarity <= similarity * (13 # 10))%Q.
Proof.
  intros Hpos. unfold RAGEngine.weightedScore. repeat case_match; split; lra.
Qed.

(** X7.  For a threshold that is not negative, the similarity field of
    every result of [searchPantherRules] is at least the raw similarity of
    its document, itself strictly above [minSimilarity], and at most 1.3
    times that raw similarity. *)
Theorem searchPantherRules_not_below_raw w query topK minSimilarity queryEmbedding results :
  (0 <= minSimilarity)%Q ->
  embedQuery w query = Ok queryEmbedding ->
  RAGEngine.searchPantherRules w query topK minSimilarity = Ok results ->
  Forall2 (fun row result =>
             result = toSearchResult row.1 (SearchResult.similarity result)
             /\ (minSimilarity < 1 - row.2)%Q
             /\ (1 - row.2 <= SearchResult.similarity result)%Q
             /\ (SearchResult.similarity result <= (1 - row.2) * (13 # 10))%Q)
          (RAGEngine.pantherRulesRows w queryEmbedding topK minSimilarity) results.
Proof.
  intros Hmin He Hrun. unfold RAGEngine.searchPantherRules in Hrun.
  rewrite He in Hrun. simpl in Hrun. unfold runQuery in Hrun.
  destruct (queryFault w QPantherRules); simplify_eq/=.
  apply Forall2_fmap_r, Forall_Forall2_diag, Forall_forall. intros row Hrow.
  apply pantherRulesRows_elem in Hrow as (Hlt & _). simpl. split; [done|].
  split; [lra|]. apply weightedScore_bounds. unfold RAGEngine.rawSimilarity. lra.
Qed.

Lemma searchPantherRules_not_below_raw_witness :
  exists results,
    RAGEngine.searchPantherRules (Sample.world Sample.bruteForce [] Sample.noFault)
      (txt "brute force login detection") 5 (7 # 10) = Ok results
    /\ length results = 2.
Proof.
  eexists. split; [reflexivity|].
  pose proof (searchPantherRules_not_below_raw
                (Sample.world Sample.bruteForce [] Sample.noFault)
                (txt "brute force login detection") 5 (7 # 10) [1%Q] _
                ltac:(by vm_compute) eq_refl eq_refl) as Hall.
  apply Forall2_length in Hall. rewrite <- Hall. reflexivity.
Defined.



(** ** The enhanced context, further *)

Lemma searchPantherRules_inv w query topK m results :
  RAGEngine.searchPantherRules w query topK m = Ok results ->
  exists queryEmbedding,
    embedQuery w query = Ok queryEmbedding
    /\ results = (fun result => toSearchResult result.1 (RAGEngine.rowWeightedScore result))
                   <$> RAGEngine.pantherRulesRows w queryEmbedding topK m.
Proof.
  unfold RAGEngine.searchPantherRules, runQuery, tryCatch. intros Hrun.
  destruct (embedQuery w query) as [queryEmbedding|]; simpl in Hrun; [|discriminate].
  destruct (queryFault w QPantherRules); simpl in Hrun; [discriminate|].
  exists queryEmbedding. by simplify_eq.
Qed.

Lemma searchRelevantRules_inv w query topK m results :
  RAGEngine.searchRelevantRules w query topK m = Ok results ->
  exists queryEmbedding,
    embedQuery w query = Ok queryEmbedding
    /\ results = (fun result => toSearchResult result.1 (RAGEngine.rawSimilarity result))
                   <$> RAGEngine.relevantRulesRows w queryEmbedding topK m.
Proof.
  unfold RAGEngine.searchRelevantRules, runQuery, tryCatch. intros Hrun.
  destruct (embedQuery w query) as [queryEmbedding|]; simpl in Hrun; [|discriminate].
  destruct (queryFault w QRelevantRules); simpl in Hrun; [discriminate|].
  exists queryEmbedding. by simplify_eq.
Qed.

Lemma searchSimilarExamples_inv w code topK m results :
  RAGEngine.searchSimilarExamples w code topK m = Ok results ->
  length results <= topK
  /\ Forall (fun result => (m < ExampleSearchResult.similarity result)%Q) results.
Proof.
  unfold RAGEngine.searchSimilarExamples, runQuery, tryCatch. intros Hrun.
  destruct (embedQuery w code) as [codeEmbedding|]; simpl in Hrun; [|discriminate].
  destruct (queryFault w QSimilarExamples); simpl in Hrun; [discriminate|].
  simplify_eq. split.
  - rewrite length_fmap, length_take. lia.
  - apply Forall_fmap, Forall_forall. intros row Hrow%elem_of_take_inv.
    rewrite orderBy_Permutation in Hrow. apply elem_of_eligible in Hrow as [Hlt _].
    simpl. lra.
Qed.

Lemma searchPantherRules_above w query topK m results :
  (0 <= m)%Q ->
  RAGEngine.searchPantherRules w query topK m = Ok results ->
  length results <= topK
  /\ Forall (fun result => (m < SearchResult.similarity result)%Q) results.
Proof.
  intros Hm (queryEmbedding & _ & ->)%searchPantherRules_inv. split.
  - unfold RAGEngine.pantherRulesRows. rewrite length_fmap, length_take. lia.
  - apply Forall_fmap, Forall_forall. intros row Hrow.
    apply pantherRulesRows_elem in Hrow as (Hlt & _). simpl.
    destruct (weightedScore_bounds row.1 (RAGEngine.rawSimilarity row)) as [Hle _];
      unfold RAGEngine.rawSimilarity in *; [lra|].
    unfold RAGEngine.rowWeightedScore, RAGEngine.rawSimilarity. lra.
Qed.

Lemma searchByPantherFunctions_above w query topK results :
  RAGEngine.searchByPantherFunctions w query topK = Ok results ->
  length results <= topK
  /\ Forall (fun result => (1 # 2 < SearchResult.similarity result)%Q) results.
Proof.
  unfold RAGEngine.searchByPantherFunctions, runQuery, tryCatch. intros Hrun.
  destruct (embedQuery w query) as [queryEmbedding|]; simpl in Hrun;
    [|simplify_eq; split; [simpl; lia | constructor]].
  destruct (queryFault w QPantherFunctions); simpl in Hrun;
    [simplify_eq; split; [simpl; lia | constructor]|].
  simplify_eq. split.
  - rewrite length_fmap, length_take. lia.
  - apply Forall_fmap, Forall_forall. intros row Hrow%elem_of_take_inv.
    rewrite orderBy_Permutation in Hrow.
    apply list_elem_of_filter in Hrow as [[_ Hlt%Qlt_bool_lt]%andb_prop _].
    simpl. unfold RAGEngine.rawSimilarity. lra.
Qed.

Lemma sublist_Forall {A} (P : A -> Prop) (l1 l2 : list A) :
  l1 `sublist_of` l2 -> Forall P l2 -> Forall P l1.
Proof.
  induction 1 as [|x l1 l2 _ IH|x l1 l2 _ IH]; intros Hall; [done|..].
  - apply Forall_cons in Hall as [Hx Hall]. constructor; auto.
  - apply Forall_cons in Hall as [_ Hall]. auto.
Qed.

Lemma filterUnseen_sublist docs : forall (seenIds : gset text),
  RAGEngine.filterUnseen seenIds docs `sublist_of` docs.
Proof.
  induction docs as [|doc docs IH]; intros seenIds; simpl; [done|].
  destruct (decide (SearchResult.id doc ∈ seenIds)).
  - by apply sublist_cons.
  - by apply sublist_skip.
Qed.

(** X9.  A context [buildEnhancedContext] returns holds at most five
    documents and three examples, every document of similarity above 0.5
    and every example above 0.65; its counts are the lengths of the two
    lists, its processing time the difference of the two clock readings
    and its prompt the one assembled from these very lists. *)
Theorem buildEnhancedContext_shape w code context :
  RAGEngine.buildEnhancedContext w code = Ok context ->
  length (RAGContext.relevantDocuments context) <= 5
  /\ length (RAGContext.similarExamples context) <= 3
  /\ Forall (fun doc => (1 # 2 < SearchResult.similarity doc)%Q)
       (RAGContext.relevantDocuments context)
  /\ Forall (fun example => (65 # 100 < ExampleSearchResult.similarity example)%Q)
       (RAGContext.similarExamples context)
  /\ RAGContext.searchMetadata context
     = SearchMetadata.mk (length (RAGContext.relevantDocuments context))
         (length (RAGContext.similarExamples context)) (endTime w - startTime w)
  /\ RAGContext.enhancedPrompt context
     = RAGEngine.buildPromptWithRAG (RAGContext.relevantDocuments context)
         (RAGContext.similarExamples context).
Proof.
  intros (weighted & keyword & examples & Hw & Hk & Hx & ->)%buildEnhancedContext_inv.
  apply searchPantherRules_above in Hw as [_ Hw]; [|lra].
  apply searchByPantherFunctions_above in Hk as [_ Hk].
  apply searchSimilarExamples_inv in Hx as [Hlen Hx].
  cbn [RAGContext.relevantDocuments RAGContext.similarExamples RAGContext.searchMetadata
       RAGContext.enhancedPrompt].
  repeat split; try done.
  - rewrite length_take. lia.
  - apply Forall_take.
    apply (sublist_Forall _ _ _ (filterUnseen_sublist _ _)).
    apply Forall_app. split; [|done].
    eapply Forall_impl; [exact Hw|]. intros doc Hdoc. simpl in Hdoc. lra.
Qed.

Lemma buildEnhancedContext_shape_witness :
  exists context,
    RAGEngine.buildEnhancedContext Scenario.library (txt "def rule(event): return True")
      = Ok context
    /\ length (RAGContext.relevantDocuments context) <= 5
    /\ SearchMetadata.documentsFound (RAGContext.searchMetadata context) = 2.
Proof.
  eexists. split; [reflexivity|].
  destruct (buildEnhancedContext_shape Scenario.library
              (txt "def rule(event): return True") _ eq_refl)
    as (Hdocs & _ & _ & _ & Hmeta & _).
  split; [exact Hdocs|]. rewrite Hmeta. reflexivity.
Defined.

(** X10.  A failure of the keyword search does not fail
    [buildEnhancedContext]: when the query of [searchByPantherFunctions]
    fails while the two other searches succeed, a context is returned
    whose documents are the results of the weighted search, merged by
    identity. *)
Theorem buildEnhancedContext_survives_keyword_failure w code queryEmbedding :
  embedQuery w code = Ok queryEmbedding ->
  queryFault w QPantherRules = None ->
  queryFault w QSimilarExamples = None ->
  queryFault w QPantherFunctions <> None ->
  exists context weighted,
    RAGEngine.buildEnhancedContext w code = Ok context
    /\ RAGEngine.searchPantherRules w code 3 (75 # 100) = Ok weighted
    /\ RAGContext.relevantDocuments context = mergeByIdentity weighted.
Proof.
  intros He Hrules Hexamples Hkeyword.
  pose proof (searchPantherRules_run w code 3 (75 # 100) queryEmbedding He Hrules) as Hw.
  assert (RAGEngine.searchByPantherFunctions w code 2 = Ok []) as Hk.
  { unfold RAGEngine.searchByPantherFunctions, runQuery. rewrite He. simpl.
    by destruct (queryFault w QPantherFunctions). }
  assert (exists examples, RAGEngine.searchSimilarExamples w code 3 (65 # 100) = Ok examples)
    as [examples Hx].
  { unfold RAGEngine.searchSimilarExamples. rewrite He. simpl.
    rewrite (runQuery_ok _ _ _ Hexamples). simpl. eauto. }
  eexists. eexists. split; [|split; [exact Hw|]].
  - unfold RAGEngine.buildEnhancedContext. rewrite Hw, Hk, Hx. reflexivity.
  - cbn [RAGContext.relevantDocuments]. rewrite app_nil_r.
    unfold mergeByIdentity. rewrite (filterUnseen_merge _ ∅ []).
    + apply take_ge. etrans; [apply sublist_length, filterUnseen_sublist|].
      unfold RAGEngine.pantherRulesRows. rewrite length_fmap, length_take. lia.
    + intros i. rewrite fmap_nil, elem_of_nil. split; [apply not_elem_of_empty | done].
Qed.

Lemma buildEnhancedContext_survives_keyword_failure_witness :
  exists context,
    RAGEngine.buildEnhancedContext
      (Sample.world Sample.shared Scenario.examples (Sample.failing QPantherFunctions))
      (txt "def rule(event): return True") = Ok context
    /\ (SearchResult.id <$> RAGContext.relevantDocuments context) = [txt "d1"].
Proof.
  destruct (buildEnhancedContext_survives_keyword_failure
              (Sample.world Sample.shared Scenario.examples
                 (Sample.failing QPantherFunctions))
              (txt "def rule(event): return True") [1%Q]
              eq_refl eq_refl eq_refl ltac:(discriminate))
    as (context & weighted & Hrun & _ & _).
  exists context. split; [exact Hrun|].
  vm_compute in Hrun. injection Hrun as <-. reflexivity.
Defined.

(** X11.  A failure of the weighted search or of the example search fails
    [buildEnhancedContext] with the error of a search that failed,
    unchanged.  When one of the two queries fails and the other does not,
    the caller reads the label of the failed search,
    [Panther rule search failed: ] or [Example search failed: ], before the
    message of the failure; when both fail, as they do when the embedding
    call fails, it reads one of the two. *)
Theorem buildEnhancedContext_propagates w code :
  (forall error,
     embedQuery w code = Err error ->
     RAGEngine.buildEnhancedContext w code =
       Err (JsError (txt "Panther rule search failed: "
                     ++ messageOr (txt "Unknown error") error))
     \/ RAGEngine.buildEnhancedContext w code =
          Err (JsError (txt "Example search failed: "
                        ++ messageOr (txt "Unknown error") error)))
  /\ (forall error,
        (exists queryEmbedding, embedQuery w code = Ok queryEmbedding) ->
        queryFault w QPantherRules = Some error ->
        queryFault w QSimilarExamples = None ->
        RAGEngine.buildEnhancedContext w code =
          Err (JsError (txt "Panther rule search failed: "
                        ++ messageOr (txt "Unknown error") error)))
  /\ (forall error,
        (exists queryEmbedding, embedQuery w code = Ok queryEmbedding) ->
        queryFault w QPantherRules = None ->
        queryFault w QSimilarExamples = Some error ->
        RAGEngine.buildEnhancedContext w code =
          Err (JsError (txt "Example search failed: "
                        ++ messageOr (txt "Unknown error") error)))
  /\ (forall weightedError exampleError,
        (exists queryEmbedding, embedQuery w code = Ok queryEmbedding) ->
        queryFault w QPantherRules = Some weightedError ->
        queryFault w QSimilarExamples = Some exampleError ->
        RAGEngine.buildEnhancedContext w code =
          Err (JsError (txt "Panther rule search failed: "
                        ++ messageOr (txt "Unknown error") weightedError))
        \/ RAGEngine.buildEnhancedContext w code =
             Err (JsError (txt "Example search failed: "
                           ++ messageOr (txt "Unknown error") exampleError))).
Proof.
  unfold RAGEngine.buildEnhancedContext, RAGEngine.searchPantherRules,
    RAGEngine.searchByPantherFunctions, RAGEngine.searchSimilarExamples, runQuery.
  split; [|split; [|split]].
  - intros error ->. by left.
  - intros error [queryEmbedding ->] -> _. done.
  - intros error [queryEmbedding ->] -> ->. simpl.
    by destruct (queryFault w QPantherFunctions).
  - intros weightedError exampleError [queryEmbedding ->] -> _. by left.
Qed.

Lemma buildEnhancedContext_propagates_witness :
  RAGEngine.buildEnhancedContext
    (Sample.world Sample.shared Scenario.examples (Sample.failing QSimilarExamples))
    (txt "def rule(event): return True")
  = Err (JsError (txt "Example search failed: connection refused")).
Proof.
  destruct (buildEnhancedContext_propagates
              (Sample.world Sample.shared Scenario.examples
                 (Sample.failing QSimilarExamples))
              (txt "def rule(event): return True"))
    as (_ & _ & Hexamples & _).
  apply (Hexamples Sample.connectionLost); [by exists [1%Q] | reflexivity | reflexivity].
Defined.

(** X12.  A context the base engine returns holds at most five documents,
    each of similarity above 0.7 and the most similar first, and at most
    three examples, each above 0.65; its counts are the lengths of the
    two lists and it carries no compliance context. *)
Theorem base_buildEnhancedContext_shape w code context :
  RAGEngineBase.buildEnhancedContext w code = Ok context ->
  length (RAGContext.relevantDocuments context) <= 5
  /\ length (RAGContext.similarExamples context) <= 3
  /\ Forall (fun doc => (7 # 10 < SearchResult.similarity doc)%Q)
       (RAGContext.relevantDocuments context)
  /\ StronglySorted
       (fun a b => (SearchResult.similarity b <= SearchResult.similarity a)%Q)
       (RAGContext.relevantDocuments context)
  /\ Forall (fun example => (65 # 100 < ExampleSearchResult.similarity example)%Q)
       (RAGContext.similarExamples context)
  /\ RAGContext.searchMetadata context
     = SearchMetadata.mk (length (RAGContext.relevantDocuments context))
         (length (RAGContext.similarExamples context)) (endTime w - startTime w)
  /\ RAGContext.enhancedPrompt context
     = RAGEngineBase.buildPromptWithRAG (RAGContext.relevantDocuments context)
         (RAGContext.similarExamples context)
  /\ RAGContext.complianceContext context = None.
Proof.
  unfold RAGEngineBase.buildEnhancedContext, RAGEngineBase.searchRelevantRules,
    RAGEngineBase.searchSimilarExamples, tryCatch. intros Hrun.
  destruct (RAGEngine.searchRelevantRules w code 5 (7 # 10)) as [documents|] eqn:Hd;
    simpl in Hrun; [|discriminate].
  destruct (RAGEngine.searchSimilarExamples w code 3 (65 # 100)) as [examples|] eqn:Hx;
    simpl in Hrun; [|discriminate].
  simplify_eq.
  cbn [RAGContext.relevantDocuments RAGContext.similarExamples RAGContext.searchMetadata
       RAGContext.enhancedPrompt RAGContext.complianceContext].
  apply searchSimilarExamples_inv in Hx as [Hlen Hx].
  apply searchRelevantRules_inv in Hd as (queryEmbedding & _ & ->).
  repeat split; try done.
  - unfold RAGEngine.relevantRulesRows. rewrite length_fmap, length_take. lia.
  - apply Forall_fmap, Forall_forall. intros row Hrow.
    apply relevantRulesRows_elem in Hrow as [Hlt _]. simpl.
    unfold RAGEngine.rawSimilarity. lra.
  - eapply StronglySorted_fmap; [|apply StronglySorted_take, (ascending_sorted snd)].
    intros a b Hab. simpl in *. unfold RAGEngine.rawSimilarity. lra.
Qed.

Lemma base_buildEnhancedContext_shape_witness :
  exists context,
    RAGEngineBase.buildEnhancedContext Scenario.library
      (txt "def rule(event): return True") = Ok context
    /\ length (RAGContext.relevantDocuments context) <= 5
    /\ RAGContext.complianceContext context = None.
Proof.
  eexists. split; [reflexivity|].
  destruct (base_buildEnhancedContext_shape Scenario.library
              (txt "def rule(event): return True") _ eq_refl)
    as (Hdocs & _ & _ & _ & _ & _ & _ & Hnone).
  split; [exact Hdocs | exact Hnone].
Defined.

(** ** Rule patterns and the compliance context, further *)

Lemma setAdd_NoDup x members : NoDup members -> NoDup (RAGEngine.setAdd x members).
Proof.
  intros Hnodup. unfold RAGEngine.setAdd. case_bool_decide as Hin; [done|].
  apply NoDup_app. split; [done|]. split; [|apply NoDup_singleton].
  intros y Hy ->%list_elem_of_singleton. done.
Qed.

Lemma setAdd_Forall (P : text -> Prop) x members :
  P x -> Forall P members -> Forall P (RAGEngine.setAdd x members).
Proof.
  intros Hx Hall. unfold RAGEngine.setAdd. case_bool_decide; [done|].
  apply Forall_app. split; [done|]. by constructor.
Qed.

Lemma addIf_NoDup b x members : NoDup members -> NoDup (RAGEngine.addIf b x members).
Proof. destruct b; simpl; [apply setAdd_NoDup | done]. Qed.

Lemma addIf_Forall (P : text -> Prop) b x members :
  P x -> Forall P members -> Forall P (RAGEngine.addIf b x members).
Proof. destruct b; simpl; [apply setAdd_Forall | done]. Qed.

Lemma matchDef_name s name :
  RAGEngine.matchDef s = Some name -> name ∈ RAGEngine.functionNames.
Proof.
  unfold RAGEngine.matchDef. repeat case_match; try discriminate.
  intros [Hin _]%find_some. by apply list_elem_of_In.
Qed.

Lemma functionMatches_names s :
  Forall (fun name => name ∈ RAGEngine.functionNames) (RAGEngine.functionMatches s).
Proof.
  induction s as [|c s IH]; simpl; [constructor|].
  apply Forall_app. split; [|done].
  destruct (RAGEngine.matchDef (c :: s)) as [name|] eqn:Hm; simpl; [|constructor].
  constructor; [|constructor]. by eapply matchDef_name.
Qed.

Lemma extractFrom_invariant acc doc :
  patternsInvariant acc -> patternsInvariant (RAGEngine.extractFrom acc doc).
Proof.
  intros (Hr & Hrn & Hc & Hv & Hb & Hbl). unfold RAGEngine.extractFrom.
  repeat split; cbn [RAGEngine.requiredFunctions RAGEngine.commonPatterns
                       RAGEngine.validationRules RAGEngine.bestPractices].
  - revert Hr. generalize (RAGEngine.requiredFunctions acc).
    induction (List.filter _ _) as [|name names IH]; intros members Hm; simpl; [done|].
    by apply IH, setAdd_NoDup.
  - assert (Forall (fun name => name ∈ RAGEngine.functionNames)
              (List.filter (fun name => bool_decide (0 < length name))
                 (RAGEngine.functionMatches (toLowerCase (SearchResult.content doc)))))
      as Hnames.
    { apply Forall_forall. intros name Hin%list_elem_of_In.
      apply filter_In in Hin as [Hin%list_elem_of_In _].
      by eapply Forall_forall in Hin; [|apply functionMatches_names]. }
    revert Hrn. generalize (RAGEngine.requiredFunctions acc).
    induction Hnames as [|name names Hname _ IH]; intros members Hm; simpl; [done|].
    by apply IH, setAdd_Forall.
  - by repeat apply addIf_NoDup.
  - by repeat apply addIf_NoDup.
  - case_match; [|done]. revert Hb. generalize (RAGEngine.bestPractices acc).
    induction (RAGEngine.splitRuns _ _ _ _) as [|sentence sentences IH];
      intros members Hm; simpl; [done|].
    by apply IH, addIf_NoDup.
  - case_match; [|done]. revert Hbl. generalize (RAGEngine.bestPractices acc).
    induction (RAGEngine.splitRuns _ _ _ _) as [|sentence sentences IH];
      intros members Hm; [done|]. cbn [fold_left].
    apply IH, addIf_Forall; [|done]. cbv beta. unfold slice0. rewrite length_take. lia.
Qed.

Lemma extractRulePatterns_invariant documents :
  patternsInvariant (RAGEngine.extractRulePatterns documents).
Proof.
  assert (forall acc, patternsInvariant acc ->
            patternsInvariant (fold_left RAGEngine.extractFrom documents acc)) as Hfold.
  { induction documents as [|doc documents IH]; intros acc Hacc; simpl; [done|].
    by apply IH, extractFrom_invariant. }
  destruct (Hfold {| RAGEngine.requiredFunctions := []; RAGEngine.commonPatterns := [];
                     RAGEngine.validationRules := []; RAGEngine.bestPractices := [] |})
    as (Hr & Hrn & Hc & Hv & Hb & Hbl).
  { repeat split; simpl; constructor. }
  unfold RAGEngine.extractRulePatterns. repeat split; simpl; try done.
  - eapply sublist_NoDup; [exact Hb | apply sublist_take].
  - by apply Forall_take.
Qed.

(** X13.  The four lists [extractRulePatterns] returns hold no entry
    twice; the required functions are among [rule], [severity], [title],
    [dedup] and [runbook]; there are at most five best practices, each of
    at most 100 units. *)
Theorem extractRulePatterns_bounds documents :
  let patterns := RAGEngine.extractRulePatterns documents in
  NoDup (RAGEngine.requiredFunctions patterns)
  /\ Forall (fun name => name ∈ [txt "rule"; txt "severity"; txt "title"; txt "dedup";
                                 txt "runbook"])
       (RAGEngine.requiredFunctions patterns)
  /\ NoDup (RAGEngine.commonPatterns patterns)
  /\ NoDup (RAGEngine.validationRules patterns)
  /\ NoDup (RAGEngine.bestPractices patterns)
  /\ length (RAGEngine.bestPractices patterns) <= 5
  /\ Forall (fun practice => length practice <= 100) (RAGEngine.bestPractices patterns).
Proof.
  destruct (extractRulePatterns_invariant documents) as (Hr & Hrn & Hc & Hv & Hb & Hbl).
  repeat split; try done.
  unfold RAGEngine.extractRulePatterns. simpl. rewrite length_take. lia.
Qed.

(** X14.  The documents handed to [buildRuleComplianceContext] bear on
    its suggestions alone: the score and the missing requirements are the
    same whatever the documents.  There are at most five suggestions,
    each the fixed label followed by a best practice of at most 100
    units, and none without documents. *)
Theorem buildRuleComplianceContext_documents code documents documents' :
  let context := RAGEngine.buildRuleComplianceContext code documents in
  let context' := RAGEngine.buildRuleComplianceContext code documents' in
  ComplianceContext.complianceScore context = ComplianceContext.complianceScore context'
  /\ ComplianceContext.missingRequirements context
     = ComplianceContext.missingRequirements context'
  /\ length (ComplianceContext.suggestions context) <= 5
  /\ Forall (fun suggestion =>
               exists practice,
                 suggestion = txt "모범 사례: " ++ practice /\ length practice <= 100)
       (ComplianceContext.suggestions context)
  /\ ComplianceContext.suggestions (RAGEngine.buildRuleComplianceContext code []) = [].
Proof.
  cbv zeta. unfold RAGEngine.buildRuleComplianceContext.
  destruct (extractRulePatterns_invariant documents) as (_ & _ & _ & _ & _ & Hbl).
  repeat split.
  - by repeat case_match; simplify_eq.
  - by repeat case_match; simplify_eq.
  - repeat case_match; cbn [ComplianceContext.suggestions]; rewrite length_map;
      unfold RAGEngine.extractRulePatterns; cbn [RAGEngine.bestPractices];
      rewrite length_take; lia.
  - repeat case_match; cbn [ComplianceContext.suggestions];
      apply Forall_fmap, Forall_forall; intros practice Hin;
      exists practice; (split; [done|]);
      by eapply Forall_forall in Hbl.
  - by repeat case_match.
Qed.

Lemma lowerUnit_idempotent c : lowerUnit (lowerUnit c) = lowerUnit c.
Proof. destruct c as [[] [] [] [] [] [] [] []]; reflexivity. Qed.

Lemma toLowerCase_idempotent s : toLowerCase (toLowerCase s) = toLowerCase s.
Proof.
  unfold toLowerCase. induction s as [|c s IH]; simpl; [done|].
  by rewrite lowerUnit_idempotent, IH.
Qed.

(** X15.  The score of [buildRuleComplianceContext] is never below 35, so
    that its floor at 0 never applies; it is 100 exactly when no
    requirement is missing; and the letter case of the code does not
    bear on the result. *)
Theorem buildRuleComplianceContext_floor code documents :
  let context := RAGEngine.buildRuleComplianceContext code documents in
  (35 <= ComplianceContext.complianceScore context)%Z
  /\ (ComplianceContext.complianceScore context = 100%Z
      <-> ComplianceContext.missingRequirements context = [])
  /\ RAGEngine.buildRuleComplianceContext (toLowerCase code) documents = context.
Proof.
  cbv zeta. unfold RAGEngine.buildRuleComplianceContext. rewrite toLowerCase_idempotent.
  repeat split.
  - repeat case_match; simplify_eq; cbn [ComplianceContext.complianceScore]; lia.
  - repeat case_match; simplify_eq;
      cbn [ComplianceContext.complianceScore ComplianceContext.missingRequirements];
      intros H; try done; by vm_compute in H.
  - repeat case_match; simplify_eq;
      cbn [ComplianceContext.complianceScore ComplianceContext.missingRequirements];
      intros H; try done; by destruct (app_cons_not_nil _ _ _ (eq_sym H)).
Qed.

(** ** Statistics, further *)

Lemma bump_assoc key k groups :
  assoc k (RAGEngine.bump key groups)
  = if decide (k = key) then Some (default 0%N (assoc k groups) + 1)%N
    else assoc k groups.
Proof.
  induction groups as [|[k' n] groups IH]; simpl.
  - destruct (decide (key = k)), (decide (k = key)); try congruence; done.
  - destruct (decide (k' = key)) as [->|Hne]; simpl.
    + destruct (decide (key = k)) as [<-|Hk].
      * by rewrite decide_True.
      * by rewrite decide_False by congruence.
    + destruct (decide (k' = k)) as [->|Hk]; [by rewrite decide_False|done].
Qed.

Lemma bump_keys key groups :
  (RAGEngine.bump key groups).*1
  = if decide (key ∈ groups.*1) then groups.*1 else groups.*1 ++ [key].
Proof.
  induction groups as [|[k n] groups IH].
  - done.
  - cbn [RAGEngine.bump]. destruct (decide (k = key)) as [->|Hne].
    + rewrite !fmap_cons. cbn [fst]. by rewrite decide_True by apply list_elem_of_here.
    + rewrite !fmap_cons, IH. cbn [fst]. destruct (decide (key ∈ groups.*1)) as [Hin|Hout].
      * by rewrite decide_True by by apply list_elem_of_further.
      * rewrite decide_False; [done|]. intros [->|?]%elem_of_cons; done.
Qed.

Lemma bump_NoDup key groups : NoDup groups.*1 -> NoDup (RAGEngine.bump key groups).*1.
Proof.
  intros Hnodup. rewrite bump_keys. case_decide as Hin; [done|].
  apply NoDup_app. split; [done|]. split; [|apply NoDup_singleton].
  intros k Hk ->%list_elem_of_singleton. done.
Qed.

Lemma groupCount_from keys : forall groups,
  NoDup groups.*1 ->
  NoDup (fold_left (fun groups key => RAGEngine.bump key groups) keys groups).*1
  /\ forall k,
       assoc k (fold_left (fun groups key => RAGEngine.bump key groups) keys groups)
       = if decide (tally k keys = 0%N) then assoc k groups
         else Some (default 0%N (assoc k groups) + tally k keys)%N.
Proof.
  induction keys as [|key keys IH]; intros groups Hnodup; simpl.
  { split; [done|]. intros k. reflexivity. }
  destruct (IH (RAGEngine.bump key groups) (bump_NoDup _ _ Hnodup)) as [Hkeys Hassoc].
  split; [done|]. intros k. rewrite Hassoc, bump_assoc. unfold tally.
  rewrite filter_cons. destruct (decide (key = k)) as [->|Hne].
  - rewrite (decide_True (P := k = k)) by done. simpl.
    case_decide as Hzero; f_equal; lia.
  - rewrite (decide_False (P := k = key)) by congruence. done.
Qed.

Lemma fromEntries_from entries : forall (m : gmap text N) k,
  NoDup entries.*1 ->
  fold_left (fun m entry => <[entry.1 := entry.2]> m) entries m !! k
  = match assoc k entries with
    | Some n => Some n
    | None => m !! k
    end.
Proof.
  induction entries as [|[k' n] entries IH]; intros m k Hnodup; simpl; [done|].
  apply NoDup_cons in Hnodup as [Hout Hnodup]. rewrite IH by done.
  destruct (decide (k' = k)) as [->|Hne].
  - assert (assoc k entries = None) as ->.
    { clear -Hout. induction entries as [|[k'' n''] entries IH]; simpl; [done|].
      simpl in Hout. apply not_elem_of_cons in Hout as [Hne Hout].
      rewrite decide_False by done. by apply IH. }
    apply lookup_insert_eq.
  - destruct (assoc k entries); [done|]. by apply lookup_insert_ne.
Qed.

Lemma fromEntries_groupCount keys k :
  RAGEngine.fromEntries (RAGEngine.groupCount keys) !! k = counted (tally k keys).
Proof.
  unfold RAGEngine.fromEntries, RAGEngine.groupCount, counted.
  destruct (groupCount_from keys [] (NoDup_nil_2)) as [Hkeys Hassoc].
  rewrite fromEntries_from by done. rewrite Hassoc. simpl.
  case_decide; [apply lookup_empty|]. by rewrite N.add_0_l.
Qed.

Lemma orUncategorized_groups groups :
  Forall (fun group => group.1 <> []) groups ->
  map (fun ec : text * N => (RAGEngine.orUncategorized ec.1, ec.2)) groups = groups.
Proof.
  induction 1 as [|[k n] groups Hk _ IH]; simpl; [done|].
  rewrite IH. by destruct k.
Qed.

Lemma groupCount_keys keys key :
  key ∈ (RAGEngine.groupCount keys).*1 -> key ∈ keys.
Proof.
  unfold RAGEngine.groupCount.
  assert (forall groups,
            key ∈ (fold_left (fun groups key => RAGEngine.bump key groups) keys groups).*1 ->
            key ∈ keys \/ key ∈ groups.*1) as Hfold.
  { induction keys as [|k keys IH]; intros groups; simpl; [by right|].
    intros [Hin|Hin]%IH; [left; by right|].
    rewrite bump_keys in Hin. case_decide; [by right|].
    apply elem_of_app in Hin as [Hin|Hin]; [by right|].
    apply list_elem_of_singleton in Hin as ->. left. by left. }
  intros Hin. apply Hfold in Hin as [Hin|Hin]; [done|]. by apply elem_of_nil in Hin.
Qed.

(** X16.  When its four queries succeed, [getSearchStats] counts what is
    stored: the totals are the sizes of the two tables and the map of
    document types gives every type the number of documents that bear it,
    a type no document bears having no entry.  The same holds of the map
    of example categories when no example has the empty category. *)
Theorem getSearchStats_counts_rows w :
  queryFault w QDocCount = None ->
  queryFault w QExampleCount = None ->
  queryFault w QDocTypes = None ->
  queryFault w QExampleCategories = None ->
  exists stats,
    RAGEngine.getSearchStats w = Ok stats
    /\ SearchStats.totalDocuments stats = N.of_nat (length (knowledgeDocuments w))
    /\ SearchStats.totalExamples stats = N.of_nat (length (codeExamples w))
    /\ (forall type,
          SearchStats.documentTypes stats !! type
          = counted (tally type (KnowledgeDocument.documentType <$> knowledgeDocuments w)))
    /\ (Forall (fun example => CodeExample.category example <> Some []) (codeExamples w) ->
        forall category,
          SearchStats.exampleCategories stats !! category
          = counted (tally category (omap CodeExample.category (codeExamples w)))).
Proof.
  intros H1 H2 H3 H4. unfold RAGEngine.getSearchStats, runQuery.
  rewrite H1, H2, H3, H4. simpl. eexists. split; [reflexivity|].
  cbn [SearchStats.totalDocuments SearchStats.totalExamples SearchStats.documentTypes
       SearchStats.exampleCategories].
  repeat split.
  - intros type. apply fromEntries_groupCount.
  - intros Hcat category. rewrite orUncategorized_groups; [apply fromEntries_groupCount|].
    apply Forall_forall. intros [k n] Hin. simpl. intros ->.
    assert ([] ∈ (RAGEngine.groupCount (omap CodeExample.category (codeExamples w))).*1)
      as Hkey by (apply list_elem_of_fmap; by exists ([], n)).
    apply groupCount_keys, list_elem_of_omap in Hkey as (example & Hex & Hempty).
    by eapply Forall_forall in Hcat.
Qed.

Lemma getSearchStats_counts_rows_witness :
  exists stats,
    RAGEngine.getSearchStats Scenario.library = Ok stats
    /\ SearchStats.totalExamples stats = 3%N
    /\ SearchStats.documentTypes stats !! txt "rule" = Some 1%N
    /\ SearchStats.documentTypes stats !! txt "best-practice" = None.
Proof.
  destruct (getSearchStats_counts_rows Scenario.library eq_refl eq_refl eq_refl eq_refl)
    as (stats & Hrun & _ & Hexamples & Htypes & _).
  exists stats. split; [exact Hrun|]. split; [exact Hexamples|].
  split; rewrite Htypes; reflexivity.
Defined.

(** ** The embedding client, further *)

(** X17.  [generateEmbedding] returns the embedding of the response when
    there is one.  Every failure reaches the caller as an [Error]: a
    response without embedding under the general label, a thrown [Error]
    under one of the four labels followed by its own message (the network
    label whenever that message holds [ENOTFOUND]), anything else thrown
    as an unknown error. *)
Theorem generateEmbedding_failures invoke t :
  (forall embedding,
     invoke t = Ok (Some embedding) ->
     TitanEmbeddingClient.generateEmbedding invoke t = Ok embedding)
  /\ (invoke t = Ok None ->
      TitanEmbeddingClient.generateEmbedding invoke t =
        Err (JsError (txt "Failed to generate embedding: Invalid embedding response format")))
  /\ (forall message,
        invoke t = Err (JsError message) ->
        exists label,
          TitanEmbeddingClient.generateEmbedding invoke t = Err (JsError (label ++ message))
          /\ label ∈ [txt "Invalid AWS region or network error: ";
                      txt "AWS authentication failed. Please check your credentials: ";
                      txt "Rate limit exceeded. Please try again later: ";
                      txt "Failed to generate embedding: "]
          /\ (includes (txt "ENOTFOUND") message = true ->
              label = txt "Invalid AWS region or network error: "))
  /\ (forall v,
        invoke t = Err (JsValue v) ->
        TitanEmbeddingClient.generateEmbedding invoke t =
          Err (JsError (txt "Failed to generate embedding: Unknown error"))).
Proof.
  unfold TitanEmbeddingClient.generateEmbedding. repeat split.
  - by intros embedding ->.
  - by intros ->.
  - intros message ->.
    unfold tryCatch, mbind, Result_bind, TitanEmbeddingClient.rethrow. cbv beta iota.
    destruct (includes (txt "ENOTFOUND") message) eqn:Hnet.
    { eexists. split; [reflexivity|]. split; [|done]. repeat constructor. }
    destruct (includes (txt "UnrecognizedClientException") message
              || includes (txt "security token") message) eqn:Hauth.
    { eexists. split; [reflexivity|]. split; [|done]. repeat constructor. }
    destruct (includes (txt "throttling") message
              || includes (txt "ThrottlingException") message) eqn:Hrate.
    { eexists. split; [reflexivity|]. split; [|done]. repeat constructor. }
    eexists. split; [reflexivity|]. split; [|done]. repeat constructor.
  - by intros v ->.
Qed.

Lemma generateEmbedding_failures_witness :
  TitanEmbeddingClient.generateEmbedding (fun _ => Ok None) (txt "def rule(event): pass")
  = Err (JsError (txt "Failed to generate embedding: Invalid embedding response format")).
Proof.
  destruct (generateEmbedding_failures (fun _ => Ok None) (txt "def rule(event): pass"))
    as (_ & Hnone & _).
  apply Hnone. reflexivity.
Defined.

Lemma bulkLoop_spec invoke texts : forall embeddings,
  TitanEmbeddingClient.bulkLoop invoke texts embeddings
  = embeddings
    ++ ((fun t => match TitanEmbeddingClient.generateEmbedding invoke t with
                  | Ok embedding => embedding
                  | Err _ => []
                  end) <$> texts).
Proof.
  induction texts as [|t texts IH]; intros embeddings; simpl.
  { by rewrite app_nil_r. }
  destruct (TitanEmbeddingClient.generateEmbedding invoke t);
    rewrite IH, <- app_assoc; reflexivity.
Qed.

(** X18.  [generateBulkEmbeddings] answers with one entry per text, at
    the position of the text: its embedding, or the empty vector when the
    embedding call failed.  A failure on one text leaves the entries of
    the others as they are. *)
Theorem generateBulkEmbeddings_aligned invoke texts :
  length (TitanEmbeddingClient.generateBulkEmbeddings invoke texts) = length texts
  /\ forall i t,
       texts !! i = Some t ->
       TitanEmbeddingClient.generateBulkEmbeddings invoke texts !! i
       = Some match TitanEmbeddingClient.generateEmbedding invoke t with
              | Ok embedding => embedding
              | Err _ => []
              end.
Proof.
  unfold TitanEmbeddingClient.generateBulkEmbeddings. rewrite bulkLoop_spec. simpl. split.
  - apply length_fmap.
  - intros i t Ht. by rewrite list_lookup_fmap, Ht.
Qed.

Lemma generateBulkEmbeddings_aligned_witness :
  TitanEmbeddingClient.generateBulkEmbeddings
    (fun t => if bool_decide (t = txt "b") then Err (JsError (txt "ThrottlingException"))
              else Ok (Some [1%Q]))
    [txt "a"; txt "b"; txt "c"] !! 2
  = Some [1%Q].
Proof.
  destruct (generateBulkEmbeddings_aligned
              (fun t => if bool_decide (t = txt "b")
                        then Err (JsError (txt "ThrottlingException"))
                        else Ok (Some [1%Q]))
              [txt "a"; txt "b"; txt "c"]) as [_ Hat].
  apply (Hat 2 (txt "c")). reflexivity.
Defined.

Lemma normalized_spec afterSpace s :
  normalized afterSpace s = true ->
  Forall (fun c => isSpace c = true -> c = space) s
  /\ (afterSpace = true -> startsWithSpace s = false)
  /\ forall i, s !! i = Some space -> s !! S i <> Some space.
Proof.
  revert afterSpace. induction s as [|c s IH]; intros afterSpace Hs; simpl in *.
  { split; [constructor|]. split; [done|]. intros i Hi. destruct i; discriminate Hi. }
  destruct (isSpace c) eqn:Hc.
  - apply andb_prop in Hs as [[Hspace Hafter%negb_true_iff]%andb_prop Hs].
    apply bool_decide_eq_true in Hspace. subst c afterSpace.
    destruct (IH true Hs) as (Hall & Hhead & Hadj).
    split; [by constructor|]. split; [done|].
    intros [|i] Hi; simpl in *; [|by apply Hadj].
    specialize (Hhead eq_refl). destruct s as [|c' s]; simpl in *; [done|].
    intros [= ->]. by rewrite Hc in Hhead.
  - destruct (IH false Hs) as (Hall & _ & Hadj).
    split; [constructor; [congruence|done]|]. split; [done|].
    intros [|i] Hi; simpl in *; [|by apply Hadj].
    by simplify_eq.
Qed.

(** X19.  The text [preprocessText] returns has at most 8000 units, does
    not start with white space, holds no white space other than the plain
    space (no line break and no tabulation survives) and never two spaces
    in a row. *)
Theorem preprocessText_output t :
  let r := TitanEmbeddingClient.preprocessText t in
  length r <= TitanEmbeddingClient.maxInputLength
  /\ startsWithSpace r = false
  /\ Forall (fun c => isSpace c = true -> c = space) r
  /\ (newline ∉ r)
  /\ forall i, r !! i = Some space -> r !! S i <> Some space.
Proof.
  destruct (preprocessText_shape t) as (Hnorm & Hhead & Hlen).
  destruct (normalized_spec _ _ Hnorm) as (Hall & _ & Hadj).
  cbv zeta. repeat split; try done.
  intros Hin. eapply Forall_forall in Hall; [|exact Hin]. by specialize (Hall eq_refl).
Qed.

(** X20.  The second replacement of [preprocessText], of runs of line
    breaks by one line break, never changes anything: the first one has
    already turned every line break into a space. *)
Theorem preprocessText_newline_step_idle t :
  replaceRuns isNewline newline false (replaceRuns isSpace space false t)
  = replaceRuns isSpace space false t
  /\ TitanEmbeddingClient.preprocessText t
     = slice0 TitanEmbeddingClient.maxInputLength
         (trim (replaceRuns isSpace space false t)).
Proof.
  assert (replaceRuns isNewline newline false (replaceRuns isSpace space false t)
          = replaceRuns isSpace space false t) as Hidle
    by apply (normalized_replaceNewlines false), replaceRuns_normalized.
  split; [exact Hidle|]. unfold TitanEmbeddingClient.preprocessText. by rewrite Hidle.
Qed.

(** ** The document processor *)

Lemma storeChunk_row invoke newId insertFault chunk row :
  DocumentProcessor.storeChunk invoke newId insertFault chunk = Ok row ->
  exists embedding,
    TitanEmbeddingClient.generateEmbedding invoke
      (TitanEmbeddingClient.preprocessText (DocumentChunk.content chunk)) = Ok embedding
    /\ insertFault = None
    /\ row = KnowledgeDocument.mk newId (DocumentChunk.title chunk)
               (TitanEmbeddingClient.preprocessText (DocumentChunk.content chunk))
               (DocumentChunk.section chunk) (DocumentChunk.documentType chunk)
               (Some (embedding ++ replicate 512 0%Q)) (DocumentChunk.metadata chunk).
Proof.
  unfold DocumentProcessor.storeChunk, DocumentProcessor.padEmbedding.
  destruct (TitanEmbeddingClient.generateEmbedding invoke _) as [embedding|];
    simpl; [|discriminate].
  destruct insertFault; [discriminate|]. intros [= <-]. by exists embedding.
Qed.

Lemma storeLoop_spec invoke newId insertFault chunks :
  forall index storedIds table,
  exists rows,
    DocumentProcessor.storeLoop invoke newId insertFault index chunks storedIds table
    = (storedIds ++ (KnowledgeDocument.id <$> rows), table ++ rows)
    /\ length rows <= length chunks
    /\ Forall (fun row =>
                 exists i chunk,
                   chunks !! i = Some chunk
                   /\ DocumentProcessor.storeChunk invoke (newId (index + i))
                        (insertFault (index + i)) chunk = Ok row) rows
    /\ (Forall (fun chunk =>
                  exists embedding,
                    TitanEmbeddingClient.generateEmbedding invoke
                      (TitanEmbeddingClient.preprocessText (DocumentChunk.content chunk))
                    = Ok embedding) chunks ->
        (forall i, insertFault i = None) ->
        length rows = length chunks).
Proof.
  induction chunks as [|chunk chunks IH]; intros index storedIds table; simpl.
  { exists []. rewrite !app_nil_r. repeat split; [done|constructor]. }
  destruct (DocumentProcessor.storeChunk invoke (newId index) (insertFault index) chunk)
    as [row|error] eqn:Hchunk.
  - destruct (IH (S index) (storedIds ++ [KnowledgeDocument.id row]) (table ++ [row]))
      as (rows & -> & Hlen & Hrows & Hall).
    exists (row :: rows). rewrite fmap_cons, <- !app_assoc. simpl.
    repeat split; [lia| |].
    + constructor.
      * exists 0, chunk. by rewrite Nat.add_0_r.
      * eapply Forall_impl; [exact Hrows|]. intros row' (i & chunk' & Hi & Hrow').
        exists (S i), chunk'. split; [done|]. by rewrite <- Nat.add_succ_comm.
    + intros Hembed Hinsert. apply Forall_cons in Hembed as [_ Hembed].
      by rewrite Hall.
  - destruct (IH (S index) storedIds table) as (rows & -> & Hlen & Hrows & Hall).
    exists rows. repeat split; [lia| |].
    + eapply Forall_impl; [exact Hrows|]. intros row' (i & chunk' & Hi & Hrow').
      exists (S i), chunk'. split; [done|]. by rewrite <- Nat.add_succ_comm.
    + intros Hembed Hinsert. exfalso. apply Forall_cons in Hembed as [[embedding He] _].
      unfold DocumentProcessor.storeChunk in Hchunk. rewrite He, Hinsert in Hchunk.
      discriminate Hchunk.
Qed.

(** X21.  [storeDocuments] only appends to the table: at most one row per
    chunk, each of a chunk that could be embedded and inserted, and it
    returns the identities of these rows.  The content of a stored row is the
    preprocessed content of its chunk, not the original: at most 8000
    units, without line break; its embedding is the embedding of that
    content followed by 512 zeros.  When every chunk can be embedded and
    no insertion fails, every chunk is stored. *)
Theorem storeDocuments_stores_preprocessed invoke newId insertFault table chunks :
  exists rows,
    DocumentProcessor.storeDocuments invoke newId insertFault table chunks
    = (KnowledgeDocument.id <$> rows, table ++ rows)
    /\ length rows <= length chunks
    /\ Forall (fun row =>
                 exists chunk embedding,
                   chunk ∈ chunks
                   /\ KnowledgeDocument.title row = DocumentChunk.title chunk
                   /\ KnowledgeDocument.content row
                      = TitanEmbeddingClient.preprocessText (DocumentChunk.content chunk)
                   /\ length (KnowledgeDocument.content row)
                      <= TitanEmbeddingClient.maxInputLength
                   /\ (newline ∉ KnowledgeDocument.content row)
                   /\ TitanEmbeddingClient.generateEmbedding invoke
                        (KnowledgeDocument.content row) = Ok embedding
                   /\ KnowledgeDocument.embedding row
                      = Some (embedding ++ replicate 512 0%Q)) rows
    /\ (Forall (fun chunk =>
                  exists embedding,
                    TitanEmbeddingClient.generateEmbedding invoke
                      (TitanEmbeddingClient.preprocessText (DocumentChunk.content chunk))
                    = Ok embedding) chunks ->
        (forall i, insertFault i = None) ->
        length rows = length chunks).
Proof.
  unfold DocumentProcessor.storeDocuments.
  destruct (storeLoop_spec invoke newId insertFault chunks 0 [] table)
    as (rows & Hrun & Hlen & Hrows & Hall).
  exists rows. split; [exact Hrun|]. split; [exact Hlen|]. split; [|exact Hall].
  eapply Forall_impl; [exact Hrows|]. intros row (i & chunk & Hi & Hrow).
  apply storeChunk_row in Hrow as (embedding & He & _ & ->).
  exists chunk, embedding. cbn [KnowledgeDocument.title KnowledgeDocument.content
                                 KnowledgeDocument.embedding].
  destruct (preprocessText_shape (DocumentChunk.content chunk)) as (Hnorm & _ & Hmax).
  destruct (normalized_spec _ _ Hnorm) as (Hspaces & _ & _).
  repeat split; try done.
  - by eapply list_elem_of_lookup_2.
  - intros Hin. eapply Forall_forall in Hspaces; [|exact Hin].
    by specialize (Hspaces eq_refl).
Qed.

Lemma storeDocuments_stores_preprocessed_witness :
  exists rows,
    DocumentProcessor.storeDocuments Scenario.model Scenario.numbered (fun _ => None) []
      Scenario.chunks
    = (KnowledgeDocument.id <$> rows, [] ++ rows)
    /\ length rows = length Scenario.chunks.
Proof.
  destruct (storeDocuments_stores_preprocessed Scenario.model Scenario.numbered
              (fun _ => None) [] Scenario.chunks) as (rows & Hrun & _ & _ & Hall).
  exists rows. split; [exact Hrun|]. apply Hall; [|done].
  repeat constructor; eexists; vm_compute; reflexivity.
Defined.

Example storeDocuments_sample :
  let stored := DocumentProcessor.storeDocuments Scenario.model Scenario.numbered
                  (fun i => if bool_decide (i = 0) then Some Sample.connectionLost else None)
                  [] Scenario.chunks in
  stored.1 = [txt "id-1"]
  /\ (KnowledgeDocument.content <$> stored.2) = [txt "keep it short"].
Proof. by vm_compute. Qed.

Lemma length_trim s : length (trim s) <= length s.
Proof.
  unfold trim. destruct (trimStart_suffix s) as [d1 H1].
  destruct (trimEnd_prefix (trimStart s)) as [d2 H2].
  rewrite H1 at 2. rewrite H2 at 2. rewrite !length_app. lia.
Qed.

Lemma trim_clean s : startsWithSpace (trim s) = false /\ endsWithSpace (trim s) = false.
Proof.
  unfold trim. split; [|apply trimEnd_last].
  destruct (trimEnd_prefix (trimStart s)) as [d2 H2].
  apply (startsWithSpace_prefix _ d2). rewrite <- H2. apply trimStart_head.
Qed.

Lemma flush_cases state :
  (DocumentProcessor.flush state = state /\ state.2 = [])
  \/ DocumentProcessor.flush state = (state.1 ++ [trim state.2], []).
Proof. unfold DocumentProcessor.flush. destruct state as [chunks [|c cur]]; simpl; auto. Qed.

Lemma flush_Forall (P : text -> Prop) state :
  Forall P state.1 -> P (trim state.2) -> Forall P (DocumentProcessor.flush state).1.
Proof.
  intros Hchunks Hcur. destruct (flush_cases state) as [[-> _]| ->]; [done|].
  simpl. apply Forall_app. split; [done|]. by constructor.
Qed.

Lemma sentenceStep_chunks (P : text -> Prop) maxLength state sentence :
  Forall P state.1 -> P (trim state.2) ->
  Forall P (DocumentProcessor.sentenceStep maxLength state sentence).1.
Proof.
  intros Hchunks Hcur. unfold DocumentProcessor.sentenceStep.
  destruct (maxLength <? _); simpl; [by apply flush_Forall|done].
Qed.

Lemma sentences_chunks (P : text -> Prop) maxLength sentences :
  (forall s, P (trim s)) ->
  forall state, Forall P state.1 ->
  Forall P (fold_left (DocumentProcessor.sentenceStep maxLength) sentences state).1.
Proof.
  intros Htrim. induction sentences as [|sentence sentences IH]; intros state Hstate;
    cbn [fold_left]; [done|].
  apply IH. by apply sentenceStep_chunks.
Qed.

Lemma paragraphStep_chunks (P : text -> Prop) maxLength state paragraph :
  (forall s, P (trim s)) ->
  Forall P state.1 -> Forall P (DocumentProcessor.paragraphStep maxLength state paragraph).1.
Proof.
  intros Htrim Hstate. unfold DocumentProcessor.paragraphStep.
  destruct (maxLength <? length state.2 + _); [|done].
  destruct (maxLength <? length paragraph).
  - apply sentences_chunks; [done|]. by apply flush_Forall.
  - simpl. by apply flush_Forall.
Qed.

Lemma paragraphs_chunks (P : text -> Prop) maxLength paragraphs :
  (forall s, P (trim s)) ->
  forall state, Forall P state.1 ->
  Forall P (fold_left (DocumentProcessor.paragraphStep maxLength) paragraphs state).1.
Proof.
  intros Htrim. induction paragraphs as [|paragraph paragraphs IH]; intros state Hstate;
    cbn [fold_left]; [done|].
  apply IH. by apply paragraphStep_chunks.
Qed.

(** X22.  [chunkLongContent] returns a content of at most [maxLength]
    units as its only chunk, unchanged (also when it has white space
    around it).  Of a longer content, every chunk is trimmed: it neither
    starts nor ends with white space. *)
Theorem chunkLongContent_trimmed content maxLength :
  (length content <= maxLength ->
   DocumentProcessor.chunkLongContent content maxLength = [content])
  /\ (maxLength < length content ->
      Forall (fun chunk => startsWithSpace chunk = false /\ endsWithSpace chunk = false)
        (DocumentProcessor.chunkLongContent content maxLength)).
Proof.
  unfold DocumentProcessor.chunkLongContent. split; intros Hlength.
  - by apply Nat.leb_le in Hlength as ->.
  - apply Nat.leb_gt in Hlength as ->.
    set (state := fold_left _ _ _).
    assert (Forall (fun chunk => startsWithSpace chunk = false /\ endsWithSpace chunk = false)
              state.1) as Hstate.
    { apply paragraphs_chunks; [apply trim_clean|constructor]. }
    destruct (trim state.2) eqn:Hcur; [done|]. rewrite <- Hcur.
    apply Forall_app. split; [done|]. constructor; [apply trim_clean|constructor].
Qed.

Lemma chunkLongContent_trimmed_witness :
  DocumentProcessor.chunkLongContent (txt " ab ") 4 = [txt " ab "]
  /\ Forall (fun chunk => startsWithSpace chunk = false /\ endsWithSpace chunk = false)
       (DocumentProcessor.chunkLongContent (txt " ab  cd ") 4).
Proof.
  destruct (chunkLongContent_trimmed (txt " ab ") 4) as [Hshort _].
  destruct (chunkLongContent_trimmed (txt " ab  cd ") 4) as [_ Hlong].
  split; [apply Hshort; vm_compute; lia|apply Hlong; vm_compute; lia].
Defined.

(** A chunk may be empty, and a sentence gains a full stop. *)
Example chunkLongContent_empty_chunk :
  DocumentProcessor.chunkLongContent ([space; space] ++ DocumentProcessor.paragraphBreak
                                        ++ txt "abcdef") 4
  = [[]; txt "abcdef."].
Proof. by vm_compute. Qed.

Lemma sentenceStep_within maxLength state sentence :
  length sentence <= maxLength ->
  Forall (fun chunk => length chunk <= maxLength + 2) state.1 ->
  length state.2 <= maxLength + 2 ->
  let state' := DocumentProcessor.sentenceStep maxLength state sentence in
  Forall (fun chunk => length chunk <= maxLength + 2) state'.1
  /\ length state'.2 <= maxLength + 2.
Proof.
  intros Hsentence Hchunks Hcur. split.
  { apply sentenceStep_chunks; [done|]. cbv beta. etrans; [apply length_trim|exact Hcur]. }
  unfold DocumentProcessor.sentenceStep.
  set (ending := if DocumentProcessor.endsWith _ sentence then _ else _).
  assert (length ending <= 2) as Hend.
  { subst ending. destruct (DocumentProcessor.endsWith _ _); simpl; lia. }
  clearbody ending.
  destruct (maxLength <? _) eqn:Hfull; cbn [snd]; rewrite !length_app.
  - destruct (flush_cases state) as [[-> Hempty]| ->]; cbn [snd].
    + rewrite Hempty. simpl. lia.
    + simpl. lia.
  - apply Nat.ltb_ge in Hfull. lia.
Qed.

Lemma sentences_within maxLength sentences :
  Forall (fun sentence => length sentence <= maxLength) sentences ->
  forall state,
  Forall (fun chunk => length chunk <= maxLength + 2) state.1 ->
  length state.2 <= maxLength + 2 ->
  let state' := fold_left (DocumentProcessor.sentenceStep maxLength) sentences state in
  Forall (fun chunk => length chunk <= maxLength + 2) state'.1
  /\ length state'.2 <= maxLength + 2.
Proof.
  induction 1 as [|sentence sentences Hsentence _ IH]; intros state Hchunks Hcur;
    cbn [fold_left]; [done|].
  destruct (sentenceStep_within maxLength state sentence Hsentence Hchunks Hcur).
  by apply IH.
Qed.

Lemma paragraphStep_within maxLength state paragraph :
  (maxLength < length paragraph ->
   Forall (fun sentence => length sentence <= maxLength)
     (DocumentProcessor.split (txt ". ") paragraph)) ->
  Forall (fun chunk => length chunk <= maxLength + 2) state.1 ->
  length state.2 <= maxLength + 2 ->
  let state' := DocumentProcessor.paragraphStep maxLength state paragraph in
  Forall (fun chunk => length chunk <= maxLength + 2) state'.1
  /\ length state'.2 <= maxLength + 2.
Proof.
  intros Hparagraph Hchunks Hcur. unfold DocumentProcessor.paragraphStep.
  assert (Forall (fun chunk => length chunk <= maxLength + 2)
            (DocumentProcessor.flush state).1) as Hflush.
  { apply flush_Forall; [done|]. cbv beta. etrans; [apply length_trim|exact Hcur]. }
  assert (length (DocumentProcessor.flush state).2 <= maxLength + 2) as Hflushed.
  { destruct (flush_cases state) as [[-> _]| ->]; [exact Hcur|simpl; lia]. }
  cbv zeta. destruct (maxLength <? _ + length paragraph) eqn:Hfull.
  - destruct (maxLength <? length paragraph) eqn:Hlong.
    + apply Nat.ltb_lt in Hlong. by apply sentences_within; [apply Hparagraph|..].
    + apply Nat.ltb_ge in Hlong. cbv zeta. simpl. split; [done|lia].
  - apply Nat.ltb_ge in Hfull. cbv zeta. cbn [fst snd]. split; [done|].
    rewrite !length_app. clear Hflush Hflushed.
    destruct state as [chunks [|c cur]]; simpl in *; lia.
Qed.

(** X23.  When every paragraph longer than [maxLength] consists of
    sentences of at most [maxLength] units, no chunk of
    [chunkLongContent] has more than [maxLength + 2] units. *)
Theorem chunkLongContent_bound content maxLength :
  Forall (fun paragraph =>
            maxLength < length paragraph ->
            Forall (fun sentence => length sentence <= maxLength)
              (DocumentProcessor.split (txt ". ") paragraph))
    (DocumentProcessor.split DocumentProcessor.paragraphBreak content) ->
  Forall (fun chunk => length chunk <= maxLength + 2)
    (DocumentProcessor.chunkLongContent content maxLength).
Proof.
  intros Hparagraphs. unfold DocumentProcessor.chunkLongContent.
  destruct (length content <=? maxLength) eqn:Hshort.
  { apply Nat.leb_le in Hshort. constructor; [lia|constructor]. }
  assert (forall state,
            Forall (fun chunk => length chunk <= maxLength + 2) state.1 ->
            length state.2 <= maxLength + 2 ->
            let state' := fold_left (DocumentProcessor.paragraphStep maxLength)
                            (DocumentProcessor.split DocumentProcessor.paragraphBreak content)
                            state in
            Forall (fun chunk => length chunk <= maxLength + 2) state'.1
            /\ length state'.2 <= maxLength + 2) as Hfold.
  { induction Hparagraphs as [|paragraph paragraphs Hparagraph _ IH];
      intros state Hchunks Hcur; cbn [fold_left]; [done|].
    destruct (paragraphStep_within maxLength state paragraph Hparagraph Hchunks Hcur).
    by apply IH. }
  destruct (Hfold ([], [])) as [Hchunks Hcur]; [constructor|simpl; lia|].
  cbv zeta in *. set (state := fold_left _ _ _) in *.
  destruct (trim state.2) eqn:Htrim; [done|]. rewrite <- Htrim.
  apply Forall_app. split; [done|]. constructor; [|constructor].
  pose proof (length_trim state.2). lia.
Qed.

Lemma chunkLongContent_bound_witness :
  Forall (fun chunk => length chunk <= 4 + 2)
    (DocumentProcessor.chunkLongContent
       (txt "ab" ++ DocumentProcessor.paragraphBreak ++ txt "cd"
          ++ DocumentProcessor.paragraphBreak ++ txt "ef. gh. ij") 4).
Proof.
  apply chunkLongContent_bound. vm_compute.
  repeat (constructor; [intros _; repeat (constructor; [lia|]); try constructor|]).
  constructor.
Defined.

(** The bound is attained, by paragraphs that are short themselves: the
    separator put between two paragraphs is not counted. *)
Example chunkLongContent_exceeds_maxLength :
  DocumentProcessor.chunkLongContent
    (txt "ab" ++ DocumentProcessor.paragraphBreak ++ txt "cd"
       ++ DocumentProcessor.paragraphBreak ++ txt "efgh") 4
  = [txt "ab" ++ DocumentProcessor.paragraphBreak ++ txt "cd"; txt "efgh"].
Proof. by vm_compute. Qed.

(** ** The [validate-rag] route, further *)

Lemma fromFirst_app c pre rest :
  c ∉ pre -> ValidateRag.fromFirst c (pre ++ c :: rest) = Some (c :: rest).
Proof.
  induction pre as [|x pre IH]; intros Hpre; simpl.
  - unfold ascii_eqb. by rewrite bool_decide_eq_true_2.
  - apply not_elem_of_cons in Hpre as [Hx Hpre].
    unfold ascii_eqb. rewrite bool_decide_eq_false_2 by done. by apply IH.
Qed.

Lemma uptoLast_app c rest post :
  c ∉ post -> ValidateRag.uptoLast c (rest ++ c :: post) = Some (rest ++ [c]).
Proof.
  intros Hpost. unfold ValidateRag.uptoLast.
  rewrite reverse_app, reverse_cons, <- app_assoc. simpl.
  rewrite fromFirst_app by by rewrite elem_of_reverse. simpl.
  by rewrite reverse_cons, reverse_involutive.
Qed.

Lemma fromFirst_None c s : ValidateRag.fromFirst c s = None <-> c ∉ s.
Proof.
  induction s as [|x s IH]; simpl.
  - split; [intros _; apply not_elem_of_nil|done].
  - rewrite not_elem_of_cons. unfold ascii_eqb. case_bool_decide as Heq.
    + split; [done|]. intros [? _]. congruence.
    + rewrite IH. split; [|tauto]. intros Hs. split; [congruence|done].
Qed.

Lemma uptoLast_None c s : ValidateRag.uptoLast c s = None <-> c ∉ s.
Proof.
  unfold ValidateRag.uptoLast. rewrite fmap_None, fromFirst_None.
  by rewrite elem_of_reverse.
Qed.

Lemma matchBraces_found a b c :
  is_Some (ValidateRag.matchBraces (a ++ "{"%char :: b ++ "}"%char :: c)).
Proof.
  unfold ValidateRag.matchBraces.
  assert (forall s, "}"%char ∈ s -> is_Some (ValidateRag.uptoLast "}"%char s)) as Hlast.
  { intros s Hs. destruct (ValidateRag.uptoLast _ s) eqn:Hnone; [done|].
    by apply uptoLast_None in Hnone. }
  induction a as [|x a IH]; simpl.
  - apply Hlast. set_solver.
  - unfold ascii_eqb at 1. case_bool_decide; [|exact IH].
    simpl. apply Hlast. set_solver.
Qed.

(** X24.  Of an answer with text around its JSON object, the route parses
    the object alone: [extractJson] returns what lies from the first
    opening brace to the last closing brace, both included, whatever stands
    before and after, and whatever the braces in between. *)
Theorem extractJson_between_braces pre body post :
  "{"%char ∉ pre -> "}"%char ∉ post ->
  ValidateRag.extractJson (pre ++ "{"%char :: body ++ "}"%char :: post)
  = "{"%char :: body ++ ["}"%char].
Proof.
  intros Hpre Hpost. unfold ValidateRag.extractJson, ValidateRag.matchBraces.
  rewrite fromFirst_app by done. cbn [mbind option_bind].
  by rewrite app_comm_cons, uptoLast_app.
Qed.

Lemma extractJson_between_braces_witness :
  ValidateRag.extractJson (txt "Here: " ++ "{"%char :: txt "'a': {}" ++ "}"%char :: txt " done")
  = "{"%char :: txt "'a': {}" ++ ["}"%char].
Proof. apply extractJson_between_braces; apply (bool_decide_unpack _); by vm_compute. Defined.

Lemma fromFirst_Some c s t :
  ValidateRag.fromFirst c s = Some t ->
  exists pre rest, s = pre ++ c :: rest /\ (c ∉ pre) /\ t = c :: rest.
Proof.
  revert t. induction s as [|x s IH]; intros t; simpl; [discriminate|].
  unfold ascii_eqb. case_bool_decide as Heq.
  - intros [= <-]. subst x. exists [], s. split; [done|]. split; [apply not_elem_of_nil|done].
  - intros (pre & rest & -> & Hpre & ->)%IH. exists (x :: pre), rest.
    split; [done|]. split; [|done]. apply not_elem_of_cons. by split; [congruence|].
Qed.

Lemma uptoLast_Some c s t :
  ValidateRag.uptoLast c s = Some t ->
  exists rest post, s = rest ++ c :: post /\ (c ∉ post) /\ t = rest ++ [c].
Proof.
  unfold ValidateRag.uptoLast. intros (r & Hr & ->)%fmap_Some.
  apply fromFirst_Some in Hr as (pre & rest & Hs & Hpre & ->).
  exists (reverse rest), (reverse pre). split; [|split].
  - rewrite <- (reverse_involutive s), Hs, reverse_app, reverse_cons, <- app_assoc. done.
  - by rewrite elem_of_reverse.
  - by rewrite reverse_cons.
Qed.

Lemma matchBraces_Some response jsonMatch :
  ValidateRag.matchBraces response = Some jsonMatch ->
  exists pre body post,
    response = pre ++ "{"%char :: body ++ "}"%char :: post
    /\ ("{"%char ∉ pre) /\ ("}"%char ∉ post)
    /\ jsonMatch = "{"%char :: body ++ ["}"%char].
Proof.
  unfold ValidateRag.matchBraces. intros (opened & Hopened & Hclosed)%bind_Some.
  apply fromFirst_Some in Hopened as (pre & rest & -> & Hpre & ->).
  apply uptoLast_Some in Hclosed as ([|x body] & post & Hrest & Hpost & ->);
    [discriminate|].
  injection Hrest as <- ->. by exists pre, body, post.
Qed.

Lemma extractJson_inner body :
  ValidateRag.extractJson ("{"%char :: body ++ ["}"%char]) = "{"%char :: body ++ ["}"%char].
Proof.
  unfold ValidateRag.extractJson, ValidateRag.matchBraces.
  change ("{"%char :: body ++ ["}"%char]) with ([] ++ "{"%char :: body ++ ["}"%char]) at 1.
  rewrite fromFirst_app by apply not_elem_of_nil.
  cbn [mbind option_bind].
  by rewrite app_comm_cons, uptoLast_app by apply not_elem_of_nil.
Qed.

(** X25.  [extractJson] has two cases only.  Either the answer holds an
    opening brace with a closing brace somewhere after it, and the text
    parsed runs from the first opening brace to the last closing one; or it
    holds no such pair, and the text parsed is the answer, trimmed. *)
Theorem extractJson_cases response :
  (exists pre body post,
     response = pre ++ "{"%char :: body ++ "}"%char :: post
     /\ ("{"%char ∉ pre) /\ ("}"%char ∉ post)
     /\ ValidateRag.extractJson response = "{"%char :: body ++ ["}"%char])
  \/ ((forall a b c, response <> a ++ "{"%char :: b ++ "}"%char :: c)
      /\ ValidateRag.extractJson response = trim response).
Proof.
  unfold ValidateRag.extractJson.
  destruct (ValidateRag.matchBraces response) as [jsonMatch|] eqn:Hmatch.
  - left. apply matchBraces_Some in Hmatch as (pre & body & post & ? & ? & ? & ?).
    by exists pre, body, post.
  - right. split; [|done]. intros a b c ->.
    destruct (matchBraces_found a b c) as [? Hfound]. congruence.
Qed.

(** X26.  [extractJson] is idempotent: what it returns it returns unchanged
    when applied to it again. *)
Theorem extractJson_idempotent response :
  ValidateRag.extractJson (ValidateRag.extractJson response)
  = ValidateRag.extractJson response.
Proof.
  unfold ValidateRag.extractJson at 2 3.
  destruct (ValidateRag.matchBraces response) as [jsonMatch|] eqn:Hmatch.
  - apply matchBraces_Some in Hmatch as (_ & body & _ & _ & _ & _ & ->).
    apply (extractJson_inner body).
  - unfold ValidateRag.extractJson.
    destruct (ValidateRag.matchBraces (trim response)) as [jsonMatch|] eqn:Htrim.
    + exfalso. apply matchBraces_Some in Htrim as (pre & body & post & Hr & _).
      unfold trim in Hr.
      destruct (trimStart_suffix response) as [d1 H1].
      destruct (trimEnd_prefix (trimStart response)) as [d2 H2].
      destruct (matchBraces_found (d1 ++ pre) body (post ++ d2)) as [? Hfound].
      rewrite H1, H2, Hr, <- !app_assoc in Hmatch. simpl in Hmatch.
      rewrite <- !app_assoc in Hmatch. simpl in Hmatch.
      rewrite <- !app_assoc in Hfound. congruence.
    + destruct (trim_clean response) as [Hstart Hend].
      unfold trim at 1. by rewrite (trimStart_id _ Hstart), (trimEnd_id _ Hend).
Qed.

Lemma generateImprovements_bounds ruleScore qualityScore example :
  let improvements := ValidateRag.generateImprovements ruleScore qualityScore example in
  1 <= length improvements <= 3.
Proof.
  unfold ValidateRag.generateImprovements.
  destruct (ValidateRag.scoreBelow ruleScore _), (ValidateRag.scoreBelow qualityScore _),
    (hasText _); cbv zeta; case_bool_decide; rewrite ?length_app; simpl in *; lia.
Qed.

Lemma references_built w code context ruleScore qualityScore :
  ValidateRag.ragContext w true code = Ok context ->
  let documents := ValidateRag.documentReferences context in
  let examples := ValidateRag.exampleReferences ruleScore qualityScore context in
  length documents <= 5
  /\ NoDup (DocumentReference.id <$> documents)
  /\ Forall (fun ref => length (DocumentReference.content ref) <= 500) documents
  /\ length examples <= 3
  /\ Forall (fun ref =>
               1 <= length (ExampleReference.improvements ref) <= 3
               /\ length (ExampleReference.codeSnippet ref) <= 300) examples
  /\ (exists retrieved,
        context = Some retrieved
        /\ DocumentReference.id <$> documents
           = SearchResult.id <$> RAGContext.relevantDocuments retrieved
        /\ DocumentReference.content <$> documents
           = (fun doc => take 500 (SearchResult.content doc))
               <$> RAGContext.relevantDocuments retrieved
        /\ ExampleReference.id <$> examples
           = ExampleSearchResult.id <$> RAGContext.similarExamples retrieved)
  /\ ValidateRag.documentReferences None = []
  /\ ValidateRag.exampleReferences ruleScore qualityScore None = [].
Proof.
  unfold ValidateRag.ragContext.
  destruct (RAGEngine.buildEnhancedContext w code) as [built|] eqn:Hbuilt;
    simpl; [|discriminate].
  intros [= <-].
  apply buildEnhancedContext_inv in Hbuilt
    as (weighted & keyword & similar & _ & _ & Hsimilar & ->).
  apply searchSimilarExamples_inv in Hsimilar as [Hthree _].
  cbn [ValidateRag.documentReferences ValidateRag.exampleReferences
       RAGContext.relevantDocuments RAGContext.similarExamples].
  set (merged := take 5 (RAGEngine.filterUnseen ∅ (weighted ++ keyword))).
  assert (DocumentReference.id <$>
            map (fun doc =>
                   DocumentReference.mk (SearchResult.id doc) (SearchResult.title doc)
                     (SearchResult.section doc) (SearchResult.similarity doc)
                     (slice0 500 (SearchResult.content doc)) (SearchResult.documentType doc))
                merged
          = SearchResult.id <$> merged) as Hids.
  { clearbody merged. induction merged as [|doc merged IH]; [done|]. simpl. f_equal. exact IH. }
  split; [|split; [|split; [|split; [|split; [|split; [|done]]]]]].
  - rewrite length_map. subst merged. rewrite length_take. lia.
  - rewrite Hids. subst merged.
    destruct (filterUnseen_fresh (weighted ++ keyword) ∅) as [Hnodup _].
    rewrite fmap_take. eapply sublist_NoDup; [exact Hnodup|apply sublist_take].
  - apply Forall_map, Forall_forall. intros doc _. cbn [DocumentReference.content].
    unfold slice0. rewrite length_take. lia.
  - by rewrite length_map.
  - apply Forall_map, Forall_forall. intros example _.
    cbn [ExampleReference.improvements ExampleReference.codeSnippet]. split.
    + apply generateImprovements_bounds.
    + unfold slice0. rewrite length_take. lia.
  - eexists. split; [done|]. simpl. split; [exact Hids|]. split.
    + clearbody merged. clear Hids.
      induction merged as [|doc merged IH]; [done|]. simpl. f_equal. exact IH.
    + clear Hthree. induction similar as [|example similar IH]; [done|].
      simpl. f_equal. exact IH.
Qed.

Lemma forallb_Forall {A} (f : A -> bool) (l : list A) :
  forallb f l = true <-> Forall (fun x => f x = true) l.
Proof.
  induction l as [|x l IH]; simpl; [by split; [constructor|]|].
  by rewrite andb_true_iff, IH, Forall_cons.
Qed.

Lemma forallb_Exists {A} (f : A -> bool) (l : list A) :
  forallb f l = false <-> Exists (fun x => f x = false) l.
Proof.
  induction l as [|x l IH]; simpl.
  - split; [discriminate|]. by intros ?%Exists_nil.
  - by rewrite andb_false_iff, IH, Exists_cons.
Qed.

Lemma Forall_iff_under {A} (Q P P' : A -> Prop) (l : list A) :
  Forall Q l -> (forall x, Q x -> (P x <-> P' x)) -> (Forall P l <-> Forall P' l).
Proof.
  intros HQ Hiff. induction HQ as [|x l Hx _ IH]; [by split; constructor|].
  by rewrite !Forall_cons, IH, (Hiff x Hx).
Qed.

Lemma Exists_iff_under {A} (Q P P' : A -> Prop) (l : list A) :
  Forall Q l -> (forall x, Q x -> (P x <-> P' x)) -> (Exists P l <-> Exists P' l).
Proof.
  intros HQ Hiff. induction HQ as [|x l Hx _ IH]; [by rewrite !Exists_nil|].
  by rewrite !Exists_cons, IH, (Hiff x Hx).
Qed.

Lemma between_true lo hi x : Schemas.between lo hi x = true <-> (lo <= x <= hi)%Q.
Proof. unfold Schemas.between. by rewrite andb_true_iff, !Qle_bool_iff. Qed.

Lemma between_false lo hi x : Schemas.between lo hi x = false <-> (x < lo \/ hi < x)%Q.
Proof.
  rewrite <- not_true_iff_false, between_true. split.
  - intros Hout. destruct (Qlt_le_dec x lo) as [|Hlo]; [by left|].
    destruct (Qlt_le_dec hi x) as [|Hhi]; [by right|]. by destruct Hout.
  - intros [Hlt|Hlt] [Hlo Hhi]; lra.
Qed.

Lemma buildEnhancedContext_above w code context :
  RAGEngine.buildEnhancedContext w code = Ok context ->
  Forall (fun doc => (1 # 2 < SearchResult.similarity doc)%Q)
    (RAGContext.relevantDocuments context)
  /\ Forall (fun example => (65 # 100 < ExampleSearchResult.similarity example)%Q)
       (RAGContext.similarExamples context).
Proof.
  intros (weighted & keyword & examples & Hw & Hk & Hx & ->)%buildEnhancedContext_inv.
  apply searchPantherRules_above in Hw as [_ Hw]; [|lra].
  apply searchByPantherFunctions_above in Hk as [_ Hk].
  apply searchSimilarExamples_inv in Hx as [_ Hx].
  cbn [RAGContext.relevantDocuments RAGContext.similarExamples]. split; [|done].
  apply Forall_take.
  apply (sublist_Forall _ _ _ (filterUnseen_sublist _ _)).
  apply Forall_app. split; [|done].
  eapply Forall_impl; [exact Hw|]. intros doc Hdoc. simpl in Hdoc. lra.
Qed.

Lemma references_above w code context ruleScore qualityScore :
  ValidateRag.ragContext w true code = Ok context ->
  Forall (fun ref => (1 # 2 < DocumentReference.relevanceScore ref)%Q)
    (ValidateRag.documentReferences context)
  /\ Forall (fun ref => (65 # 100 < ExampleReference.similarity ref)%Q)
       (ValidateRag.exampleReferences ruleScore qualityScore context).
Proof.
  unfold ValidateRag.ragContext.
  destruct (RAGEngine.buildEnhancedContext w code) as [built|] eqn:Hbuilt;
    simpl; [|discriminate].
  intros [= <-]. apply buildEnhancedContext_above in Hbuilt as [Hdocs Hsimilar].
  cbn [ValidateRag.documentReferences ValidateRag.exampleReferences
       RAGContext.relevantDocuments RAGContext.similarExamples].
  split; apply Forall_map.
  - eapply Forall_impl; [exact Hdocs|]. by intros doc Hdoc.
  - eapply Forall_impl; [exact Hsimilar|]. by intros example Hexample.
Qed.

(** X27.  The reference lists the [validate-rag] route builds, with
    retrieval enabled, and what the schema makes of them.  There are at
    most five document references, of distinct identities, each of a
    relevance above 0.5 and with at most the first 500 units of its
    document, and at most three example references, each of a similarity
    above 0.65, with one to three improvements and at most the first 300
    units of its code.  The schema accepts the two lists exactly when no
    relevance and no similarity exceeds 1 and every quality score lies
    within 0 and 100; otherwise the route has no result. *)
Theorem route_references w code context ruleScore qualityScore :
  ValidateRag.ragContext w true code = Ok context ->
  let documents := ValidateRag.documentReferences context in
  let examples := ValidateRag.exampleReferences ruleScore qualityScore context in
  (length documents <= 5
   /\ NoDup (DocumentReference.id <$> documents)
   /\ Forall (fun ref =>
                (1 # 2 < DocumentReference.relevanceScore ref)%Q
                /\ length (DocumentReference.content ref) <= 500) documents)
  /\ (length examples <= 3
      /\ Forall (fun ref =>
                   (65 # 100 < ExampleReference.similarity ref)%Q
                   /\ 1 <= length (ExampleReference.improvements ref) <= 3
                   /\ length (ExampleReference.codeSnippet ref) <= 300) examples)
  /\ (ValidateRag.validatedReferences ruleScore qualityScore context
        = Some (documents, examples)
      <-> Forall (fun ref => (DocumentReference.relevanceScore ref <= 1)%Q) documents
          /\ Forall (fun ref =>
                       (ExampleReference.similarity ref <= 1)%Q
                       /\ (0 <= ExampleReference.qualityScore ref <= 100)%Z) examples)
  /\ (ValidateRag.validatedReferences ruleScore qualityScore context = None
      <-> Exists (fun ref => (1 < DocumentReference.relevanceScore ref)%Q) documents
          \/ Exists (fun ref =>
                       (1 < ExampleReference.similarity ref)%Q
                       \/ (ExampleReference.qualityScore ref < 0)%Z
                       \/ (100 < ExampleReference.qualityScore ref)%Z) examples).
Proof.
  intros Hcontext documents examples.
  destruct (references_built w code context ruleScore qualityScore Hcontext)
    as (Hfive & Hnodup & Hcontent & Hthree & Hexamples & _).
  destruct (references_above w code context ruleScore qualityScore Hcontext)
    as [Hrelevance Hsimilarity].
  fold documents in Hfive, Hnodup, Hcontent, Hrelevance.
  fold examples in Hthree, Hexamples, Hsimilarity.
  split; [|split; [|split]].
  - split; [done|]. split; [done|]. apply Forall_and. by split.
  - split; [done|]. apply Forall_and. by split.
  - unfold ValidateRag.validatedReferences, Schemas.referencesAccepted.
    fold documents examples.
    rewrite <- (Forall_iff_under _ (fun ref => Schemas.DocumentReferenceSchema ref = true)
                  _ documents Hrelevance).
    2:{ intros ref Href. unfold Schemas.DocumentReferenceSchema. rewrite between_true.
        split; [by intros [_ ?]|]. intros ?. split; [lra|done]. }
    rewrite <- (Forall_iff_under _ (fun ref => Schemas.ExampleReferenceSchema ref = true)
                  _ examples Hsimilarity).
    2:{ intros ref Href. unfold Schemas.ExampleReferenceSchema.
        rewrite andb_true_iff, !between_true.
        change 0%Q with (inject_Z 0) at 2. change 100%Q with (inject_Z 100).
        rewrite <- !Zle_Qle. split; [by intros [[_ ?] ?]|].
        intros [? ?]. split; [split; [lra|done]|done]. }
    rewrite <- !forallb_Forall, <- andb_true_iff.
    destruct (_ && _); split; try done.
  - unfold ValidateRag.validatedReferences, Schemas.referencesAccepted.
    fold documents examples.
    rewrite <- (Exists_iff_under _ (fun ref => Schemas.DocumentReferenceSchema ref = false)
                  _ documents Hrelevance).
    2:{ intros ref Href. unfold Schemas.DocumentReferenceSchema. rewrite between_false.
        split; [intros [?|?]; [lra|done]|by right]. }
    rewrite <- (Exists_iff_under _ (fun ref => Schemas.ExampleReferenceSchema ref = false)
                  _ examples Hsimilarity).
    2:{ intros ref Href. unfold Schemas.ExampleReferenceSchema.
        rewrite andb_false_iff, !between_false.
        change 0%Q with (inject_Z 0) at 2. change 100%Q with (inject_Z 100).
        rewrite <- !Zlt_Qlt. split; [intros [[?|?]|[?|?]]; try lra; tauto|].
        intros [?|[?|?]]; tauto. }
    rewrite <- !forallb_Exists, <- andb_false_iff.
    destruct (_ && _); split; try done.
Qed.

Lemma route_references_witness :
  exists context,
    ValidateRag.ragContext
      (Sample.world Sample.bruteForce Scenario.examples Sample.noFault) true
      (txt "def rule(event): return True")
      = Ok context
    /\ length (ValidateRag.documentReferences context) <= 5
    /\ ValidateRag.validatedReferences (Some 80%Q) None context
       = Some (ValidateRag.documentReferences context,
               ValidateRag.exampleReferences (Some 80%Q) None context)
    /\ Forall (fun ref => (DocumentReference.relevanceScore ref <= 1)%Q)
         (ValidateRag.documentReferences context).
Proof.
  eexists. split; [reflexivity|].
  destruct (route_references
              (Sample.world Sample.bruteForce Scenario.examples Sample.noFault)
              (txt "def rule(event): return True") _
              (Some 80%Q) None eq_refl)
    as ((Hdocuments & _) & _ & [Haccepted _] & _).
  split; [exact Hdocuments|]. split; [by vm_compute|].
  apply Haccepted. by vm_compute.
Defined.

(** A weighted score above 1 costs the route its result. *)
Example route_references_refused :
  (context ← ValidateRag.ragContext Scenario.library true
               (txt "def rule(event): return True");
   Ok (ValidateRag.validatedReferences (Some 80%Q) None context))
  = Ok None.
Proof. by vm_compute. Qed.
